(** * minushalf: atomic input files, radial potentials and the conduction
      correction, embedded from the Python sources

    Part I holds the model (one module per source class, after the modules
    for the Python values the code manipulates); Part II holds the lemmas and
    the theorems about it; Part III holds further properties of the same
    functions: their error paths, what they return on well-formed input and
    how they compose. *)

From Stdlib Require Import ZArith Ascii String Floats Lia.
From Stdlib Require Import DecimalString DecimalZ.
From stdpp Require Import base option list gmap strings.

Set Default Proof Using "Type".
Set Warnings "-inexact-float".
Local Open Scope Z_scope.
Local Open Scope list_scope.

(* ===================================================================== *)
(** * Part I: the model                                                   *)
(* ===================================================================== *)

(** ** Python values: strings, exceptions, results *)

(** A Python [str] is a sequence of characters; the model keeps one byte per
    character (code points 0..255).  A literal is written as a Rocq string
    and coerced. *)
Definition str := list ascii.

Coercion list_ascii_of_string : string >-> list.

(** The exceptions the modelled code raises, and those the file system
    raises under it.  [Exception] is the bare [Exception(...)] of the
    sources. *)
Inductive exn :=
| ValueError (msg : string)
| KeyError
| IndexError
| UnboundLocalError
| OverflowError
| FileNotFoundError (msg : string)
| NotADirectoryError
| IsADirectoryError
| FileExistsError
| Exception (msg : string).

(** The outcome of a call: a value, or a raised exception. *)
Inductive result (A : Type) :=
| Return (a : A)
| Raise (e : exn).

Arguments Return {A} a.
Arguments Raise {A} e.

#[global] Instance result_ret : MRet result := fun A a => Return a.
#[global] Instance result_bind : MBind result :=
  fun A B k c => match c with Return a => k a | Raise e => Raise e end.
#[global] Instance result_fmap : FMap result :=
  fun A B f c => match c with Return a => Return (f a) | Raise e => Raise e end.

(** [try: c except: raise e] with a bare [except]: whatever [c] raises is
    replaced by [e]. *)
Definition try_except_raise {A} (c : result A) (e : exn) : result A :=
  match c with Return a => Return a | Raise _ => Raise e end.

(** [xs[i]] on a list: IndexError out of range (non-negative [i] only, the
    sources index with literals). *)
Definition getitem {A} (xs : list A) (i : nat) : result A :=
  match xs !! i with Some x => Return x | None => Raise IndexError end.

(** Evaluate [f] on every element, left to right, stopping at the first
    exception: a list comprehension. *)
Fixpoint comprehension {A B} (f : A -> result B) (xs : list A) : result (list B) :=
  match xs with
  | [] => Return []
  | x :: xs' => y ← f x; ys ← comprehension f xs'; Return (y :: ys)
  end.

Module Py.

(** [str.isspace] on one character, for code points below 256. *)
Definition isspace (c : ascii) : bool :=
  let k := N_of_ascii c in
  ((9 <=? k) && (k <=? 13) || (28 <=? k) && (k <=? 32)
   || (k =? 133) || (k =? 160))%N.

Definition newline : ascii := ascii_of_N 10.

Definition is_lower (c : ascii) : bool :=
  let k := N_of_ascii c in ((97 <=? k) && (k <=? 122))%N.
Definition is_upper (c : ascii) : bool :=
  let k := N_of_ascii c in ((65 <=? k) && (k <=? 90))%N.

(** Case mapping of the ASCII letters; every other character is kept. *)
Definition upper (c : ascii) : ascii :=
  if is_lower c then ascii_of_N (N_of_ascii c - 32) else c.
Definition lower (c : ascii) : ascii :=
  if is_upper c then ascii_of_N (N_of_ascii c + 32) else c.

(** [s.capitalize()]; [s.upper()] and [s.lower()] are [map upper s] and
    [map lower s]. *)
Definition capitalize (s : str) : str :=
  match s with
  | [] => []
  | c :: s' => upper c :: map lower s'
  end.

(** The shape [capitalize] gives: no lower-case letter in front, no
    upper-case letter after it. *)
Definition capitalized (s : str) : Prop :=
  match s with
  | [] => True
  | c :: s' => is_lower c = false /\ Forall (fun d => is_upper d = false) s'
  end.

(** A string without whitespace, and a non-empty one: what [split] yields. *)
Definition no_space (s : str) : Prop := Forall (fun c => isspace c = false) s.
Definition token (s : str) : Prop := s <> [] /\ no_space s.

(** [s.split()]: maximal runs of non-whitespace characters.  [cur] is the
    token being read, reversed. *)
Fixpoint split_aux (cur : list ascii) (s : list ascii) : list str :=
  match s with
  | [] => match cur with [] => [] | _ => [rev cur] end
  | c :: s' =>
      if isspace c
      then match cur with
           | [] => split_aux [] s'
           | _ => rev cur :: split_aux [] s'
           end
      else split_aux (c :: cur) s'
  end.
Definition split (s : str) : list str := split_aux [] s.

(** [s.split(sep)] for a one-character separator: empty fields are kept
    and the result is never empty. *)
Fixpoint split_on_aux (sep : ascii) (cur : list ascii) (s : list ascii) : list str :=
  match s with
  | [] => [rev cur]
  | c :: s' =>
      if Ascii.eqb c sep then rev cur :: split_on_aux sep [] s'
      else split_on_aux sep (c :: cur) s'
  end.
Definition split_on (sep : ascii) (s : str) : list str := split_on_aux sep [] s.

(** [sep.join(xs)]. *)
Fixpoint join (sep : str) (xs : list str) : str :=
  match xs with
  | [] => []
  | [x] => x
  | x :: xs' => x ++ sep ++ join sep xs'
  end.

(** [xs[k:]] with Python's reading of a negative start. *)
Definition slice_from {A} (k : Z) (xs : list A) : list A :=
  if k <? 0 then drop (Z.to_nat (Z.of_nat (length xs) + k)) xs
  else drop (Z.to_nat k) xs.

(** [str(z)] and ["{}".format(z)] for an int. *)
Definition str_of_int (z : Z) : str :=
  list_ascii_of_string (NilZero.string_of_int (Z.to_int z)).

Definition is_digit (c : ascii) : bool :=
  let k := N_of_ascii c in ((48 <=? k) && (k <=? 57))%N.

(** [s.strip()]: whitespace removed at both ends. *)
Fixpoint lstrip (s : str) : str :=
  match s with
  | c :: s' => if isspace c then lstrip s' else s
  | [] => []
  end.
Definition strip (s : str) : str := rev (lstrip (rev (lstrip s))).

Definition underscore : ascii := ascii_of_N 95.

(** The digit part of an int literal as [int()] reads it: digits, with
    single underscores allowed between two digits. *)
Fixpoint digits_ok_aux (prev_digit : bool) (s : str) : bool :=
  match s with
  | [] => prev_digit
  | c :: s' =>
      if is_digit c then digits_ok_aux true s'
      else if Ascii.eqb c underscore then prev_digit && digits_ok_aux false s'
      else false
  end.
Definition digits_ok (s : str) : bool := digits_ok_aux false s.

(** [int(s)] for a [str]: [None] stands for ValueError. *)
Definition int_of_str (s : str) : option Z :=
  let t := strip s in
  let '(neg, ds) :=
    match t with
    | c :: r =>
        if Ascii.eqb c "-" then (true, r)
        else if Ascii.eqb c "+" then (false, r) else (false, t)
    | [] => (false, [])
    end in
  if digits_ok ds then
    match NilEmpty.uint_of_string
            (string_of_list_ascii
               (List.filter (fun c => negb (Ascii.eqb c underscore)) ds)) with
    | Some u => Some (if neg then - Z.of_uint u else Z.of_uint u)
    | None => None
    end
  else None.

Definition int (s : str) : result Z :=
  match int_of_str s with
  | Some z => Return z
  | None => Raise (ValueError "invalid literal for int() with base 10")
  end.

(** The integer nearest to [k * m * 2^e], ties to even. *)
Definition rounded (k : Z) (m : positive) (e : Z) : Z :=
  let n := k * Z.pos m in
  if 0 <=? e then n * 2 ^ e
  else
    let d := 2 ^ (- e) in
    let q := n / d in
    let r := n mod d in
    if 2 * r <? d then q
    else if d <? 2 * r then q + 1
    else if Z.even q then q else q + 1.

(** [round(x)] for a float: an int, ties to even. *)
Definition round (x : float) : result Z :=
  match Prim2SF x with
  | S754_nan => Raise (ValueError "cannot convert float NaN to integer")
  | S754_infinity _ => Raise OverflowError
  | S754_zero _ => Return 0
  | S754_finite s m e => Return (if s then - rounded 1 m e else rounded 1 m e)
  end.

(** ["{:.2f}".format(x)]: the exact binary value of [x], rounded to
    hundredths with ties to even, printed with two decimals. *)
Definition hundredths (m : positive) (e : Z) : Z := rounded 100 m e.

Definition two_digits (k : Z) : str :=
  (if k <? 10 then ("0" : str) else []) ++ str_of_int k.

Definition format_2f (x : float) : str :=
  match Prim2SF x with
  | S754_nan => "nan"
  | S754_infinity s => if s then "-inf" else "inf"
  | S754_zero s => (if s then ("-" : str) else []) ++ "0.00"
  | S754_finite s m e =>
      let h := hundredths m e in
      (if s then ("-" : str) else []) ++ str_of_int (h / 100)
        ++ "." ++ two_digits (h mod 100)
  end.

End Py.

(** ** Regular expressions, as [re.compile(p).match(s)] uses them *)

Module Re.

(** The fragment of Python's pattern syntax the sources use.  Groups only
    bracket, so they leave no trace in the tree; [^] at the head of a
    pattern given to [match] holds at once and is dropped. *)
Inductive regex :=
| Void                          (* matches nothing *)
| Eps                           (* the empty pattern *)
| Chr (c : ascii)               (* a literal character *)
| Dot                           (* [.]: any character but a newline *)
| Space                         (* [\s] *)
| Seq (r1 r2 : regex)
| Alt (r1 r2 : regex)           (* [r1|r2] *)
| Star (r : regex).             (* [r*] *)

Definition Opt (r : regex) : regex := Alt r Eps.        (* [r?] *)
Definition Plus (r : regex) : regex := Seq r (Star r).  (* [r+] *)

(** A literal word. *)
Fixpoint Lit (s : str) : regex :=
  match s with
  | [] => Eps
  | c :: s' => Seq (Chr c) (Lit s')
  end.

(** [r1|r2|...]. *)
Fixpoint Alts (rs : list regex) : regex :=
  match rs with
  | [] => Void
  | [r] => r
  | r :: rs' => Alt r (Alts rs')
  end.

(** The words of a pattern. *)
Inductive matches : regex -> list ascii -> Prop :=
| m_eps : matches Eps []
| m_chr c : matches (Chr c) [c]
| m_dot c : c <> Py.newline -> matches Dot [c]
| m_space c : Py.isspace c = true -> matches Space [c]
| m_seq r1 r2 s1 s2 : matches r1 s1 -> matches r2 s2 -> matches (Seq r1 r2) (s1 ++ s2)
| m_alt_l r1 r2 s : matches r1 s -> matches (Alt r1 r2) s
| m_alt_r r1 r2 s : matches r2 s -> matches (Alt r1 r2) s
| m_star_nil r : matches (Star r) []
| m_star_cons r s1 s2 : matches r s1 -> matches (Star r) s2 -> matches (Star r) (s1 ++ s2).

Fixpoint nullable (r : regex) : bool :=
  match r with
  | Void | Chr _ | Dot | Space => false
  | Eps | Star _ => true
  | Seq r1 r2 => nullable r1 && nullable r2
  | Alt r1 r2 => nullable r1 || nullable r2
  end.

(** What is left of [r] after reading the character [c]. *)
Fixpoint deriv (c : ascii) (r : regex) : regex :=
  match r with
  | Void | Eps => Void
  | Chr d => if Ascii.eqb c d then Eps else Void
  | Dot => if Ascii.eqb c Py.newline then Void else Eps
  | Space => if Py.isspace c then Eps else Void
  | Seq r1 r2 =>
      if nullable r1 then Alt (Seq (deriv c r1) r2) (deriv c r2)
      else Seq (deriv c r1) r2
  | Alt r1 r2 => Alt (deriv c r1) (deriv c r2)
  | Star r1 => Seq (deriv c r1) (Star r1)
  end.

(** [pattern.fullmatch(s)]: the whole of [s] is a word of [r]. *)
Fixpoint fullmatch (r : regex) (s : list ascii) : bool :=
  match s with
  | [] => nullable r
  | c :: s' => fullmatch (deriv c r) s'
  end.

(** [pattern.match(s)], read as a truth value: some prefix of [s] is a
    word of [r]. *)
Fixpoint re_match (r : regex) (s : list ascii) : bool :=
  nullable r ||
  match s with
  | [] => false
  | c :: s' => re_match (deriv c r) s'
  end.

End Re.

(** ** Text files *)

Module TextFile.

Definition CR : ascii := ascii_of_N 13.

(** Reading in text mode translates ["\r\n"] and a lone ["\r"] to ["\n"]. *)
Fixpoint universal_newlines (s : str) : str :=
  match s with
  | [] => []
  | c1 :: s1 =>
      if Ascii.eqb c1 CR then
        match s1 with
        | c2 :: s2 =>
            if Ascii.eqb c2 Py.newline then Py.newline :: universal_newlines s2
            else Py.newline :: universal_newlines s1
        | [] => [Py.newline]
        end
      else c1 :: universal_newlines s1
  end.

(** A text without line end, and a line with its newline. *)
Definition plain (s : str) : Prop :=
  Forall (fun c => c <> Py.newline /\ c <> CR) s.
Definition complete_line (s : str) : Prop :=
  exists body, s = body ++ [Py.newline] /\ plain body.

(** Cut after every newline; the last line may lack one.  [cur] is the
    line being read, reversed. *)
Fixpoint lines_aux (cur : list ascii) (s : str) : list str :=
  match s with
  | [] => match cur with [] => [] | _ => [rev cur] end
  | c :: s' =>
      if Ascii.eqb c Py.newline then rev (c :: cur) :: lines_aux [] s'
      else lines_aux (c :: cur) s'
  end.

(** [file.readlines()], and the lines a [for line in file] loop sees, for
    a file of the given content. *)
Definition readlines (content : str) : list str :=
  lines_aux [] (universal_newlines content).

(** [file.writelines(lines)] into an empty file: the content written. *)
Definition writelines (lines : list str) : str := concat lines.

End TextFile.

(** ** [minushalf.utils]: what the sources import from it *)

(** An entry of [valence_orbitals]: the dict
    [{"n": ..., "l": ..., "occupation": [...]}], by value. *)
Module Orbital.
Record t := mk { n : Z; l : Z; occupation : list float }.
End Orbital.

(** The tables and helpers of [minushalf.utils] and the float parser of the
    language, whose code is outside the sources at hand: parameters of the
    model.
    - [PeriodicTable s] tells whether [PeriodicTable[s]] finds a member;
    - [ElectronicDistribution s] is [ElectronicDistribution[s].value] when
      the member exists;
    - [float_of_str s] is [float(s)], [None] standing for ValueError;
    - [float_repr x] is [str(x)] for a float. *)
Class Utils := {
  PeriodicTable : str -> bool;
  ElectronicDistribution : str -> option (list str);
  drop_comments : list str -> list str;
  parse_valence_orbitals : str -> result Orbital.t;
  float_of_str : str -> option float;
  float_repr : float -> str;
}.

(** ** [minushalf/atomic/input_file.py] *)

Module InputFile.

Record t := mk {
  exchange_correlation_type : str;
  calculation_code : str;
  description : str;
  chemical_symbol : str;
  esoteric_line : str;
  number_core_orbitals : Z;
  number_valence_orbitals : Z;
  valence_orbitals : list Orbital.t;
  last_lines : list str;
}.

Definition nl : str := [Py.newline].

(** [(ca|wi|hl|gl|bh|pb|rp|rv|bl)(s|r)?] *)
Definition xc_codes : list str :=
  [("ca" : str); ("wi" : str); ("hl" : str); ("gl" : str); ("bh" : str);
   ("pb" : str); ("rp" : str); ("rv" : str); ("bl" : str)].
Definition xc_validation_regex : Re.regex :=
  Re.Seq (Re.Alts (map Re.Lit xc_codes)) (Re.Opt (Re.Alt (Re.Chr "s") (Re.Chr "r"))).

(** [(ae)] *)
Definition calculation_validation_regex : Re.regex := Re.Lit "ae".

Section WithUtils.
Context `{Utils}.

(** The three validating setters: the value they store in the private
    attribute, or the exception they raise. *)
Definition chemical_symbol_setter (symbol : str) : result str :=
  if PeriodicTable symbol then Return (Py.capitalize symbol)
  else Raise (ValueError "The chemical symbol passed is not correct").

Definition exchange_correlation_type_setter (exchange_correlation_type : str)
  : result str :=
  if negb (Re.re_match xc_validation_regex exchange_correlation_type) then
    Raise (ValueError "Your value of exchange and correlation functional is not valid")
  else Return exchange_correlation_type.

Definition calculation_code_setter (calculation_code : str) : result str :=
  if negb (Re.re_match calculation_validation_regex calculation_code) then
    Raise (ValueError "Your value of calculation is not valid")
  else Return calculation_code.

(** Assignment to the three properties of an existing object. *)
Definition set_chemical_symbol (self : t) (symbol : str) : result t :=
  v ← chemical_symbol_setter symbol;
  Return (mk (exchange_correlation_type self) (calculation_code self)
             (description self) v (esoteric_line self)
             (number_core_orbitals self) (number_valence_orbitals self)
             (valence_orbitals self) (last_lines self)).

Definition set_exchange_correlation_type (self : t) (xc : str) : result t :=
  v ← exchange_correlation_type_setter xc;
  Return (mk v (calculation_code self)
             (description self) (chemical_symbol self) (esoteric_line self)
             (number_core_orbitals self) (number_valence_orbitals self)
             (valence_orbitals self) (last_lines self)).

Definition set_calculation_code (self : t) (code : str) : result t :=
  v ← calculation_code_setter code;
  Return (mk (exchange_correlation_type self) v
             (description self) (chemical_symbol self) (esoteric_line self)
             (number_core_orbitals self) (number_valence_orbitals self)
             (valence_orbitals self) (last_lines self)).

(** [InputFile(...)]: the assignments of [__init__], in their order. *)
Definition init (exchange_correlation_type calculation_code chemical_symbol
                 esoteric_line : str)
           (number_valence_orbitals number_core_orbitals : Z)
           (valence_orbitals : list Orbital.t) (description : str)
           (last_lines : option (list str)) : result t :=
  xc ← exchange_correlation_type_setter exchange_correlation_type;
  cc ← calculation_code_setter calculation_code;
  sym ← chemical_symbol_setter chemical_symbol;
  Return (mk xc cc description sym esoteric_line
             number_core_orbitals number_valence_orbitals valence_orbitals
             (match last_lines with
              | None | Some [] => []
              | Some ls => ls
              end)).

(** One line per valence orbital of [to_stringlist]. *)
Definition orbital_line (orbital : Orbital.t) : str :=
  let occupation :=
    Py.join "      " (map Py.format_2f (Orbital.occupation orbital)) in
  "    " ++ Py.str_of_int (Orbital.n orbital) ++ "    "
    ++ Py.str_of_int (Orbital.l orbital) ++ "      " ++ occupation ++ nl.

Definition to_stringlist (self : t) : list str :=
  [ "   " ++ calculation_code self ++ "      " ++ description self ++ nl;
    " n=" ++ chemical_symbol self;
    (if (length (chemical_symbol self) =? 2)%nat
     then " c=" ++ exchange_correlation_type self ++ nl
     else "  c=" ++ exchange_correlation_type self ++ nl);
    esoteric_line self;
    (if number_core_orbitals self <=? 9
     then "    " ++ Py.str_of_int (number_core_orbitals self) ++ "    "
            ++ Py.str_of_int (number_valence_orbitals self) ++ nl
     else "   " ++ Py.str_of_int (number_core_orbitals self) ++ "    "
            ++ Py.str_of_int (number_valence_orbitals self) ++ nl) ]
  ++ map orbital_line (valence_orbitals self)
  ++ last_lines self.

(** [to_file]: the content of the file written. *)
Definition to_file (self : t) : str :=
  TextFile.writelines (to_stringlist self).

(** The lines of that file: those of [to_stringlist], whose second and third
    strings make one line. *)
Definition file_lines (self : t) : list str :=
  [ "   " ++ calculation_code self ++ "      " ++ description self ++ nl;
    (" n=" ++ chemical_symbol self)
      ++ (if (length (chemical_symbol self) =? 2)%nat
          then " c=" ++ exchange_correlation_type self ++ nl
          else "  c=" ++ exchange_correlation_type self ++ nl);
    esoteric_line self;
    (if number_core_orbitals self <=? 9
     then "    " ++ Py.str_of_int (number_core_orbitals self) ++ "    "
            ++ Py.str_of_int (number_valence_orbitals self) ++ nl
     else "   " ++ Py.str_of_int (number_core_orbitals self) ++ "    "
            ++ Py.str_of_int (number_valence_orbitals self) ++ nl) ]
  ++ map orbital_line (valence_orbitals self)
  ++ last_lines self.

(** [from_file], for a file of the given content. *)
Definition from_file (content : str) : result t :=
  let lines_without_comments := drop_comments (TextFile.readlines content) in
  '(calculation_code, description) ←
    try_except_raise
      (line ← getitem lines_without_comments 0;
       code ← getitem (Py.split line) 0;
       Return (code, Py.join " " (drop 1 (Py.split line))))
      (ValueError "Description or calculation code not provided");
  '(chemical_symbol, exchange_correlation_type) ←
    try_except_raise
      (line ← getitem lines_without_comments 1;
       t0 ← getitem (Py.split line) 0;
       symbol ← getitem (Py.split_on "=" t0) 1;
       t1 ← getitem (Py.split line) 1;
       xc ← getitem (Py.split_on "=" t1) 1;
       Return (symbol, xc))
      (ValueError "Chemical symbol or exchange correlation not provided");
  esoteric_line ← getitem lines_without_comments 2;
  '(number_core_orbitals, number_valence_orbitals) ←
    try_except_raise
      (line ← getitem lines_without_comments 3;
       t0 ← getitem (Py.split line) 0;
       ncore ← Py.int t0;
       t1 ← getitem (Py.split line) 1;
       nval ← Py.int t1;
       Return (ncore, nval))
      (ValueError "Number of core orbitals or number of valence orbitals not provided");
  valence_orbitals ←
    try_except_raise
      (comprehension
         (fun i => line ← getitem lines_without_comments i;
                   parse_valence_orbitals line)
         (seq 4 (Z.to_nat number_valence_orbitals)))
      (ValueError "Valence orbitals do not provided correctly");
  let last_lines :=
    Py.slice_from (4 + number_valence_orbitals) lines_without_comments in
  init exchange_correlation_type calculation_code chemical_symbol
       esoteric_line number_valence_orbitals number_core_orbitals
       valence_orbitals description (Some last_lines).

Definition minimum_setup (chemical_symbol exchange_correlation_type : str)
           (maximum_iterations : Z) (calculation_code : str) : result t :=
  let description := chemical_symbol in
  let esoteric_line : str :=
    "       0.0       0.0       0.0       0.0       0.0       0.0" ++ nl in
  let last_lines := [Py.str_of_int maximum_iterations ++ " maxit" ++ nl] in
  electronic_distribution ←
    try_except_raise
      (match ElectronicDistribution chemical_symbol with
       | Some value => Return value
       | None => Raise KeyError
       end)
      (ValueError "This element its not available in our database");
  head ← getitem electronic_distribution 0;
  t0 ← getitem (Py.split head) 0;
  number_core_orbitals ← Py.int t0;
  t1 ← getitem (Py.split head) 1;
  number_valence_orbitals ← Py.int t1;
  valence_orbitals ←
    comprehension parse_valence_orbitals (drop 1 electronic_distribution);
  init exchange_correlation_type calculation_code chemical_symbol
       esoteric_line number_valence_orbitals number_core_orbitals
       valence_orbitals description (Some last_lines).

(** What the way through a file asks of an [InputFile]: the two codes and
    the symbol are single words the setters accept, without [=]; the
    description is made of words separated by one space; the esoteric line
    and the last lines are complete lines; the orbital count is the number of
    orbitals; [parse_valence_orbitals] reads every orbital line back to an
    orbital that prints the same; and no line of the file is taken for a
    comment. *)
Record serializable (self : t) : Prop := {
  ser_code :
    Py.no_space (calculation_code self)
    /\ Re.re_match calculation_validation_regex (calculation_code self) = true;
  ser_description :
    exists words, Forall Py.token words /\ description self = Py.join " " words;
  ser_symbol :
    Py.no_space (chemical_symbol self)
    /\ Forall (fun c => c <> "="%char) (chemical_symbol self)
    /\ Py.capitalized (chemical_symbol self)
    /\ PeriodicTable (chemical_symbol self) = true;
  ser_xc :
    Py.no_space (exchange_correlation_type self)
    /\ Forall (fun c => c <> "="%char) (exchange_correlation_type self)
    /\ Re.re_match xc_validation_regex (exchange_correlation_type self) = true;
  ser_esoteric : TextFile.complete_line (esoteric_line self);
  ser_count :
    number_valence_orbitals self = Z.of_nat (length (valence_orbitals self));
  ser_orbitals :
    Forall (fun o => exists o', parse_valence_orbitals (orbital_line o) = Return o'
                                /\ orbital_line o' = orbital_line o)
           (valence_orbitals self);
  ser_last : Forall TextFile.complete_line (last_lines self);
  ser_comments :
    drop_comments (TextFile.readlines (to_file self))
    = TextFile.readlines (to_file self);
}.

End WithUtils.

(** *** [electron_occupation], on the objects

    [valence_orbitals] holds references: each dict points to the list
    object of its occupation, and [value["occupation"][0] -= x] writes into
    that list.  The store maps a reference to the list it denotes. *)
Definition ref := positive.

Record orbital_dict := mk_dict {
  dict_n : Z;
  dict_l : Z;
  dict_occupation : ref;
}.

(** The value of an orbital in a store. *)
Definition read_orbital (st : gmap ref (list float)) (o : orbital_dict) : Orbital.t :=
  Orbital.mk (dict_n o) (dict_l o) (st !!! dict_occupation o).

(** [np.isclose(a, b, rtol, atol, equal_nan=False)] on two scalars. *)
Definition np_isclose (a b rtol atol : float) : bool :=
  if PrimFloat.is_finite a && PrimFloat.is_finite b
  then PrimFloat.leb (PrimFloat.abs (a - b)) (atol + rtol * PrimFloat.abs b)
  else PrimFloat.eqb a b.

(** Whether the loop stops at [value]: its first occupation component is
    not close to zero and its [l] is the one asked for. *)
Definition eligible (st : gmap ref (list float)) (secondary_quantum_number : Z)
           (value : orbital_dict) : bool :=
  match st !!! dict_occupation value with
  | occ0 :: _ =>
      negb (np_isclose occ0 0 1e-04 1e-08)
      && (dict_l value =? secondary_quantum_number)
  | [] => false
  end.

(** The [for value in reversed(...)] loop with its [else]: the store it
    leaves, and how it ends. *)
Fixpoint occupation_loop (st : gmap ref (list float)) (values : list orbital_dict)
         (electron_fraction : float) (secondary_quantum_number : Z)
  : gmap ref (list float) * result unit :=
  match values with
  | [] =>
      (st, Raise (Exception
         "Trouble with occupation. Please verify the parameters passed and the INP file."))
  | value :: values' =>
      let occupation := st !!! dict_occupation value in
      match getitem occupation 0 with
      | Raise e => (st, Raise e)
      | Return occ0 =>
          let is_equal := np_isclose occ0 0 1e-04 1e-08 in
          if negb is_equal && (dict_l value =? secondary_quantum_number)
          then (<[dict_occupation value :=
                    <[0%nat := (occ0 - electron_fraction)%float]> occupation]> st,
                Return ())
          else occupation_loop st values' electron_fraction secondary_quantum_number
      end
  end.

Definition electron_occupation (st : gmap ref (list float))
           (valence_orbitals : list orbital_dict)
           (electron_fraction : float) (secondary_quantum_number : Z)
  : gmap ref (list float) * result unit :=
  occupation_loop st (rev valence_orbitals) electron_fraction
                  secondary_quantum_number.

(** An orbital whose first occupation component went down by [x]. *)
Definition shifted (x : float) (o : Orbital.t) : Orbital.t :=
  match Orbital.occupation o with
  | occ0 :: rest => Orbital.mk (Orbital.n o) (Orbital.l o) ((occ0 - x)%float :: rest)
  | [] => o
  end.

(** The strings the docstrings give for the exchange-correlation code,
    [(r)ca(s)] and so on: a code, an optional leading [r], an optional
    trailing [s]. *)
Definition documented_xc_codes : list str :=
  pre ← [([] : str); ("r" : str)];
  code ← xc_codes;
  suf ← [([] : str); ("s" : str)];
  [pre ++ code ++ suf].

End InputFile.

(** ** [minushalf/atomic/vtotal.py] *)

Module Vtotal.

(** [^.*Down\s+potential\s+follows] and [^.*Up\s+potential\s+follows]. *)
Definition marker (word : str) : Re.regex :=
  Re.Seq (Re.Star Re.Dot)
    (Re.Seq (Re.Lit word)
       (Re.Seq (Re.Plus Re.Space)
          (Re.Seq (Re.Lit "potential")
             (Re.Seq (Re.Plus Re.Space) (Re.Lit "follows"))))).
(** What [Vtotal(radius, down_potential)] holds; either array is [None]
    when its reader returned nothing. *)
Record t := mk {
  radius : option (list float);
  down_potential : option (list float);
}.

Definition down_regex : Re.regex := marker "Down".
Definition up_regex : Re.regex := marker "Up".

Section WithUtils.
Context `{Utils}.

(** [np.array(tokens, dtype=np.float)] on a flat list of strings. *)
Definition np_array (tokens : list str) : result (list float) :=
  comprehension
    (fun t => match float_of_str t with
              | Some x => Return x
              | None => Raise (ValueError "could not convert string to float")
              end)
    tokens.

(** The loop both readers end with: rows are collected until a line
    matches [stop_regex], and the array is returned there.  When the
    lines run out the function body ends, and the call evaluates to
    [None]. *)
Fixpoint read_table (stop_regex : Re.regex) (rows : list (list str))
         (lines : list str) : result (option (list float)) :=
  match lines with
  | [] => Return None
  | line :: lines' =>
      if Re.re_match stop_regex line
      then array ← np_array (concat rows); Return (Some array)
      else read_table stop_regex (rows ++ [Py.split line]) lines'
  end.

(** The first loop of [read_down_potential], a [for] with [break] and
    [else]: the lines left in the file after the marker, if any line
    matches. *)
Fixpoint after_marker (initial_regex : Re.regex) (lines : list str)
  : option (list str) :=
  match lines with
  | [] => None
  | line :: lines' =>
      if Re.re_match initial_regex line then Some lines'
      else after_marker initial_regex lines'
  end.

(** Both readers, for a file of the given content; [islice(vtotal, 1,
    None)] skips one line. *)
Definition read_down_potential (content : str) : result (option (list float)) :=
  match after_marker down_regex (TextFile.readlines content) with
  | None => Raise (ValueError "Potential informations do not found in vtotal")
  | Some vtotal => read_table up_regex [] (drop 1 vtotal)
  end.

Definition read_radius (content : str) : result (option (list float)) :=
  read_table down_regex [] (drop 1 (TextFile.readlines content)).

End WithUtils.

End Vtotal.

(** ** A sample of [minushalf.utils] *)

Module Sample.

(** [float(s)] on plain decimal literals [[-]digits[.digits]]: the
    quotient of two integers, rounded once (correctly rounded when both
    are below 2^53, hence for every literal of at most 15 digits); other
    literals are outside this sample. *)
Definition float_of_Z (z : Z) : float :=
  SF2Prim (binary_normalize prec emax z 0 false).

Definition decimal_literal (s : str) : option float :=
  let '(neg, body) :=
    match s with
    | c :: r => if Ascii.eqb c "-" then (true, r) else (false, s)
    | [] => (false, [])
    end in
  match Py.split_on "." body with
  | [ds] =>
      if forallb Py.is_digit ds && negb (length ds =? 0)%nat then
        match Py.int_of_str ds with
        | Some m => Some (if neg then - float_of_Z m else float_of_Z m)%float
        | None => None
        end
      else None
  | [ds; fs] =>
      if forallb Py.is_digit (ds ++ fs) && negb (length (ds ++ fs) =? 0)%nat then
        match Py.int_of_str (ds ++ fs) with
        | Some m =>
            let x := (float_of_Z m / float_of_Z (10 ^ Z.of_nat (length fs)))%float in
            Some (if neg then - x else x)%float
        | None => None
        end
      else None
  | _ => None
  end.

(** Modelled from the spec: [parse_valence_orbitals], absent from the
    sources; an orbital line holds the two quantum numbers and then the
    occupation, one float per spin component. *)
Definition parse_valence_orbitals (line : str) : result Orbital.t :=
  let tokens := Py.split line in
  t0 ← getitem tokens 0;
  n ← Py.int t0;
  t1 ← getitem tokens 1;
  l ← Py.int t1;
  occupation ←
    comprehension
      (fun t => match decimal_literal t with
                | Some x => Return x
                | None => Raise (ValueError "could not convert string to float")
                end)
      (drop 2 tokens);
  Return (Orbital.mk n l occupation).

(** Modelled from the spec: [drop_comments], absent from the sources; it
    "strips comment lines", read here as the lines whose first character
    is [#]. *)
Definition is_comment (line : str) : bool :=
  match line with
  | c :: _ => Ascii.eqb c "#"
  | [] => false
  end.
Definition drop_comments (lines : list str) : list str :=
  List.filter (fun line => negb (is_comment line)) lines.

(** Modelled from the spec: the periodic-table lookup, absent from the
    sources, for the first two rows of the table. *)
Definition PeriodicTable (symbol : str) : bool :=
  bool_decide (symbol ∈ [("H" : str); ("He" : str); ("Li" : str); ("Be" : str);
                         ("B" : str); ("C" : str); ("N" : str); ("O" : str);
                         ("F" : str); ("Ne" : str)]).

(** Modelled from the spec: the default electronic-distribution table,
    absent from the sources, with one entry (hydrogen: no core orbital, one
    valence orbital 1s holding one electron). *)
Definition ElectronicDistribution (symbol : str) : option (list str) :=
  if bool_decide (symbol = ("H" : str))
  then Some [("    0    1" : str); ("    1    0      1.00      0.00" : str)]
  else None.

(** The sample: the four stand-ins above, the decimal literals for
    [float(s)], and the two-decimal text for the text of a float. *)
#[export] Instance utils : Utils :=
  Build_Utils PeriodicTable ElectronicDistribution drop_comments
              parse_valence_orbitals decimal_literal Py.format_2f.

End Sample.

(** ** pandas: the projection table *)

Module Pandas.

(** What the code uses as a key, and what its lists of orbitals hold: a
    string or a float. *)
Inductive label :=
| LStr (s : str)
| LNum (x : float).

(** [a == b] on keys. *)
Definition label_eqb (a b : label) : bool :=
  match a, b with
  | LStr s, LStr t => bool_decide (s = t)
  | LNum x, LNum y => PrimFloat.eqb x y
  | _, _ => false
  end.

(** A frame whose row and column labels are strings, with its cells given
    by column and then by row, as [df[column][row]] reads them.  The frame
    has one column per column label and one row per row label: where a label
    is repeated, [df[label]] is a frame and [series[label]] a series in
    pandas, which this record does not describe. *)
Record DataFrame := mk {
  index : list str;
  columns : list str;
  cell : str -> str -> float;
}.

Record Series := mk_series {
  s_index : list str;
  s_cell : str -> float;
}.

(** [df[key]]: the column of that name, KeyError when there is none. *)
Definition getitem (df : DataFrame) (key : label) : result Series :=
  match key with
  | LStr c =>
      if bool_decide (c ∈ columns df)
      then Return (mk_series (index df) (cell df c))
      else Raise KeyError
  | LNum _ => Raise KeyError
  end.

(** [series[key]]: the entry of that row label. *)
Definition getitem_series (s : Series) (key : label) : result float :=
  match key with
  | LStr r =>
      if bool_decide (r ∈ s_index s) then Return (s_cell s r)
      else Raise KeyError
  | LNum _ => Raise KeyError
  end.

(** [df[a][b]]. *)
Definition at_ (df : DataFrame) (a b : label) : result float :=
  column ← getitem df a; getitem_series column b.

End Pandas.

(** ** [minushalf/corrections/vasp/conduction_fractionary.py]: the selection *)

Module Selection.
Import Pandas.

Definition minimum_percentual : float := 5.

(** A dict from row labels to lists, in insertion order. *)
Fixpoint dict_set (d : list (str * list label)) (k : str) (v : list label)
  : list (str * list label) :=
  match d with
  | [] => [(k, v)]
  | (k', v') :: d' =>
      if bool_decide (k = k') then (k', v) :: d' else (k', v') :: dict_set d' k v
  end.

Fixpoint dict_get (d : list (str * list label)) (k : str)
  : result (list label) :=
  match d with
  | [] => Raise KeyError
  | (k', v') :: d' => if bool_decide (k = k') then Return v' else dict_get d' k
  end.

(** The loop of [_get_corrections_indexes] over
    [itertools.product(rows_name, columns_name)]. *)
Fixpoint corrections_loop (cbm_projection : DataFrame)
         (pairs : list (str * str))
         (correction_indexes : list (str * list label))
  : result (list (str * list label)) :=
  match pairs with
  | [] => Return correction_indexes
  | (row, column) :: pairs' =>
      v ← at_ cbm_projection (LStr row) (LStr column);
      if PrimFloat.leb minimum_percentual v then
        w ← at_ cbm_projection (LStr column) (LStr row);
        l ← dict_get correction_indexes row;
        corrections_loop cbm_projection pairs'
                         (dict_set correction_indexes row (l ++ [LNum w]))
      else corrections_loop cbm_projection pairs' correction_indexes
  end.

Definition _get_corrections_indexes (cbm_projection : DataFrame)
  : result (list (str * list label)) :=
  let columns_name := columns cbm_projection in
  let rows_name := index cbm_projection in
  let correction_indexes :=
    fold_left (fun d row => dict_set d row []) rows_name [] in
  corrections_loop cbm_projection (list_prod rows_name columns_name)
                   correction_indexes.

(** The pairs [(symbol, orbital)] in the order the nested loops over
    [corrections_index.items()] visit them. *)
Definition targets (corrections_index : list (str * list label))
  : list (str * label) :=
  '(symbol, orbitals) ← corrections_index;
  orbital ← orbitals;
  [(symbol, orbital)].

Fixpoint sum_loop (cbm_projection : DataFrame) (pairs : list (str * label))
         (total_sum : float) : result float :=
  match pairs with
  | [] => Return total_sum
  | (symbol, orbital) :: pairs' =>
      v ← at_ cbm_projection orbital (LStr symbol);
      sum_loop cbm_projection pairs' (total_sum + v)%float
  end.

Definition _get_sum_correction_percentual (cbm_projection : DataFrame)
           (corrections_index : list (str * list label)) : result float :=
  sum_loop cbm_projection (targets corrections_index) 0%float.

(** [percentual] of [_find_best_correction]. *)
Definition percentual (cbm_projection : DataFrame)
           (sum_correction_percentual : float) (symbol : str) (orbital : label)
  : result float :=
  v ← at_ cbm_projection orbital (LStr symbol);
  Return (100 * (v / sum_correction_percentual))%float.

(** The fixture of the specification, [{Ga: {p: 90}, N: {d: 3}}], with the
    atoms as rows and the orbitals as columns, and the same table with the
    atoms as columns (what [pd.DataFrame] makes of that dict).  A cell the
    dict leaves out is NaN. *)
Definition fixture_cells (atom orbital : str) : float :=
  if bool_decide (atom = "Ga") && bool_decide (orbital = "p") then 90
  else if bool_decide (atom = "N") && bool_decide (orbital = "d") then 3
  else nan.

Definition fixture_atoms_as_rows : DataFrame :=
  mk [("Ga" : str); ("N" : str)] [("p" : str); ("d" : str)]
     (fun column row => fixture_cells row column).

Definition fixture_atoms_as_columns : DataFrame :=
  mk [("p" : str); ("d" : str)] [("Ga" : str); ("N" : str)]
     (fun column row => fixture_cells column row).

(** A dict whose lists hold numbers only, no orbital type. *)
Definition numbers_only (d : list (str * list label)) : Prop :=
  Forall (fun kv => Forall (fun x => exists v, x = LNum v) kv.2) d.

(** The selection the specification gives for the fixture. *)
Definition specified_selection : list (str * list label) :=
  [(("Ga" : str), [LStr "p"])].

End Selection.

(** ** The world around the orchestrator *)

(** A computation that reads and changes the world (the file system, the
    processes, the log) and ends with a value or an exception. *)
Definition M (world A : Type) : Type := world -> world * result A.

#[global] Instance M_ret {world} : MRet (M world) := fun A a w => (w, Return a).
#[global] Instance M_bind {world} : MBind (M world) :=
  fun A B k m w =>
    match m w with
    | (w', Return a) => k a w'
    | (w', Raise e) => (w', Raise e)
    end.

Definition raise {world A} (e : exn) : M world A := fun w => (w, Raise e).

(** A computation that does not touch the world. *)
Definition lift {world A} (r : result A) : M world A := fun w => (w, r).

(** [try: body finally: cleanup]: an exception of the cleanup replaces the
    outcome of the body. *)
Definition finally {world A} (body : M world A) (cleanup : M world unit)
  : M world A :=
  fun w =>
    let '(w1, r) := body w in
    match cleanup w1 with
    | (w2, Return _) => (w2, r)
    | (w2, Raise e) => (w2, Raise e)
    end.

(** A statement of a [try] block that has a [finally]: when it raises,
    the cleanup runs before the exception goes on. *)
Definition on_error {world A} (m : M world A) (cleanup : M world unit)
  : M world A :=
  fun w =>
    match m w with
    | (w1, Return a) => (w1, Return a)
    | (w1, Raise e) => finally (raise e) cleanup w1
    end.

(** [for x in xs: body x]. *)
Fixpoint for_each {world A} (xs : list A) (body : A -> M world unit)
  : M world unit :=
  match xs with
  | [] => mret ()
  | x :: xs' => _ ← body x; for_each xs' body
  end.

(** What the orchestrator calls and does not define: the operating system
    ([os], [shutil], [open], [subprocess], the logger) and the parts of
    minushalf outside the sources at hand.
    - [Popen_communicate argv cwd] is [Popen(argv, stdout=PIPE, stderr=PIPE,
      cwd=cwd).communicate()]: the pair of the two streams;
    - [bound_method_text s] is the text ["{}".format] gives for the bound
      method [s.upper];
    - [band_gap_in folder] stands for the five reads of [software_factory]
      on [folder], [BandStructure(...)] and [band_gap()["gap"]]. *)
Class Collaborators (world file potential_class atomic_potential potential : Type) := {
  os_path_exists : str -> world -> bool;
  shutil_rmtree : str -> M world unit;
  os_mkdir : str -> M world unit;
  os_remove : str -> M world unit;
  shutil_copyfile : str -> str -> M world unit;
  open_ : str -> string -> M world file;
  file_read : file -> M world str;
  file_write : file -> str -> M world unit;
  file_writelines : file -> list str -> M world unit;
  file_close : file -> M world unit;
  Popen_communicate : list str -> str -> M world (str * str);
  logger_error : string -> world -> world;
  bound_method_text : str -> str;
  ternary_search : float -> float -> (float -> M world float) -> M world (float * float);
  get_potential_class : str -> str -> M world potential_class;
  AtomicPotential : Vtotal.t -> Vtotal.t -> potential_class -> M world atomic_potential;
  correct_potential : atomic_potential -> float -> float -> bool -> M world potential;
  get_corrected_file_lines : atomic_potential -> potential -> M world (list str);
  runner_run : str -> M world unit;
  band_gap_in : str -> M world float;
}.

(** [os.path.join(a, b)] on POSIX paths. *)
Definition path_join (a b : str) : str :=
  match b with
  | c :: _ =>
      if Ascii.eqb c "/" then b
      else match last a with
           | None => b
           | Some d => if Ascii.eqb d "/" then a ++ b else a ++ "/" ++ b
           end
  | [] =>
      match last a with
      | None => []
      | Some d => if Ascii.eqb d "/" then a else a ++ "/"
      end
  end.

(** What [os.path.join] puts in front of a relative path. *)
Definition join_prefix (a : str) : str :=
  match last a with
  | None => []
  | Some d => if Ascii.eqb d "/" then a else a ++ "/"
  end.

(** Modelled from the spec: [OrbitalType] of [minushalf.data], absent from
    the sources; the angular momentum of an orbital type, 0=s, 1=p, 2=d,
    3=f.  [OrbitalType[key].value], KeyError for any other key. *)
Definition OrbitalType (key : Pandas.label) : result Z :=
  match key with
  | Pandas.LStr s =>
      if bool_decide (s = "s") then Return 0
      else if bool_decide (s = "p") then Return 1
      else if bool_decide (s = "d") then Return 2
      else if bool_decide (s = "f") then Return 3
      else Raise KeyError
  | Pandas.LNum _ => Raise KeyError
  end.

(** ** [minushalf/corrections/vasp/conduction_fractionary.py]: the run *)

Module Conduction.
Import Pandas.

(** The attributes [__init__] sets from its arguments. *)
Record t := mk {
  root_folder : str;
  atoms : list str;
  potential_filename : str;
  cbm_projection : DataFrame;
  exchange_correlation_type : str;
  max_iterations : Z;
  calculation_code : str;
  amplitude : float;
}.

Definition potential_folder : str := "valence_potfiles".
Definition conduction_potfiles_folder : str := "conduction_potfiles".

(** The folder of one evaluation of the objective function. *)
Definition cut_folder (base_path : str) (cut : float) : str :=
  let find_cut_path := path_join base_path "find_cut" in
  path_join find_cut_path ("cut_" ++ Py.format_2f cut).

Section WithWorld.
Context `{Utils}.
Context {world file potential_class atomic_potential potential : Type}.
Context `{!Collaborators world file potential_class atomic_potential potential}.

(** [if os.path.exists(path): a else: b], and [logger.error(msg)]. *)
Definition if_exists {A} (path : str) (a b : M world A) : M world A :=
  fun w => if os_path_exists path w then a w else b w.

Definition log_error (msg : string) : M world unit :=
  fun w => (logger_error msg w, Return ()).

(** [with open(path, mode) as f: body f]. *)
Definition with_open {A} (path : str) (mode : string) (body : file -> M world A)
  : M world A :=
  f ← open_ path mode; finally (body f) (file_close f).

(** [InputFile.to_file] and [Vtotal.from_file] on the files of the world. *)
Definition to_file (input_file : InputFile.t) (filename : str) : M world unit :=
  with_open filename "w"
    (fun f => file_writelines f (InputFile.to_stringlist input_file)).

Definition Vtotal_from_file (filename : str) : M world Vtotal.t :=
  radius ← with_open filename "r"
             (fun f => content ← file_read f; lift (Vtotal.read_radius content));
  down_potential ← with_open filename "r"
             (fun f => content ← file_read f;
                       lift (Vtotal.read_down_potential content));
  mret (Vtotal.mk radius down_potential).

(** [x.close()] for a local variable that may not be bound yet. *)
Definition close_variable (x : option file) : M world unit :=
  match x with
  | Some f => file_close f
  | None => raise UnboundLocalError
  end.

(** The loop of [_make_conduction_potential_folder]; the two variables keep
    the files of the iteration before. *)
Fixpoint copy_potfiles (self : t) (atoms : list str)
         (potential_file new_potential_file : option file) : M world unit :=
  match atoms with
  | [] => mret ()
  | atom :: atoms' =>
      let potential_filename :=
        map Py.upper (potential_filename self) ++ "." ++ map Py.lower atom in
      let potential_path := path_join potential_folder potential_filename in
      let new_potential_path :=
        path_join conduction_potfiles_folder potential_filename in
      f1 ← on_error (open_ potential_path "r")
                    (_ ← close_variable potential_file;
                     close_variable new_potential_file);
      f2 ← on_error (open_ new_potential_path "w")
                    (_ ← file_close f1; close_variable new_potential_file);
      _ ← finally (content ← file_read f1; file_write f2 content)
                  (_ ← file_close f1; file_close f2);
      copy_potfiles self atoms' (Some f1) (Some f2)
  end.

Definition _make_conduction_potential_folder (self : t) : M world unit :=
  let name := conduction_potfiles_folder in
  _ ← if_exists name (shutil_rmtree name) (mret ());
  _ ← os_mkdir name;
  copy_potfiles self (atoms self) None None.

Definition _generate_atom_pseudopotential (self : t) (base_path symbol : str)
  : M world unit :=
  let folder_path := path_join base_path "pseudopotential" in
  _ ← if_exists folder_path (shutil_rmtree folder_path) (mret ());
  input_file ← lift (InputFile.minimum_setup symbol
                       (exchange_correlation_type self) (max_iterations self)
                       (calculation_code self));
  _ ← to_file input_file folder_path;
  '(_, stderr) ← Popen_communicate [("minushalf" : str); ("run-atomic" : str)]
                                    folder_path;
  match stderr with
  | [] => mret ()
  | _ => _ ← log_error "Call to atomic program failed";
         raise (Exception "Call to atomic program failed")
  end.

Definition _generate_occupation_potential (base_path : str) (orbital : label)
           (percentual : Z) : M world unit :=
  let folder_path := path_join base_path "pseudopotential" in
  _ ← if_exists folder_path (mret ())
        (_ ← log_error "Folder for pseudopotential does not exist";
         raise (FileNotFoundError "Folder for pseudopotential does not exist"));
  secondary_quantum_number ← lift (OrbitalType orbital);
  '(_, stderr) ← Popen_communicate
                   [("minushalf" : str); ("occupation" : str);
                    Py.str_of_int secondary_quantum_number;
                    Py.str_of_int percentual]
                   folder_path;
  match stderr with
  | [] => mret ()
  | _ => raise (Exception "Call to occupation command failed")
  end.

Definition _get_atom_potential (self : t) (base_path symbol : str)
  : M world atomic_potential :=
  let pseudopotential_folder := path_join base_path "pseudopotential" in
  let vtotal_path := path_join pseudopotential_folder "VTOTAL.ae" in
  let vtotal_occ_path := path_join pseudopotential_folder "VTOTAL_OCC" in
  vtotal ← Vtotal_from_file vtotal_path;
  vtotal_occ ← Vtotal_from_file vtotal_occ_path;
  let potential_filename :=
    bound_method_text (potential_filename self) ++ "." ++ map Py.lower symbol in
  potential_class ← get_potential_class potential_filename
                                        conduction_potfiles_folder;
  AtomicPotential vtotal vtotal_occ potential_class.

Definition _write_potfile (cut : float) (symbol default_potential_filename : str)
           (atom_potential : atomic_potential) (potfiles_folder : str)
           (amplitude : float) : M world unit :=
  let potential_filename :=
    map Py.upper default_potential_filename ++ "." ++ map Py.lower symbol in
  let potential_path := path_join potfiles_folder potential_filename in
  _ ← if_exists potential_path (os_remove potential_path)
        (_ ← log_error "Potfile does not found"; raise (FileNotFoundError ""));
  potential ← correct_potential atom_potential cut amplitude true;
  lines ← get_corrected_file_lines atom_potential potential;
  with_open potential_path "w" (fun f => file_writelines f lines).

Definition _join_potfiles (base_path default_potential_filename : str)
           (atoms : list str) (potfiles_folder : str) : M world unit :=
  let path := path_join base_path (map Py.upper default_potential_filename) in
  _ ← if_exists path (shutil_rmtree path) (mret ());
  _ ← os_mkdir path;
  potential_file ← open_ path "w";
  finally
    (for_each atoms
       (fun atom =>
          let potential_filename :=
            map Py.upper default_potential_filename ++ "." ++ map Py.lower atom in
          let potential_path := path_join potfiles_folder potential_filename in
          with_open potential_path "r"
            (fun f => content ← file_read f; file_write potential_file content)))
    (file_close potential_file).

Definition find_band_gap (cut : float) (base_path symbol
             default_potential_filename : str)
           (atom_potential : atomic_potential) (potfiles_folder : str)
           (amplitude : float) (atoms : list str) : M world float :=
  let cut_folder := cut_folder base_path cut in
  _ ← if_exists cut_folder (shutil_rmtree cut_folder) (mret ());
  _ ← os_mkdir cut_folder;
  _ ← for_each [("INCAR" : str); ("KPOINTS" : str); ("POSCAR" : str)]
        (fun file => shutil_copyfile file (path_join cut_folder file));
  _ ← _write_potfile cut symbol default_potential_filename atom_potential
                     potfiles_folder amplitude;
  _ ← _join_potfiles base_path default_potential_filename atoms potfiles_folder;
  _ ← runner_run cut_folder;
  band_gap_in cut_folder.

Definition _find_cut (self : t) (atom_potential : atomic_potential)
           (symbol base_path : str) : M world (float * float) :=
  let folder := path_join base_path "find_cut" in
  _ ← if_exists folder (shutil_rmtree folder) (mret ());
  _ ← os_mkdir folder;
  ternary_search 0 15
    (fun cut => find_band_gap cut base_path symbol (potential_filename self)
                              atom_potential conduction_potfiles_folder
                              (amplitude self) (atoms self)).

(** The text an f-string gives for a key. *)
Definition label_text (x : label) : str :=
  match x with
  | LStr s => s
  | LNum v => float_repr v
  end.

Definition _find_best_correction (self : t) (sum_correction_percentual : float)
           (symbol : str) (orbital : label) : M world (float * float) :=
  let folder_name := "mkpotcar_" ++ symbol ++ "_" ++ label_text orbital in
  let path := path_join (root_folder self) folder_name in
  _ ← if_exists path (shutil_rmtree path) (mret ());
  _ ← _generate_atom_pseudopotential self path symbol;
  percentual ← lift (Selection.percentual (cbm_projection self)
                       sum_correction_percentual symbol orbital);
  rounded ← lift (Py.round percentual);
  _ ← _generate_occupation_potential path orbital rounded;
  atom_potential ← _get_atom_potential self path symbol;
  _find_cut self atom_potential symbol path.

(** [cuts_per_atom_orbital[(symbol, orbital)] = cut]. *)
Fixpoint cuts_set (d : list (str * label * float)) (symbol : str)
         (orbital : label) (cut : float) : list (str * label * float) :=
  match d with
  | [] => [(symbol, orbital, cut)]
  | (s', o', c') :: d' =>
      if bool_decide (symbol = s') && label_eqb orbital o'
      then (s', o', cut) :: d'
      else (s', o', c') :: cuts_set d' symbol orbital cut
  end.

(** The two nested loops of [execute], over the pairs in their order. *)
Fixpoint correct_targets (self : t) (sum_correction_percentual : float)
         (pairs : list (str * label))
         (cuts_per_atom_orbital : list (str * label * float)) (gap : float)
  : M world (list (str * label * float) * float) :=
  match pairs with
  | [] => mret (cuts_per_atom_orbital, gap)
  | (symbol, orbital) :: pairs' =>
      '(cut, gap') ← _find_best_correction self sum_correction_percentual
                                           symbol orbital;
      correct_targets self sum_correction_percentual pairs'
                      (cuts_set cuts_per_atom_orbital symbol orbital cut) gap'
  end.

Definition execute (self : t) : M world (list (str * label * float) * float) :=
  _ ← _make_conduction_potential_folder self;
  corrections_index ← lift (Selection._get_corrections_indexes (cbm_projection self));
  sum_correction_percentual ←
    lift (Selection._get_sum_correction_percentual (cbm_projection self)
                                                   corrections_index);
  correct_targets self sum_correction_percentual
                  (Selection.targets corrections_index) [] 0%float.

End WithWorld.

End Conduction.

(** ** [InputFile.from_file] on the files of the world *)

Module Files.

Section WithWorld.
Context `{Utils}.
Context {world file potential_class atomic_potential potential : Type}.
Context `{!Collaborators world file potential_class atomic_potential potential}.

(** [InputFile.from_file(filename)]: the whole body stands in
    [with open(filename) as input_file], and [input_file.readlines()] is its
    first call, before any [try]. *)
Definition from_file (filename : str) : M world InputFile.t :=
  Conduction.with_open filename "r"
    (fun input_file => content ← file_read input_file;
                       lift (InputFile.from_file content)).

End WithWorld.

End Files.

(** ** A file system under the orchestrator *)

Module Posix.

(** The part of a POSIX file system, of [open] and of [subprocess] that the
    orchestrator exercises: a tree of directories and regular files with
    their text, what the two external commands write on their error stream,
    the log, and the processes started so far with their working directory.
    Paths are compared as they are written; the current directory and the
    root are there and are directories. *)
Inductive node :=
| Directory
| RegularFile (content : str).

Record world := mk {
  tree : list (str * node);
  stderr_atomic : str;
  stderr_occupation : str;
  log : list string;
  spawned : list (list str * str);
}.

Fixpoint find (p : str) (t : list (str * node)) : option node :=
  match t with
  | [] => None
  | (q, n) :: t' => if bool_decide (p = q) then Some n else find p t'
  end.

Definition kind (p : str) (w : world) : option node := find p (tree w).

Definition with_tree (t : list (str * node)) (w : world) : world :=
  mk t (stderr_atomic w) (stderr_occupation w) (log w) (spawned w).

Fixpoint prefix_of (a b : str) : bool :=
  match a, b with
  | [], _ => true
  | x :: a', y :: b' => Ascii.eqb x y && prefix_of a' b'
  | _ :: _, [] => false
  end.

(** Remove one entry; remove a directory with all that is under it; write
    one entry. *)
Definition unlink (p : str) (w : world) : world :=
  with_tree (List.filter (fun e => negb (bool_decide (e.1 = p))) (tree w)) w.

Definition unlink_tree (p : str) (w : world) : world :=
  with_tree
    (List.filter (fun e => negb (bool_decide (e.1 = p))
                           && negb (prefix_of (p ++ "/") e.1))
                 (tree w)) w.

Definition put (p : str) (n : node) (w : world) : world :=
  with_tree ((p, n) :: List.filter (fun e => negb (bool_decide (e.1 = p))) (tree w)) w.

Fixpoint drop_while (test : ascii -> bool) (s : str) : str :=
  match s with
  | [] => []
  | c :: s' => if test c then drop_while test s' else s
  end.

Definition is_slash (c : ascii) : bool := Ascii.eqb c "/".

(** [os.path.dirname]: what stands before the last slash, without the
    slashes that end it unless it is made of slashes only. *)
Definition dirname (p : str) : str :=
  let head := rev (drop_while (fun c => negb (is_slash c)) (rev p)) in
  if forallb is_slash head then head
  else rev (drop_while is_slash (rev head)).

(** The current directory (the empty [dirname], or [.]) and the root. *)
Definition current (d : str) : bool :=
  forallb is_slash d || bool_decide (d = ".").

Definition is_dir (p : str) (w : world) : bool :=
  match kind p w with
  | Some Directory => true
  | Some (RegularFile _) => false
  | None => current p
  end.

Definition path_exists (p : str) (w : world) : bool :=
  match kind p w with
  | Some _ => true
  | None => current p
  end.

Definition no_such_file : exn := FileNotFoundError "No such file or directory".

(** Why an entry cannot be made at [p]: its parent is missing, or is a
    regular file. *)
Definition parent_error (p : str) (w : world) : option exn :=
  match kind (dirname p) w with
  | Some Directory => None
  | Some (RegularFile _) => Some NotADirectoryError
  | None => if current (dirname p) then None else Some no_such_file
  end.

Definition rmtree (p : str) : M world unit :=
  fun w =>
    match kind p w with
    | Some Directory => (unlink_tree p w, Return ())
    | Some (RegularFile _) => (w, Raise NotADirectoryError)
    | None => (w, Raise no_such_file)
    end.

Definition mkdir (p : str) : M world unit :=
  fun w =>
    if path_exists p w then (w, Raise FileExistsError)
    else match parent_error p w with
         | Some e => (w, Raise e)
         | None => (put p Directory w, Return ())
         end.

Definition remove (p : str) : M world unit :=
  fun w =>
    match kind p w with
    | Some (RegularFile _) => (unlink p w, Return ())
    | Some Directory => (w, Raise IsADirectoryError)
    | None => (w, Raise (if current p then IsADirectoryError else no_such_file))
    end.

(** Make, or truncate, the regular file [p] with the given text. *)
Definition create (p content : str) : M world unit :=
  fun w =>
    if is_dir p w then (w, Raise IsADirectoryError)
    else match parent_error p w with
         | Some e => (w, Raise e)
         | None => (put p (RegularFile content) w, Return ())
         end.

(** [open(p, mode)] for the modes ["w"] and ["r"]; the handle is the path. *)
Definition open (p : str) (mode : string) : M world str :=
  fun w =>
    if bool_decide (mode = "w"%string) then
      match create p [] w with
      | (w', Return _) => (w', Return p)
      | (w', Raise e) => (w', Raise e)
      end
    else
      match kind p w with
      | Some (RegularFile _) => (w, Return p)
      | Some Directory => (w, Raise IsADirectoryError)
      | None => (w, Raise (if current p then IsADirectoryError else no_such_file))
      end.

Definition read (f : str) : M world str :=
  fun w =>
    (w, Return (match kind f w with
                | Some (RegularFile content) => content
                | _ => []
                end)).

Definition write (f content : str) : M world unit :=
  fun w =>
    match kind f w with
    | Some (RegularFile old) => (put f (RegularFile (old ++ content)) w, Return ())
    | _ => (w, Return ())
    end.

Definition copyfile (src dst : str) : M world unit :=
  fun w =>
    match kind src w with
    | Some (RegularFile content) => create dst content w
    | Some Directory => (w, Raise IsADirectoryError)
    | None => (w, Raise (if current src then IsADirectoryError else no_such_file))
    end.

Definition spawn (argv : list str) (cwd : str) (w : world) : world :=
  mk (tree w) (stderr_atomic w) (stderr_occupation w) (log w)
     (spawned w ++ [(argv, cwd)]).

(** [Popen(argv, stdout=PIPE, stderr=PIPE, cwd=cwd).communicate()]: the
    process starts only in a directory. *)
Definition communicate (argv : list str) (cwd : str) : M world (str * str) :=
  fun w =>
    match kind cwd w with
    | Some (RegularFile _) => (w, Raise NotADirectoryError)
    | Some Directory | None =>
        if is_dir cwd w then
          (spawn argv cwd w,
           Return ([], if bool_decide (argv !! 1%nat = Some ("run-atomic" : str))
                       then stderr_atomic w else stderr_occupation w))
        else (w, Raise no_such_file)
    end.

Definition add_log (msg : string) (w : world) : world :=
  mk (tree w) (stderr_atomic w) (stderr_occupation w) (log w ++ [msg]) (spawned w).

(** Modelled from the spec: the collaborators of minushalf outside the
    sources at hand (the search, the potential classes, the runner and the
    band structure) succeed and leave the world as it is, and the search
    evaluates its objective once. *)
#[export] Instance collaborators : Collaborators world str unit unit unit := {|
  os_path_exists := path_exists;
  shutil_rmtree := rmtree;
  os_mkdir := mkdir;
  os_remove := remove;
  shutil_copyfile := copyfile;
  open_ := open;
  file_read := read;
  file_write := write;
  file_writelines f lines := write f (concat lines);
  file_close f := mret ();
  Popen_communicate := communicate;
  logger_error := add_log;
  bound_method_text s := "<built-in method upper of str object>";
  ternary_search low high objective := (v ← objective low; mret (low, v));
  get_potential_class filename folder := mret ();
  AtomicPotential vtotal vtotal_occ potential_class := mret ();
  correct_potential atom_potential cut amplitude is_conduction := mret ();
  get_corrected_file_lines atom_potential potential := mret [];
  runner_run folder := mret ();
  band_gap_in folder := mret 1%float;
|}.

(** A run on gallium nitride, and a working directory that is empty. *)
Definition self : Conduction.t :=
  Conduction.mk "." [("Ga" : str); ("N" : str)] "potcar"
                Selection.fixture_atoms_as_rows "ca" 100 "ae" 1.

Definition empty : world := mk [] [] [] [] [].

End Posix.

(* ===================================================================== *)
(** * Part II: lemmas and theorems                                        *)
(* ===================================================================== *)

(** ** The result monad *)

Lemma bind_Return {A B} (a : A) (k : A -> result B) : (Return a ≫= k) = k a.
Proof. reflexivity. Qed.

Lemma bind_Raise {A B} (e : exn) (k : A -> result B) : (Raise e ≫= k) = Raise e.
Proof. reflexivity. Qed.

Lemma bind_Return_inv {A B} (c : result A) (k : A -> result B) (b : B) :
  (c ≫= k) = Return b -> exists a, c = Return a /\ k a = Return b.
Proof. destruct c as [a|e]; [eauto | discriminate]. Qed.

Lemma elem_of_rev {A} (x : A) (l : list A) : x ∈ rev l <-> x ∈ l.
Proof. rewrite !list_elem_of_In. symmetry. apply in_rev. Qed.

(** ** Regular expressions: the matcher against the words of a pattern *)

Section RegexFacts.
Import Re.

Lemma matches_nil_nullable r s : matches r s -> s = [] -> nullable r = true.
Proof.
  induction 1 as [ | | | |r1 r2 s1 s2 _ IH1 _ IH2| r1 r2 s _ IH | r1 r2 s _ IH | | ];
    intros Hs; try discriminate; simpl; try reflexivity.
  - apply app_eq_nil in Hs as [-> ->]. by rewrite IH1, IH2.
  - by rewrite IH.
  - rewrite IH by done. apply orb_true_r.
Qed.

Lemma nullable_matches_nil r : nullable r = true -> matches r [].
Proof.
  induction r as [ | | | | |r1 IH1 r2 IH2|r1 IH1 r2 IH2|r1 IH1]; simpl;
    intros Hn; try discriminate.
  - constructor.
  - apply andb_true_iff in Hn as [H1 H2].
    change (@nil ascii) with (@nil ascii ++ []). constructor; auto.
  - apply orb_true_iff in Hn as [H1|H2];
      [apply m_alt_l | apply m_alt_r]; auto.
  - constructor.
Qed.

Lemma nullable_spec r : nullable r = true <-> matches r [].
Proof.
  split; [apply nullable_matches_nil | intros Hm; by eapply matches_nil_nullable].
Qed.

(** A non-empty word of [r*] starts with a non-empty word of [r]. *)
Lemma matches_star_cons_inv r c s :
  matches (Star r) (c :: s) ->
  exists s1 s2, s = s1 ++ s2 /\ matches r (c :: s1) /\ matches (Star r) s2.
Proof.
  intros Hm.
  remember (Star r) as r' eqn:Hr. remember (c :: s) as w eqn:Hw.
  revert Hr c s Hw.
  induction Hm as [ | | | | | | | |r0 s1 s2 Hm1 _ Hm2 IH2];
    intros Hr a t Hw; try discriminate.
  inversion Hr; subst r0; clear Hr.
  destruct s1 as [|c1 s1]; simpl in Hw.
  - by apply IH2.
  - inversion Hw; subst. eauto.
Qed.

Lemma matches_Seq_inv r1 r2 s :
  matches (Seq r1 r2) s ->
  exists s1 s2, s = s1 ++ s2 /\ matches r1 s1 /\ matches r2 s2.
Proof. inversion 1; subst; eauto. Qed.

Lemma matches_Alt_inv r1 r2 s :
  matches (Alt r1 r2) s -> matches r1 s \/ matches r2 s.
Proof. inversion 1; subst; auto. Qed.

Lemma deriv_spec c r s : matches (deriv c r) s <-> matches r (c :: s).
Proof.
  revert s.
  induction r as [ | |d| | |r1 IH1 r2 IH2|r1 IH1 r2 IH2|r1 IH1]; intros s; simpl.
  - split; inversion 1.
  - split; inversion 1.
  - destruct (Ascii.eqb_spec c d) as [->|Hne]; split; inversion 1; subst;
      try constructor; congruence.
  - destruct (Ascii.eqb_spec c Py.newline) as [->|Hne]; split; inversion 1; subst;
      try (by constructor); congruence.
  - destruct (Py.isspace c) eqn:Hsp; split; inversion 1; subst;
      try (by constructor); congruence.
  - assert (Hseq : forall t, matches (Seq (deriv c r1) r2) t -> matches (Seq r1 r2) (c :: t)).
    { intros t (s1 & s2 & -> & Hm1 & Hm2)%matches_Seq_inv.
      rewrite app_comm_cons. constructor; [by apply IH1 | done]. }
    assert (Hback : forall t, matches (Seq r1 r2) (c :: t) ->
              matches (Seq (deriv c r1) r2) t \/
              (nullable r1 = true /\ matches (deriv c r2) t)).
    { intros t (s1 & s2 & Heq & Hm1 & Hm2)%matches_Seq_inv.
      destruct s1 as [|c1 s1]; simpl in Heq.
      - subst s2. right. split; [by eapply matches_nil_nullable | by apply IH2].
      - inversion Heq; subst. left. constructor; [by apply IH1 | done]. }
    destruct (nullable r1) eqn:Hn.
    + split.
      * intros [Hm|Hm]%matches_Alt_inv; [by apply Hseq |].
        change (c :: s) with ([] ++ c :: s).
        constructor; [by apply nullable_matches_nil | by apply IH2].
      * intros [Hm|[_ Hm]]%Hback; [by apply m_alt_l | by apply m_alt_r].
    + split; [by apply Hseq |].
      intros [Hm|[Hm _]]%Hback; [done | discriminate].
  - split.
    + intros [Hm|Hm]%matches_Alt_inv;
        [apply m_alt_l; by apply IH1 | apply m_alt_r; by apply IH2].
    + intros [Hm|Hm]%matches_Alt_inv;
        [apply m_alt_l; by apply IH1 | apply m_alt_r; by apply IH2].
  - split.
    + intros (s1 & s2 & -> & Hm1 & Hm2)%matches_Seq_inv.
      rewrite app_comm_cons. constructor; [by apply IH1 | done].
    + intros Hm. apply matches_star_cons_inv in Hm as (s1 & s2 & -> & Hm1 & Hm2).
      constructor; [by apply IH1 | done].
Qed.

Lemma fullmatch_spec r s : fullmatch r s = true <-> matches r s.
Proof.
  revert r. induction s as [|c s IH]; intros r; simpl.
  - apply nullable_spec.
  - rewrite IH. apply deriv_spec.
Qed.

(** [match] succeeds exactly when a prefix of the subject is a word of
    the pattern. *)
Lemma re_match_spec r s :
  re_match r s = true <-> exists p q, s = p ++ q /\ matches r p.
Proof.
  revert r. induction s as [|c s IH]; intros r; simpl.
  - rewrite orb_false_r, nullable_spec. split.
    + intros Hm. by exists [], [].
    + intros (p & q & Heq & Hm). symmetry in Heq.
      apply app_eq_nil in Heq as [-> _]. done.
  - rewrite orb_true_iff, nullable_spec, IH. split.
    + intros [Hm|(p & q & -> & Hm)].
      * by exists [], (c :: s).
      * exists (c :: p), q. split; [done | by apply deriv_spec].
    + intros (p & q & Heq & Hm). destruct p as [|c' p]; simpl in Heq.
      * by left.
      * inversion Heq; subst. right. exists p, q. split; [done | by apply deriv_spec].
Qed.

Lemma matches_Lit w s : matches (Lit w) s <-> s = w.
Proof.
  revert s. induction w as [|c w IH]; intros s; simpl.
  - split; [by inversion 1 | intros ->; constructor].
  - split.
    + intros (s1 & s2 & -> & Hm1 & Hm2)%matches_Seq_inv.
      inversion Hm1; subst. apply IH in Hm2 as ->. done.
    + intros ->. change (c :: w) with ([c] ++ w).
      constructor; [constructor | by apply IH].
Qed.

Lemma matches_Alts rs s : matches (Alts rs) s <-> exists r, r ∈ rs /\ matches r s.
Proof.
  induction rs as [|r rs IH]; simpl.
  - split; [inversion 1 | intros (r & Hin & _); by apply elem_of_nil in Hin].
  - destruct rs as [|r' rs].
    + split.
      * intros Hm. exists r. split; [by left | done].
      * intros (r0 & Hin & Hm). apply list_elem_of_singleton in Hin. by subst.
    + split.
      * intros [Hm|Hm]%matches_Alt_inv.
        -- exists r. split; [by left | done].
        -- apply IH in Hm as (r0 & Hin & Hm). exists r0. split; [by right | done].
      * intros (r0 & Hin & Hm). apply elem_of_cons in Hin as [->|Hin].
        -- by apply m_alt_l.
        -- apply m_alt_r, IH. eauto.
Qed.

End RegexFacts.

(** ** [InputFile]: the validating setters *)

Section SetterFacts.
Import Re InputFile.

Lemma matches_xc_validation_regex p :
  matches xc_validation_regex p <->
  exists code suf, code ∈ xc_codes /\ p = code ++ suf /\
                   (suf = [] \/ suf = ("s" : str) \/ suf = ("r" : str)).
Proof.
  unfold xc_validation_regex, Opt. split.
  - intros (s1 & s2 & -> & Hm1 & Hm2)%matches_Seq_inv.
    apply matches_Alts in Hm1 as (r & Hin & Hm1).
    apply list_elem_of_fmap in Hin as (code & -> & Hin).
    apply matches_Lit in Hm1 as ->.
    exists code, s2. split; [done | split; [done |]].
    apply matches_Alt_inv in Hm2 as [[Hm2|Hm2]%matches_Alt_inv|Hm2];
      inversion Hm2; auto.
  - intros (code & suf & Hin & -> & Hsuf).
    constructor.
    + apply matches_Alts. exists (Lit code). split.
      * apply list_elem_of_fmap. eauto.
      * by apply matches_Lit.
    + destruct Hsuf as [->|[->| ->]].
      * apply m_alt_r. constructor.
      * apply m_alt_l, m_alt_l. constructor.
      * apply m_alt_l, m_alt_r. constructor.
Qed.

(** The pattern is tried with [match]: a string passes as soon as it
    starts with one of the nine codes. *)
Lemma re_match_xc s :
  re_match xc_validation_regex s = true <->
  exists code rest, code ∈ xc_codes /\ s = code ++ rest.
Proof.
  rewrite re_match_spec. split.
  - intros (p & q & -> & (code & suf & Hin & -> & _)%matches_xc_validation_regex).
    exists code, (suf ++ q). by rewrite app_assoc.
  - intros (code & rest & Hin & ->).
    exists code, rest. split; [done |].
    apply matches_xc_validation_regex. exists code, []. by rewrite app_nil_r; auto.
Qed.

Lemma re_match_calculation s :
  re_match calculation_validation_regex s = true <->
  exists rest, s = ("ae" : str) ++ rest.
Proof.
  rewrite re_match_spec. split.
  - intros (p & q & -> & ->%matches_Lit). eauto.
  - intros (rest & ->). exists ("ae" : str), rest. split; [done |]. by apply matches_Lit.
Qed.

Lemma exchange_correlation_type_setter_Return s v :
  exchange_correlation_type_setter s = Return v <->
  v = s /\ re_match xc_validation_regex s = true.
Proof.
  unfold exchange_correlation_type_setter.
  destruct (re_match xc_validation_regex s); simpl; split;
    try (intros [= <-]; done); try (intros [-> _]; done); intros [_ [=]].
Qed.

Lemma calculation_code_setter_Return s v :
  calculation_code_setter s = Return v <->
  v = s /\ re_match calculation_validation_regex s = true.
Proof.
  unfold calculation_code_setter.
  destruct (re_match calculation_validation_regex s); simpl; split;
    try (intros [= <-]; done); try (intros [-> _]; done); intros [_ [=]].
Qed.

End SetterFacts.

(** C1.  The setter of [exchange_correlation_type] tries its pattern
    [(ca|wi|hl|gl|bh|pb|rp|rv|bl)(s|r)?] with [match]: it accepts a string
    exactly when the string starts with one of the nine codes.  So it raises
    on [rca], a code with the relativistic marker in front as the docstring
    writes it, and it accepts [ca#], which is none of the documented
    strings. *)
Theorem exchange_correlation_type_setter_accepts_code_prefixes :
  (forall s : str,
      (exists v, InputFile.exchange_correlation_type_setter s = Return v) <->
      (exists code rest, code ∈ InputFile.xc_codes /\ s = code ++ rest))
  /\ (("rca" : str) ∈ InputFile.documented_xc_codes
      /\ InputFile.exchange_correlation_type_setter "rca"
         = Raise (ValueError "Your value of exchange and correlation functional is not valid"))
  /\ (~ (("ca#" : str) ∈ InputFile.documented_xc_codes)
      /\ InputFile.exchange_correlation_type_setter "ca#" = Return ("ca#" : str)).
Proof.
  split; [|split].
  - intros s. rewrite <- re_match_xc. split.
    + intros [v Hv]. by apply exchange_correlation_type_setter_Return in Hv as [_ ?].
    + intros Hm. exists s. by apply exchange_correlation_type_setter_Return.
  - split; [| by vm_compute].
    apply (bool_decide_unpack (("rca" : str) ∈ InputFile.documented_xc_codes)).
    vm_compute. exact I.
  - split; [| by vm_compute].
    apply (bool_decide_unpack (~ (("ca#" : str) ∈ InputFile.documented_xc_codes))).
    vm_compute. exact I.
Qed.

(** C8.  The setter of [calculation_code] tries the pattern [(ae)] with
    [match]: it accepts a string exactly when the string starts with [ae],
    so [aex] is stored as a calculation code. *)
Theorem calculation_code_setter_accepts_ae_prefixes :
  (forall s : str,
      (exists v, InputFile.calculation_code_setter s = Return v) <->
      (exists rest, s = ("ae" : str) ++ rest))
  /\ InputFile.calculation_code_setter "aex" = Return ("aex" : str).
Proof.
  split; [| by vm_compute].
  intros s. rewrite <- re_match_calculation. split.
  - intros [v Hv]. by apply calculation_code_setter_Return in Hv as [_ ?].
  - intros Hm. exists s. by apply calculation_code_setter_Return.
Qed.

(** ** [InputFile]: the chemical symbol *)

Section SymbolFacts.
Context `{Utils}.
Import InputFile.

Lemma upper_not_lower c : Py.is_lower (Py.upper c) = false.
Proof. destruct c as [[] [] [] [] [] [] [] []]; reflexivity. Qed.

Lemma lower_not_upper c : Py.is_upper (Py.lower c) = false.
Proof. destruct c as [[] [] [] [] [] [] [] []]; reflexivity. Qed.

Lemma capitalize_capitalized s : Py.capitalized (Py.capitalize s).
Proof.
  destruct s as [|c s]; simpl; [done |].
  split; [apply upper_not_lower |].
  apply Forall_fmap, Forall_forall. intros d _. apply lower_not_upper.
Qed.

Lemma upper_fixed c : Py.is_lower c = false -> Py.upper c = c.
Proof. unfold Py.upper. by intros ->. Qed.

Lemma lower_fixed c : Py.is_upper c = false -> Py.lower c = c.
Proof. unfold Py.lower. by intros ->. Qed.

Lemma capitalized_fixed s : Py.capitalized s -> Py.capitalize s = s.
Proof.
  destruct s as [|c s]; simpl; [done |]. intros [Hc Hs].
  rewrite upper_fixed by done. f_equal.
  induction Hs as [|d s Hd _ IH]; simpl; [done |].
  by rewrite lower_fixed, IH.
Qed.

Lemma chemical_symbol_setter_Return symbol v :
  chemical_symbol_setter symbol = Return v <->
  v = Py.capitalize symbol /\ PeriodicTable symbol = true.
Proof.
  unfold chemical_symbol_setter.
  destruct (PeriodicTable symbol); split;
    try (intros [= <-]; done); try (intros [-> _]; done); intros [_ [=]].
Qed.

Lemma init_Return xc cc symbol eso nval ncore orbs descr last self :
  init xc cc symbol eso nval ncore orbs descr last = Return self ->
  exchange_correlation_type_setter xc = Return (exchange_correlation_type self)
  /\ calculation_code_setter cc = Return (calculation_code self)
  /\ chemical_symbol_setter symbol = Return (chemical_symbol self).
Proof.
  unfold init.
  intros (v1 & -> & (v2 & -> & (v3 & -> & Hret)%bind_Return_inv)%bind_Return_inv)%bind_Return_inv.
  inversion Hret; subst; simpl. done.
Qed.

End SymbolFacts.

(** C10.  Whenever an assignment to [chemical_symbol] or the construction
    of an [InputFile] succeeds, the symbol stored is the capitalized form of
    the string given (no lower-case letter in front, no upper-case letter
    after it), and the periodic-table lookup that let it through was made on
    the string as given. *)
Theorem chemical_symbol_stored_capitalized `{Utils}
    (self self' : InputFile.t) (symbol xc cc eso descr : str)
    (nval ncore : Z) (orbs : list Orbital.t) (last : option (list str)) :
  InputFile.set_chemical_symbol self symbol = Return self'
  \/ InputFile.init xc cc symbol eso nval ncore orbs descr last = Return self' ->
  InputFile.chemical_symbol self' = Py.capitalize symbol
  /\ PeriodicTable symbol = true
  /\ Py.capitalized (InputFile.chemical_symbol self')
  /\ Py.capitalize (InputFile.chemical_symbol self') = InputFile.chemical_symbol self'.
Proof.
  intros Hok.
  assert (Hset : InputFile.chemical_symbol_setter symbol
                 = Return (InputFile.chemical_symbol self')).
  { destruct Hok as [Hset|Hinit].
    - unfold InputFile.set_chemical_symbol in Hset.
      apply bind_Return_inv in Hset as (v & Hv & Hret).
      inversion Hret; subst; simpl. done.
    - by apply init_Return in Hinit as (_ & _ & ?). }
  apply chemical_symbol_setter_Return in Hset as [-> Htable].
  split; [done | split; [done |]].
  split; [apply capitalize_capitalized |].
  apply capitalized_fixed, capitalize_capitalized.
Qed.

Lemma chemical_symbol_stored_capitalized_witness :
  let self :=
    InputFile.mk "ca" "ae" [] "H" [] 0 0 [] [] in
  let self' :=
    InputFile.mk "ca" "ae" [] "He" [] 0 0 [] [] in
  InputFile.chemical_symbol self' = Py.capitalize "He"
  /\ Sample.PeriodicTable "He" = true
  /\ Py.capitalized (InputFile.chemical_symbol self')
  /\ Py.capitalize (InputFile.chemical_symbol self') = InputFile.chemical_symbol self'.
Proof.
  intros self self'.
  apply (@chemical_symbol_stored_capitalized Sample.utils self self' "He"
           [] [] [] [] 0 0 [] None).
  left. vm_compute. reflexivity.
Defined.

(** The lookup is made on the raw string: [he] is refused although its
    capitalized form [He] is in the table. *)
Example chemical_symbol_setter_raw_lookup :
  Sample.PeriodicTable (Py.capitalize "he") = true
  /\ @InputFile.chemical_symbol_setter Sample.utils "he"
     = Raise (ValueError "The chemical symbol passed is not correct").
Proof. split; vm_compute; reflexivity. Qed.

(** ** [InputFile.minimum_setup] *)

(** C9.  [minimum_setup] raises its ValueError ("not available in our
    database") when the symbol has no entry in the electronic-distribution
    table; when it has one, and the entry reads as a header with the two
    orbital counts followed by orbital lines, and the other arguments pass
    the validation of the constructor, it returns the [InputFile] seeded
    from that entry. *)
Theorem minimum_setup_seeded_or_unknown `{Utils}
    (symbol xc : str) (maxit : Z) (cc : str) :
  (ElectronicDistribution symbol = None ->
   InputFile.minimum_setup symbol xc maxit cc
   = Raise (ValueError "This element its not available in our database"))
  /\ (forall dist head t0 t1 ncore nval orbitals,
        ElectronicDistribution symbol = Some dist ->
        dist !! 0%nat = Some head ->
        Py.split head !! 0%nat = Some t0 -> Py.int_of_str t0 = Some ncore ->
        Py.split head !! 1%nat = Some t1 -> Py.int_of_str t1 = Some nval ->
        comprehension parse_valence_orbitals (drop 1 dist) = Return orbitals ->
        InputFile.exchange_correlation_type_setter xc = Return xc ->
        InputFile.calculation_code_setter cc = Return cc ->
        PeriodicTable symbol = true ->
        InputFile.minimum_setup symbol xc maxit cc
        = Return (InputFile.mk xc cc symbol (Py.capitalize symbol)
                    ("       0.0       0.0       0.0       0.0       0.0       0.0"
                       ++ InputFile.nl)
                    ncore nval orbitals
                    [Py.str_of_int maxit ++ " maxit" ++ InputFile.nl])).
Proof.
  split.
  - intros Hnone. unfold InputFile.minimum_setup. by rewrite Hnone.
  - intros dist head t0 t1 ncore nval orbitals Hdist Hhead Ht0 Hncore Ht1 Hnval
           Horbs Hxc Hcc Hsym.
    unfold InputFile.minimum_setup. rewrite Hdist. simpl.
    unfold getitem. rewrite Hhead. simpl. rewrite Ht0. simpl.
    unfold Py.int. rewrite Hncore. simpl. rewrite Ht1. simpl. rewrite Hnval. simpl.
    rewrite Horbs. simpl.
    unfold InputFile.init. rewrite Hxc, Hcc. simpl.
    unfold InputFile.chemical_symbol_setter. rewrite Hsym. simpl. reflexivity.
Qed.

Lemma minimum_setup_seeded_or_unknown_witness :
  @InputFile.minimum_setup Sample.utils "H" "ca" 100 "ae"
  = Return (InputFile.mk "ca" "ae" "H" "H"
              ("       0.0       0.0       0.0       0.0       0.0       0.0"
                 ++ InputFile.nl)
              0 1 [Orbital.mk 1 0 [1%float; 0%float]]
              [("100 maxit" : str) ++ InputFile.nl])
  /\ @InputFile.minimum_setup Sample.utils "Xx" "ca" 100 "ae"
     = Raise (ValueError "This element its not available in our database").
Proof.
  split.
  - apply (proj2 (@minimum_setup_seeded_or_unknown Sample.utils "H" "ca" 100 "ae")
             [("    0    1" : str); ("    1    0      1.00      0.00" : str)]
             ("    0    1" : str) ("0" : str) ("1" : str));
      vm_compute; reflexivity.
  - apply (proj1 (@minimum_setup_seeded_or_unknown Sample.utils "Xx" "ca" 100 "ae")).
    vm_compute. reflexivity.
Defined.

(** ** [InputFile.electron_occupation] *)

Section OccupationFacts.
Import InputFile.
Implicit Types (st : gmap ref (list float)) (o v : orbital_dict).

Lemma occupation_loop_skip st vs ws x sqn :
  (forall v, v ∈ vs -> st !!! dict_occupation v <> [] /\ eligible st sqn v = false) ->
  occupation_loop st (vs ++ ws) x sqn = occupation_loop st ws x sqn.
Proof.
  induction vs as [|v vs IH]; intros Hvs; simpl; [done |].
  destruct (Hvs v) as [Hne Hel]; [by left |].
  unfold eligible in Hel.
  destruct (st !!! dict_occupation v) as [|occ0 rest] eqn:Hocc; [done |].
  simpl. rewrite Hel. apply IH. intros v' Hin. apply Hvs. by right.
Qed.

Lemma occupation_loop_hit st v ws x sqn occ0 rest :
  st !!! dict_occupation v = occ0 :: rest ->
  eligible st sqn v = true ->
  occupation_loop st (v :: ws) x sqn
  = (<[dict_occupation v := (occ0 - x)%float :: rest]> st, Return ()).
Proof.
  intros Hocc Hel. unfold eligible in Hel. simpl.
  rewrite Hocc in *. simpl. by rewrite Hel.
Qed.

Lemma read_orbital_insert_ne st o r occ :
  dict_occupation o <> r ->
  read_orbital (<[r := occ]> st) o = read_orbital st o.
Proof.
  intros Hne. unfold read_orbital. by rewrite lookup_total_insert_ne.
Qed.

Lemma read_orbital_insert_shift st o x occ0 rest :
  st !!! dict_occupation o = occ0 :: rest ->
  read_orbital (<[dict_occupation o := (occ0 - x)%float :: rest]> st) o
  = shifted x (read_orbital st o).
Proof.
  intros Hocc. unfold read_orbital, shifted; simpl.
  by rewrite lookup_total_insert_eq, Hocc.
Qed.

End OccupationFacts.

(** C2.  On orbitals that each have a first occupation component and that
    are distinct objects: [electron_occupation] takes [electron_fraction]
    off the first occupation component of the last orbital of
    [valence_orbitals] whose [l] is the one asked for and whose first
    component [np.isclose] does not find close to zero, and changes nothing
    else (no other orbital, no other field, no other object of the store);
    when no orbital qualifies it raises its exception and the store is as it
    was. *)
Theorem electron_occupation_shifts_last_eligible
    (st : gmap InputFile.ref (list float)) (orbs : list InputFile.orbital_dict)
    (x : float) (sqn : Z)
    (Hfirst : forall o, o ∈ orbs -> st !!! InputFile.dict_occupation o <> [])
    (Hobjects : NoDup (InputFile.dict_occupation <$> orbs)) :
  ((forall o, o ∈ orbs -> InputFile.eligible st sqn o = false) ->
   InputFile.electron_occupation st orbs x sqn
   = (st, Raise (Exception
        "Trouble with occupation. Please verify the parameters passed and the INP file.")))
  /\ (forall pre o post,
        orbs = pre ++ o :: post ->
        InputFile.eligible st sqn o = true ->
        (forall o', o' ∈ post -> InputFile.eligible st sqn o' = false) ->
        exists st',
          InputFile.electron_occupation st orbs x sqn = (st', Return ())
          /\ InputFile.read_orbital st' <$> orbs
             = (InputFile.read_orbital st <$> pre)
                 ++ InputFile.shifted x (InputFile.read_orbital st o)
                 :: (InputFile.read_orbital st <$> post)
          /\ (forall r, r <> InputFile.dict_occupation o -> st' !! r = st !! r)).
Proof.
  split.
  - intros Hnone. unfold InputFile.electron_occupation.
    pose proof (occupation_loop_skip st (rev orbs) [] x sqn) as Hskip.
    rewrite app_nil_r in Hskip. rewrite Hskip; [done |].
    intros v Hin. apply (proj1 (elem_of_rev _ _)) in Hin. auto.
  - intros pre o post -> Hel Hpost.
    assert (Hocc : exists occ0 rest,
               st !!! InputFile.dict_occupation o = occ0 :: rest).
    { unfold InputFile.eligible in Hel.
      destruct (st !!! InputFile.dict_occupation o) as [|occ0 rest]; [done | eauto]. }
    destruct Hocc as (occ0 & rest & Hocc).
    exists (<[InputFile.dict_occupation o := (occ0 - x)%float :: rest]> st).
    split; [|split].
    + unfold InputFile.electron_occupation.
      rewrite rev_app_distr. simpl. rewrite <- app_assoc. simpl.
      rewrite occupation_loop_skip.
      * by apply occupation_loop_hit.
      * intros v Hin. apply (proj1 (elem_of_rev _ _)) in Hin.
        split; [| by apply Hpost].
        apply Hfirst. rewrite elem_of_app, elem_of_cons. auto.
    + rewrite fmap_app, fmap_cons in Hobjects.
      apply NoDup_app in Hobjects as (_ & Hpre & [Ho _]%NoDup_cons).
      rewrite fmap_app, fmap_cons. f_equal; [|f_equal].
      * apply list_fmap_ext. intros i o' Hi.
        apply read_orbital_insert_ne. intros Heq.
        apply (Hpre (InputFile.dict_occupation o')).
        -- apply list_elem_of_fmap. exists o'. split; [done |].
           by eapply list_elem_of_lookup_2.
        -- rewrite Heq. by left.
      * by apply read_orbital_insert_shift.
      * apply list_fmap_ext. intros i o' Hi.
        apply read_orbital_insert_ne. intros Heq.
        apply Ho. rewrite <- Heq. apply list_elem_of_fmap. exists o'.
        split; [done |]. by eapply list_elem_of_lookup_2.
    + intros r Hr. by rewrite lookup_insert_ne.
Qed.

(** Three orbitals 1s, 2p, 3s, each with its own occupation list; 3s is
    empty. *)
Lemma electron_occupation_shifts_last_eligible_witness :
  let o1 := InputFile.mk_dict 1 0 1%positive in
  let o2 := InputFile.mk_dict 2 1 2%positive in
  let o3 := InputFile.mk_dict 3 0 3%positive in
  let st : gmap InputFile.ref (list float) :=
    <[1%positive := [2; 0]%float]>
      (<[2%positive := [3; 0]%float]> (<[3%positive := [0; 0]%float]> ∅)) in
  exists st',
    InputFile.electron_occupation st [o1; o2; o3] 0.5 0 = (st', Return ())
    /\ InputFile.read_orbital st' <$> [o1; o2; o3]
       = [Orbital.mk 1 0 [1.5; 0]%float; Orbital.mk 2 1 [3; 0]%float;
          Orbital.mk 3 0 [0; 0]%float].
Proof.
  intros o1 o2 o3 st.
  assert (Hfirst : forall o, o ∈ [o1; o2; o3] ->
                             st !!! InputFile.dict_occupation o <> []).
  { intros o Hin. repeat (apply elem_of_cons in Hin as [->|Hin]);
      [vm_compute; discriminate .. | by apply elem_of_nil in Hin]. }
  assert (Hobjects : NoDup (InputFile.dict_occupation <$> [o1; o2; o3])).
  { apply (bool_decide_unpack _). vm_compute. exact I. }
  destruct (proj2 (electron_occupation_shifts_last_eligible
                     st [o1; o2; o3] 0.5 0 Hfirst Hobjects)
              [] o1 [o2; o3] eq_refl)
    as (st' & Hrun & Hread & _).
  - vm_compute. reflexivity.
  - intros o' Hin. repeat (apply elem_of_cons in Hin as [->|Hin]);
      [vm_compute; reflexivity .. | by apply elem_of_nil in Hin].
  - exists st'. split; [exact Hrun | exact Hread].
Defined.

(** Why the two hypotheses: an orbital without occupation component ends
    the call with IndexError before an eligible orbital is reached, and two
    dicts that hold the same list object change together. *)
Example electron_occupation_empty_occupation :
  let st : gmap InputFile.ref (list float) :=
    <[1%positive := [2; 0]%float]> (<[2%positive := []]> ∅) in
  InputFile.electron_occupation st
    [InputFile.mk_dict 1 0 1%positive; InputFile.mk_dict 2 1 2%positive] 0.5 0
  = (st, Raise IndexError).
Proof. vm_compute. reflexivity. Qed.

Example electron_occupation_shared_list :
  let o1 := InputFile.mk_dict 1 0 1%positive in
  let o2 := InputFile.mk_dict 2 0 1%positive in
  let st : gmap InputFile.ref (list float) := <[1%positive := [2; 0]%float]> ∅ in
  exists st',
    InputFile.electron_occupation st [o1; o2] 0.5 0 = (st', Return ())
    /\ InputFile.read_orbital st' <$> [o1; o2]
       = [Orbital.mk 1 0 [1.5; 0]%float; Orbital.mk 2 0 [1.5; 0]%float].
Proof. eexists. split; vm_compute; reflexivity. Qed.

Example np_isclose_zero :
  InputFile.np_isclose 1e-9 0 1e-04 1e-08 = true
  /\ InputFile.np_isclose 0.5 0 1e-04 1e-08 = false
  /\ InputFile.np_isclose nan 0 1e-04 1e-08 = false
  /\ InputFile.np_isclose (-2) 0 1e-04 1e-08 = false.
Proof. repeat split; vm_compute; reflexivity. Qed.

(** ** [Vtotal]: the marker lines *)

Section VtotalFacts.
Context `{Utils}.
Import Vtotal.

Lemma after_marker_None r lines :
  (forall line, line ∈ lines -> Re.re_match r line = false) ->
  after_marker r lines = None.
Proof.
  induction lines as [|line lines IH]; intros Hno; simpl; [done |].
  rewrite Hno by (by left). apply IH. intros l' Hin. apply Hno. by right.
Qed.

Lemma read_table_no_marker r rows lines :
  (forall line, line ∈ lines -> Re.re_match r line = false) ->
  read_table r rows lines = Return None.
Proof.
  revert rows. induction lines as [|line lines IH]; intros rows Hno; simpl; [done |].
  rewrite Hno by (by left). apply IH. intros l' Hin. apply Hno. by right.
Qed.

End VtotalFacts.

(** C4.  When no line of the file matches the "Down potential follows"
    marker, [read_down_potential] raises its ValueError; but [read_radius],
    whose table ends at that same marker, raises nothing: its loop runs out
    of lines, the function body ends and the call evaluates to [None].  The
    same holds for the second loop of [read_down_potential] when the "Up
    potential follows" marker is missing. *)
Theorem read_radius_without_marker_returns_None `{Utils} :
  (forall content,
      (forall line, line ∈ TextFile.readlines content ->
                    Re.re_match Vtotal.down_regex line = false) ->
      Vtotal.read_down_potential content
      = Raise (ValueError "Potential informations do not found in vtotal"))
  /\ (forall content,
        (forall line, line ∈ drop 1 (TextFile.readlines content) ->
                      Re.re_match Vtotal.down_regex line = false) ->
        Vtotal.read_radius content = Return None)
  /\ Vtotal.read_down_potential
       ("Radius" ++ InputFile.nl ++ "0.1 0.2" ++ InputFile.nl)
     = Raise (ValueError "Potential informations do not found in vtotal")
  /\ Vtotal.read_radius ("Radius" ++ InputFile.nl ++ "0.1 0.2" ++ InputFile.nl)
     = Return None.
Proof.
  split; [|split; [|split]].
  - intros content Hno. unfold Vtotal.read_down_potential.
    by rewrite after_marker_None.
  - intros content Hno. unfold Vtotal.read_radius.
    by apply read_table_no_marker.
  - vm_compute. reflexivity.
  - vm_compute. reflexivity.
Qed.

Example read_down_potential_without_up_marker :
  @Vtotal.read_down_potential Sample.utils
    (" Down potential follows (l on next line)" ++ InputFile.nl
       ++ "  0" ++ InputFile.nl ++ "1.0 2.0" ++ InputFile.nl)
  = Return None.
Proof. vm_compute. reflexivity. Qed.

Example read_radius_with_marker :
  @Vtotal.read_radius Sample.utils
    (" Radial grid follows" ++ InputFile.nl ++ "0.1 0.2" ++ InputFile.nl
       ++ "0.3" ++ InputFile.nl ++ " Down  potential follows" ++ InputFile.nl)
  = Return (Some [0.1; 0.2; 0.3]%float).
Proof. vm_compute. reflexivity. Qed.


(** ** The selection of the targets *)

Section SelectionFacts.
Import Pandas Selection.

Lemma corrections_loop_KeyError df row column pairs d :
  row ∉ columns df ->
  corrections_loop df ((row, column) :: pairs) d = Raise KeyError.
Proof.
  intros Hrow. simpl. unfold at_, getitem.
  by rewrite (bool_decide_eq_false_2 (row ∈ columns df)).
Qed.

Lemma dict_set_numbers_only d k l :
  numbers_only d -> Forall (fun x => exists v, x = LNum v) l ->
  numbers_only (dict_set d k l).
Proof.
  intros Hd Hl. induction Hd as [|[k' l'] d Hkl Hd IH]; simpl.
  - by repeat constructor.
  - destruct (bool_decide (k = k')).
    + constructor; [exact Hl | exact Hd].
    + constructor; [exact Hkl | exact IH].
Qed.

Lemma dict_get_numbers_only d k l :
  numbers_only d -> dict_get d k = Return l ->
  Forall (fun x => exists v, x = LNum v) l.
Proof.
  intros Hd. induction Hd as [|[k' l'] d Hkl _ IH]; simpl; [done |].
  destruct (bool_decide (k = k')); [by intros [= <-] | done].
Qed.

Lemma corrections_loop_numbers_only df pairs d idx :
  numbers_only d -> corrections_loop df pairs d = Return idx -> numbers_only idx.
Proof.
  revert d. induction pairs as [|[row column] pairs IH]; intros d Hd; simpl.
  - by intros [= <-].
  - intros (v & _ & Hrest)%bind_Return_inv.
    destruct (PrimFloat.leb minimum_percentual v); [| by eapply IH].
    apply bind_Return_inv in Hrest as (w & _ & Hrest).
    apply bind_Return_inv in Hrest as (l & Hl & Hrest).
    eapply IH; [| exact Hrest].
    apply dict_set_numbers_only; [done |].
    apply Forall_app. split; [by eapply dict_get_numbers_only |].
    repeat constructor. by exists w.
Qed.

Lemma fold_dict_set_numbers_only rows d :
  numbers_only d ->
  numbers_only (fold_left (fun d row => dict_set d row []) rows d).
Proof.
  revert d. induction rows as [|row rows IH]; intros d Hd; simpl; [done |].
  apply IH. by apply dict_set_numbers_only.
Qed.

End SelectionFacts.

(** C3.  [_get_corrections_indexes] reads the threshold test as
    [cbm_projection[row][column]], the row label taken as a column name: on
    a table with rows and columns whose first row label names no column it
    raises KeyError, and so it does on the fixture
    [{Ga: {p: 90}, N: {d: 3}}] in either orientation, where the
    specification has it return [{Ga: [p]}].  Whenever it does return, its
    lists hold the cells it appended, numbers, and no orbital type.  The two
    steps after
    it do as specified when given the specified selection: the sum of the
    selected contributions is 90 and the percentage of (Ga, p) is 100. *)
Theorem get_corrections_indexes_raises_KeyError :
  (forall df row rows column columns',
      Pandas.index df = row :: rows ->
      Pandas.columns df = column :: columns' ->
      row ∉ Pandas.columns df ->
      Selection._get_corrections_indexes df = Raise KeyError)
  /\ Selection._get_corrections_indexes Selection.fixture_atoms_as_rows
     = Raise KeyError
  /\ Selection._get_corrections_indexes Selection.fixture_atoms_as_columns
     = Raise KeyError
  /\ (forall df corrections_index,
        Selection._get_corrections_indexes df = Return corrections_index ->
        Selection.numbers_only corrections_index)
  /\ Selection._get_corrections_indexes
       (Pandas.mk [("a" : str); ("b" : str)] [("a" : str); ("b" : str)]
          (fun column row => if bool_decide (column = row) then 60 else 2)%float)
     = Return [(("a" : str), [Pandas.LNum 60]); (("b" : str), [Pandas.LNum 60])]
  /\ Selection._get_sum_correction_percentual
       Selection.fixture_atoms_as_rows Selection.specified_selection
     = Return 90%float
  /\ Selection.percentual Selection.fixture_atoms_as_rows 90 "Ga" (Pandas.LStr "p")
     = Return 100%float.
Proof.
  split; [| split; [| split; [| split]]].
  - intros df row rows column columns' Hrows Hcols Hrow.
    unfold Selection._get_corrections_indexes. rewrite Hrows, Hcols. simpl.
    rewrite <- Hcols. by apply corrections_loop_KeyError.
  - vm_compute. reflexivity.
  - vm_compute. reflexivity.
  - intros df idx Hrun. unfold Selection._get_corrections_indexes in Hrun.
    eapply corrections_loop_numbers_only; [| exact Hrun].
    apply fold_dict_set_numbers_only. constructor.
  - repeat split; vm_compute; reflexivity.
Qed.

(** ** The orchestrator: external failures *)

Section WorldFacts.
Context {world : Type}.

Lemma M_bind_Return {A B} (m : M world A) (k : A -> M world B) w w' a :
  m w = (w', Return a) -> (m ≫= k) w = k a w'.
Proof. intros Hm. unfold mbind, M_bind. by rewrite Hm. Qed.

(** An exception ends the computation where it is raised: what follows is
    not run, and the world stays as the failing step left it. *)
Lemma M_bind_Raise {A B} (m : M world A) (k : A -> M world B) w w' e :
  m w = (w', Raise e) -> (m ≫= k) w = (w', Raise e).
Proof. intros Hm. unfold mbind, M_bind. by rewrite Hm. Qed.

End WorldFacts.

Section ConductionFacts.
Context `{Utils}.
Context {world file potential_class atomic_potential potential : Type}.
Context `{!Collaborators world file potential_class atomic_potential potential}.
Import Conduction.

Lemma correct_targets_app self total done rest cuts gap (w w' : world) cuts' gap' :
  correct_targets self total done cuts gap w = (w', Return (cuts', gap')) ->
  correct_targets self total (done ++ rest) cuts gap w
  = correct_targets self total rest cuts' gap' w'.
Proof.
  revert cuts gap w.
  induction done as [|[symbol orbital] done IH]; intros cuts gap w; simpl.
  - by intros [= -> -> ->].
  - intros Hrun. unfold mbind, M_bind in *.
    destruct (_find_best_correction self total symbol orbital w) as [w1 [[cut g]|e]];
      [by apply IH | done].
Qed.

End ConductionFacts.

(** What leaves a step leaves the run: no statement of the orchestrator
    catches an exception.  When the process of the second command hands
    back its two streams, the call raises exactly when the error stream is
    not empty; [_write_potfile] raises FileNotFoundError when the potential
    file is missing; [_find_best_correction] and the loop over the targets
    end with the exception of the step that failed, in the world that step
    left, and so does [find_band_gap] for [_write_potfile] and for the
    runner. *)
Lemma raised_exceptions_propagate `{Utils}
    {world file potential_class atomic_potential potential : Type}
    `{!Collaborators world file potential_class atomic_potential potential}
    (self : Conduction.t) :
  (forall base_path orbital percentual sqn (w0 w1 : world) out err,
        let folder_path := path_join base_path "pseudopotential" in
        os_path_exists folder_path w0 = true ->
        OrbitalType orbital = Return sqn ->
        Popen_communicate [("minushalf" : str); ("occupation" : str);
                           Py.str_of_int sqn; Py.str_of_int percentual]
                          folder_path w0
        = (w1, Return (out, err)) ->
        Conduction._generate_occupation_potential base_path orbital percentual w0
        = match err with
          | [] => (w1, Return ())
          | _ => (w1, Raise (Exception "Call to occupation command failed"))
          end)
  /\ (forall cut symbol name atom_potential potfiles_folder amplitude (w0 : world),
        os_path_exists
          (path_join potfiles_folder
             (map Py.upper name ++ "." ++ map Py.lower symbol)) w0 = false ->
        Conduction._write_potfile cut symbol name atom_potential potfiles_folder
                                  amplitude w0
        = (logger_error "Potfile does not found" w0, Raise (FileNotFoundError "")))
  /\ (forall total symbol orbital (w0 w1 w2 : world) e,
        let path := path_join (Conduction.root_folder self)
                      ("mkpotcar_" ++ symbol ++ "_" ++ Conduction.label_text orbital) in
        Conduction.if_exists path (shutil_rmtree path) (mret ()) w0 = (w1, Return ()) ->
        Conduction._generate_atom_pseudopotential self path symbol w1 = (w2, Raise e) ->
        Conduction._find_best_correction self total symbol orbital w0 = (w2, Raise e))
  /\ (forall total symbol orbital percentual rounded (w0 w1 w2 w3 : world) e,
        let path := path_join (Conduction.root_folder self)
                      ("mkpotcar_" ++ symbol ++ "_" ++ Conduction.label_text orbital) in
        Conduction.if_exists path (shutil_rmtree path) (mret ()) w0 = (w1, Return ()) ->
        Conduction._generate_atom_pseudopotential self path symbol w1 = (w2, Return ()) ->
        Selection.percentual (Conduction.cbm_projection self) total symbol orbital
        = Return percentual ->
        Py.round percentual = Return rounded ->
        Conduction._generate_occupation_potential path orbital rounded w2
        = (w3, Raise e) ->
        Conduction._find_best_correction self total symbol orbital w0 = (w3, Raise e))
  /\ (forall total done symbol orbital rest cuts gap cuts' gap' (w0 w1 w2 : world) e,
        Conduction.correct_targets self total done cuts gap w0
        = (w1, Return (cuts', gap')) ->
        Conduction._find_best_correction self total symbol orbital w1 = (w2, Raise e) ->
        Conduction.correct_targets self total (done ++ (symbol, orbital) :: rest)
                                   cuts gap w0
        = (w2, Raise e))
  /\ (forall cut base_path symbol name atom_potential potfiles_folder amplitude
             atoms (w0 w1 w2 w3 w4 : world) e,
        let folder := Conduction.cut_folder base_path cut in
        Conduction.if_exists folder (shutil_rmtree folder) (mret ()) w0
        = (w1, Return ()) ->
        os_mkdir folder w1 = (w2, Return ()) ->
        for_each [("INCAR" : str); ("KPOINTS" : str); ("POSCAR" : str)]
                 (fun file => shutil_copyfile file (path_join folder file)) w2
        = (w3, Return ()) ->
        Conduction._write_potfile cut symbol name atom_potential potfiles_folder
                                  amplitude w3
        = (w4, Raise e) ->
        Conduction.find_band_gap cut base_path symbol name atom_potential
                                 potfiles_folder amplitude atoms w0
        = (w4, Raise e))
  /\ (forall cut base_path symbol name atom_potential potfiles_folder amplitude
             atoms (w0 w1 w2 w3 w4 w5 w6 : world) e,
        let folder := Conduction.cut_folder base_path cut in
        Conduction.if_exists folder (shutil_rmtree folder) (mret ()) w0
        = (w1, Return ()) ->
        os_mkdir folder w1 = (w2, Return ()) ->
        for_each [("INCAR" : str); ("KPOINTS" : str); ("POSCAR" : str)]
                 (fun file => shutil_copyfile file (path_join folder file)) w2
        = (w3, Return ()) ->
        Conduction._write_potfile cut symbol name atom_potential potfiles_folder
                                  amplitude w3
        = (w4, Return ()) ->
        Conduction._join_potfiles base_path name atoms potfiles_folder w4
        = (w5, Return ()) ->
        runner_run folder w5 = (w6, Raise e) ->
        Conduction.find_band_gap cut base_path symbol name atom_potential
                                 potfiles_folder amplitude atoms w0
        = (w6, Raise e)).
Proof.
  repeat split.
  - intros base_path orbital percentual sqn w0 w1 out err folder_path
           Hfolder Horb Hpopen.
    unfold Conduction._generate_occupation_potential. fold folder_path.
    assert (Hguard :
              Conduction.if_exists folder_path (mret ())
                (Conduction.log_error "Folder for pseudopotential does not exist"
                 ≫= (fun _ : unit => raise (FileNotFoundError
                        "Folder for pseudopotential does not exist")))
                w0 = (w0, Return ())).
    { unfold Conduction.if_exists. by rewrite Hfolder. }
    rewrite (M_bind_Return _ _ _ _ _ Hguard). rewrite Horb.
    rewrite (M_bind_Return (lift (Return sqn)) _ w0 w0 sqn eq_refl).
    rewrite (M_bind_Return _ _ _ _ _ Hpopen).
    destruct err; reflexivity.
  - intros cut symbol name atom_potential potfiles_folder amplitude w0 Hmissing.
    unfold Conduction._write_potfile.
    apply M_bind_Raise. unfold Conduction.if_exists. by rewrite Hmissing.
  - intros total symbol orbital w0 w1 w2 e path Hclean Hfail.
    unfold Conduction._find_best_correction. fold path.
    rewrite (M_bind_Return _ _ _ _ _ Hclean).
    by apply M_bind_Raise.
  - intros total symbol orbital percentual rounded w0 w1 w2 w3 e path
           Hclean Hatom Hperc Hround Hfail.
    unfold Conduction._find_best_correction. fold path.
    rewrite (M_bind_Return _ _ _ _ _ Hclean).
    rewrite (M_bind_Return _ _ _ _ _ Hatom). rewrite Hperc.
    rewrite (M_bind_Return (lift (Return percentual)) _ w2 w2 percentual eq_refl).
    rewrite Hround.
    rewrite (M_bind_Return (lift (Return rounded)) _ w2 w2 rounded eq_refl).
    by apply M_bind_Raise.
  - intros total done symbol orbital rest cuts gap cuts' gap' w0 w1 w2 e Hdone Hfail.
    rewrite (correct_targets_app _ _ _ _ _ _ _ _ _ _ Hdone). simpl.
    by apply M_bind_Raise.
  - intros cut base_path symbol name atom_potential potfiles_folder amplitude atoms
           w0 w1 w2 w3 w4 e folder Hclean Hmkdir Hcopy Hfail.
    unfold Conduction.find_band_gap. fold folder.
    rewrite (M_bind_Return _ _ _ _ _ Hclean).
    rewrite (M_bind_Return _ _ _ _ _ Hmkdir).
    rewrite (M_bind_Return _ _ _ _ _ Hcopy).
    by apply M_bind_Raise.
  - intros cut base_path symbol name atom_potential potfiles_folder amplitude atoms
           w0 w1 w2 w3 w4 w5 w6 e folder Hclean Hmkdir Hcopy Hwrite Hjoin Hfail.
    unfold Conduction.find_band_gap. fold folder.
    rewrite (M_bind_Return _ _ _ _ _ Hclean).
    rewrite (M_bind_Return _ _ _ _ _ Hmkdir).
    rewrite (M_bind_Return _ _ _ _ _ Hcopy).
    rewrite (M_bind_Return _ _ _ _ _ Hwrite).
    rewrite (M_bind_Return _ _ _ _ _ Hjoin).
    by apply M_bind_Raise.
Qed.

(** ** The file system under the two commands *)

Section PosixFacts.
Context `{Utils}.
#[local] Existing Instance Posix.collaborators.
Import Posix.

Lemma kind_put p n w : kind p (put p n w) = Some n.
Proof. unfold kind, put. simpl. by rewrite bool_decide_eq_true_2. Qed.

Lemma create_outcome p content w :
  create p content w = (put p (RegularFile content) w, Return ())
  \/ exists e, create p content w = (w, Raise e).
Proof.
  unfold create. destruct (is_dir p w); [right; eauto |].
  destruct (parent_error p w) as [e|]; [right; eauto | by left].
Qed.

Lemma rmtree_outcome p w :
  rmtree p w = (unlink_tree p w, Return ()) \/ exists e, rmtree p w = (w, Raise e).
Proof.
  unfold rmtree. destruct (kind p w) as [[|content]|]; [by left | right; eauto ..].
Qed.

Lemma communicate_in_regular_file argv p content w :
  kind p w = Some (RegularFile content) ->
  communicate argv p w = (w, Raise NotADirectoryError).
Proof. intros Hkind. unfold communicate. by rewrite Hkind. Qed.

(** Writing the input file at [p] leaves a regular file there. *)
Lemma to_file_outcome input_file p w :
  Conduction.to_file input_file p w
  = (put p (RegularFile (concat (InputFile.to_stringlist input_file)))
         (put p (RegularFile []) w), Return ())
  \/ exists e, Conduction.to_file input_file p w = (w, Raise e).
Proof.
  unfold Conduction.to_file, Conduction.with_open, mbind, M_bind. simpl.
  unfold open. simpl.
  destruct (create_outcome p [] w) as [-> | [e ->]]; [left | right; eauto].
  unfold finally, write. by rewrite kind_put.
Qed.

(** Removing what stands at a path, when something does. *)
Lemma clean_outcome p w :
  exists w1,
    spawned w1 = spawned w
    /\ (Conduction.if_exists p (shutil_rmtree p) (mret ()) w = (w1, Return ())
        \/ exists e,
            Conduction.if_exists p (shutil_rmtree p) (mret ()) w = (w1, Raise e)).
Proof.
  unfold Conduction.if_exists. simpl. destruct (path_exists p w).
  - destruct (rmtree_outcome p w) as [-> | [e ->]].
    + exists (unlink_tree p w). split; [done | by left].
    + exists w. split; [done | right; by exists e].
  - exists w. split; [done | by left].
Qed.

Lemma generate_atom_pseudopotential_never_spawns (self : Conduction.t)
      (base_path symbol : str) (w : world) :
  exists w' e,
    Conduction._generate_atom_pseudopotential self base_path symbol w
    = (w', Raise e)
    /\ spawned w' = spawned w.
Proof.
  unfold Conduction._generate_atom_pseudopotential, mbind, M_bind, lift.
  set (folder := path_join base_path "pseudopotential").
  destruct (clean_outcome folder w) as (w1 & Hsp1 & [-> | [e ->]]).
  2:{ by exists w1, e. }
  destruct (InputFile.minimum_setup symbol _ _ _) as [input_file|e];
    [| by exists w1, e].
  destruct (to_file_outcome input_file folder w1) as [-> | [e ->]];
    [| by exists w1, e].
  simpl. erewrite communicate_in_regular_file by apply kind_put.
  eexists _, _. split; [reflexivity | done].
Qed.

Lemma filter_twice {A} (f : A -> bool) l :
  List.filter f (List.filter f l) = List.filter f l.
Proof.
  induction l as [|x l IH]; simpl; [done |].
  destruct (f x) eqn:Hx; simpl; [by rewrite Hx, IH | done].
Qed.

Lemma put_put p n m w : put p n (put p m w) = put p n w.
Proof.
  unfold put, with_tree. simpl.
  rewrite bool_decide_eq_true_2 by done. simpl. by rewrite filter_twice.
Qed.

Lemma current_pseudopotential base_path :
  current (path_join base_path "pseudopotential") = false.
Proof.
  assert (forall prefix : str,
             current (prefix ++ ("pseudopotential" : str)) = false) as Hany.
  { intros prefix. unfold current. apply orb_false_iff. split.
    - rewrite forallb_app. apply andb_false_iff. by right.
    - apply bool_decide_eq_false_2. intros Heq.
      apply (f_equal (@length ascii)) in Heq. rewrite length_app in Heq.
      simpl in Heq. lia. }
  unfold path_join. simpl.
  destruct (last base_path) as [d|]; [| exact (Hany [])].
  destruct (Ascii.eqb d "/"); [exact (Hany base_path) |].
  pose proof (Hany (base_path ++ ["/"%char])) as Hslash.
  by rewrite <- app_assoc in Hslash.
Qed.

Lemma is_dir_path_exists p w : is_dir p w = true -> path_exists p w = true.
Proof.
  unfold is_dir, path_exists. by destruct (kind p w) as [[|content]|].
Qed.

End PosixFacts.

Section AtomicProgram.
Context `{Utils}.
#[local] Existing Instance Posix.collaborators.

(** C6, as the code has it.  On a file system the atomic program is never
    started: [_generate_atom_pseudopotential] makes no directory, it writes
    the input file at the very path it then hands to [Popen] as working
    directory.  So the call never returns and starts no process, whatever
    the program would write on its error stream; where the path is free and
    its parent is a directory, it leaves the input file there and ends with
    NotADirectoryError.  [_find_best_correction], which begins with that
    call, never returns either.  The second command is checked as
    documented: in a directory, [_generate_occupation_potential] starts its
    process and raises exactly when the error stream is not empty; and
    [_write_potfile] raises FileNotFoundError when the potential file is
    missing. *)
Theorem atomic_program_is_never_started (self : Conduction.t) :
  (forall base_path symbol (w : Posix.world),
      exists w' e,
        Conduction._generate_atom_pseudopotential self base_path symbol w
        = (w', Raise e)
        /\ Posix.spawned w' = Posix.spawned w)
  /\ (forall base_path symbol input_file (w : Posix.world),
        let folder_path := path_join base_path "pseudopotential" in
        Posix.kind folder_path w = None ->
        Posix.parent_error folder_path w = None ->
        InputFile.minimum_setup symbol (Conduction.exchange_correlation_type self)
          (Conduction.max_iterations self) (Conduction.calculation_code self)
        = Return input_file ->
        Conduction._generate_atom_pseudopotential self base_path symbol w
        = (Posix.put folder_path
             (Posix.RegularFile (InputFile.to_file input_file)) w,
           Raise NotADirectoryError))
  /\ (forall total symbol orbital (w : Posix.world),
        exists w' e,
          Conduction._find_best_correction self total symbol orbital w
          = (w', Raise e)
          /\ Posix.spawned w' = Posix.spawned w)
  /\ (forall base_path orbital percentual sqn (w : Posix.world),
        let folder_path := path_join base_path "pseudopotential" in
        Posix.is_dir folder_path w = true ->
        OrbitalType orbital = Return sqn ->
        Conduction._generate_occupation_potential base_path orbital percentual w
        = (Posix.spawn [("minushalf" : str); ("occupation" : str);
                        Py.str_of_int sqn; Py.str_of_int percentual]
                       folder_path w,
           match Posix.stderr_occupation w with
           | [] => Return ()
           | _ => Raise (Exception "Call to occupation command failed")
           end))
  /\ (forall cut symbol name potfiles_folder amplitude (w : Posix.world),
        Posix.path_exists
          (path_join potfiles_folder
             (map Py.upper name ++ ("." : str) ++ map Py.lower symbol)) w = false ->
        Conduction._write_potfile cut symbol name () potfiles_folder amplitude w
        = (Posix.add_log "Potfile does not found" w, Raise (FileNotFoundError ""))).
Proof.
  split; [| split; [| split; [| split]]].
  - apply generate_atom_pseudopotential_never_spawns.
  - intros base_path symbol input_file w folder_path Hfree Hparent Hsetup.
    pose proof (current_pseudopotential base_path) as Hcurrent.
    fold folder_path in Hcurrent.
    unfold Conduction._generate_atom_pseudopotential, mbind, M_bind, lift.
    fold folder_path. rewrite Hsetup.
    unfold Conduction.if_exists. simpl.
    unfold Posix.path_exists. rewrite Hfree, Hcurrent. simpl.
    unfold Conduction.to_file, Conduction.with_open, mbind, M_bind. simpl.
    unfold Posix.open, Posix.create, Posix.is_dir. simpl.
    rewrite Hfree, Hcurrent, Hparent.
    unfold finally, Posix.write. rewrite kind_put, put_put. simpl.
    by rewrite (communicate_in_regular_file _ _ _ _ (kind_put _ _ _)).
  - intros total symbol orbital w.
    unfold Conduction._find_best_correction, mbind, M_bind.
    set (path := path_join (Conduction.root_folder self) _).
    destruct (clean_outcome path w) as (w1 & Hsp1 & [-> | [e ->]]);
      [| by exists w1, e].
    destruct (generate_atom_pseudopotential_never_spawns self path symbol w1)
      as (w' & e & -> & Hsp).
    exists w', e. split; [done | congruence].
  - intros base_path orbital percentual sqn w folder_path Hdir Horb.
    unfold Conduction._generate_occupation_potential, mbind, M_bind, lift.
    fold folder_path. unfold Conduction.if_exists. simpl.
    rewrite (is_dir_path_exists _ _ Hdir). simpl. rewrite Horb.
    unfold Posix.communicate. rewrite Hdir.
    unfold Posix.is_dir in Hdir.
    destruct (Posix.kind folder_path w) as [[|content]|]; [| done |];
      by destruct (Posix.stderr_occupation w).
  - intros cut symbol name potfiles_folder amplitude w Hmissing.
    unfold Conduction._write_potfile, mbind, M_bind, Conduction.if_exists.
    simpl. simpl in Hmissing. by rewrite Hmissing.
Qed.

End AtomicProgram.

Section SampleAtomicProgram.
#[local] Existing Instance Sample.utils.
#[local] Existing Instance Posix.collaborators.

(** The hydrogen target in a working directory that holds the folder of the
    target and nothing else, with two silent commands: the input file of
    hydrogen is written where the folder of the atomic program should be,
    and the process is refused its working directory. *)
Lemma atomic_program_is_never_started_witness :
  let w := Posix.mk [(("mkpotcar_H_s" : str), Posix.Directory)] [] [] [] [] in
  let hydrogen :=
    InputFile.mk "ca" "ae" "H" "H"
      ("       0.0       0.0       0.0       0.0       0.0       0.0" ++ InputFile.nl)
      0 1 [Orbital.mk 1 0 [1%float; 0%float]]
      [("100 maxit" : str) ++ InputFile.nl] in
  Conduction._generate_atom_pseudopotential Posix.self "mkpotcar_H_s" "H" w
  = (Posix.put "mkpotcar_H_s/pseudopotential"
       (Posix.RegularFile (InputFile.to_file hydrogen)) w,
     Raise NotADirectoryError).
Proof.
  intros w hydrogen.
  apply (proj1 (proj2 (atomic_program_is_never_started Posix.self))
           "mkpotcar_H_s" "H" hydrogen w);
    vm_compute; reflexivity.
Defined.

End SampleAtomicProgram.

(** ** The folders of the cut search *)

Section CutFolderFacts.

Lemma path_join_relative a c b :
  c <> "/"%char -> path_join a (c :: b) = join_prefix a ++ c :: b.
Proof.
  intros Hc. unfold path_join, join_prefix.
  destruct (Ascii.eqb_spec c "/") as [->|_]; [done |].
  destruct (last a) as [d|]; [| done].
  destruct (Ascii.eqb d "/"); [done |]. by rewrite <- app_assoc.
Qed.

Lemma cut_folder_eq base cut :
  Conduction.cut_folder base cut
  = join_prefix (path_join base "find_cut") ++ "cut_" ++ Py.format_2f cut.
Proof. unfold Conduction.cut_folder. by apply path_join_relative. Qed.

End CutFolderFacts.

(** C7, as the code has it.  The folder of an evaluation is named from the
    cut printed with two decimals: two cuts share their folder exactly when
    they print the same, so cuts that print differently never meet, while
    distinct cuts closer than the second decimal do. *)
Theorem cut_folder_shared_iff_same_two_decimals (base_path : str) (c1 c2 : float) :
  Conduction.cut_folder base_path c1 = Conduction.cut_folder base_path c2
  <-> Py.format_2f c1 = Py.format_2f c2.
Proof.
  rewrite !cut_folder_eq. split.
  - intros Heq. apply app_inv_head in Heq.
    by apply (app_inv_head ("cut_" : str)) in Heq.
  - by intros ->.
Qed.

(** C7, as stated: two distinct cuts, one folder. *)
Lemma cut_folder_collision :
  PrimFloat.eqb 5.001 5.002 = false
  /\ Conduction.cut_folder "mkpotcar_Ga_p" 5.001 = ("mkpotcar_Ga_p/find_cut/cut_5.00" : str)
  /\ Conduction.cut_folder "mkpotcar_Ga_p" 5.002 = ("mkpotcar_Ga_p/find_cut/cut_5.00" : str).
Proof. repeat split; vm_compute; reflexivity. Qed.


(** ** Strings: [split], [int], [str] and the lines of a file *)

Section StringFacts.
Import Py TextFile.

Lemma split_aux_token cur tok s :
  no_space tok -> split_aux cur (tok ++ s) = split_aux (rev tok ++ cur) s.
Proof.
  intros Htok. revert cur.
  induction Htok as [|c tok Hc _ IH]; intros cur; simpl; [done |].
  rewrite Hc, IH. by rewrite <- app_assoc.
Qed.

Lemma split_space c s : isspace c = true -> split (c :: s) = split s.
Proof. intros Hc. unfold split. simpl. by rewrite Hc. Qed.

Lemma split_spaces sp s :
  Forall (fun c => isspace c = true) sp -> split (sp ++ s) = split s.
Proof.
  induction 1 as [|c sp Hc _ IH]; simpl; [done |]. by rewrite split_space.
Qed.

Lemma split_token_space tok c s :
  token tok -> isspace c = true -> split (tok ++ c :: s) = tok :: split s.
Proof.
  intros [Hne Htok] Hc. unfold split.
  rewrite split_aux_token by done. rewrite app_nil_r. simpl. rewrite Hc.
  destruct (rev tok) as [|d r] eqn:Hrev.
  - apply (f_equal (@rev ascii)) in Hrev. rewrite rev_involutive in Hrev. done.
  - rewrite <- Hrev. by rewrite rev_involutive.
Qed.

Lemma split_token_end tok : token tok -> split tok = [tok].
Proof.
  intros [Hne Htok]. unfold split.
  rewrite <- (app_nil_r tok) at 1. rewrite split_aux_token by done.
  rewrite app_nil_r. simpl.
  destruct (rev tok) as [|d r] eqn:Hrev.
  - apply (f_equal (@rev ascii)) in Hrev. rewrite rev_involutive in Hrev. done.
  - rewrite <- Hrev. by rewrite rev_involutive.
Qed.

Lemma split_join_line ws c rest :
  Forall token ws -> isspace c = true ->
  split (join " " ws ++ c :: rest) = ws ++ split rest.
Proof.
  intros Hws Hc. induction Hws as [|x ws Hx Hws IH]; simpl.
  - by apply split_space.
  - destruct ws as [|y ws].
    + by apply split_token_space.
    + change (join " " (x :: y :: ws)) with (x ++ " " ++ join " " (y :: ws)).
      rewrite <- !app_assoc. cbn [list_ascii_of_string app].
      rewrite split_token_space by done. exact (f_equal (cons x) IH).
Qed.

Lemma split_on_aux_none sep cur s :
  Forall (fun c => c <> sep) s -> split_on_aux sep cur s = [rev cur ++ s].
Proof.
  intros Hs. revert cur.
  induction Hs as [|c s Hc _ IH]; intros cur; simpl.
  - by rewrite app_nil_r.
  - destruct (Ascii.eqb_spec c sep) as [->|_]; [done |].
    rewrite IH. simpl. by rewrite <- app_assoc.
Qed.

(** *** Decimal digits *)

Lemma string_of_uint_digits d :
  Forall (fun c => is_digit c = true)
         (list_ascii_of_string (NilEmpty.string_of_uint d)).
Proof. induction d; simpl; constructor; done. Qed.

Lemma is_digit_no_space c : is_digit c = true -> isspace c = false.
Proof. destruct c as [[] [] [] [] [] [] [] []]; simpl; done. Qed.

Lemma is_digit_not_underscore c :
  is_digit c = true -> Ascii.eqb c underscore = false.
Proof. destruct c as [[] [] [] [] [] [] [] []]; simpl; done. Qed.

Lemma digits_ok_aux_digits b ds :
  Forall (fun c => is_digit c = true) ds ->
  digits_ok_aux b ds = match ds with [] => b | _ => true end.
Proof.
  intros Hds. revert b.
  induction Hds as [|c ds Hc _ IH]; intros b; simpl; [done |].
  rewrite Hc, IH. by destruct ds.
Qed.

Lemma filter_underscore_digits ds :
  Forall (fun c => is_digit c = true) ds ->
  List.filter (fun c => negb (Ascii.eqb c underscore)) ds = ds.
Proof.
  induction 1 as [|c ds Hc _ IH]; simpl; [done |].
  by rewrite (is_digit_not_underscore c Hc), IH.
Qed.

Lemma lstrip_no_space s : no_space s -> lstrip s = s.
Proof. destruct 1 as [|c s Hc _]; simpl; [done | by rewrite Hc]. Qed.

Lemma no_space_rev s : no_space s -> no_space (rev s).
Proof.
  unfold no_space. rewrite !Forall_forall. intros Hs c Hin.
  apply Hs. by apply elem_of_rev.
Qed.

Lemma strip_no_space s : no_space s -> strip s = s.
Proof.
  intros Hs. unfold strip.
  rewrite (lstrip_no_space s Hs), (lstrip_no_space _ (no_space_rev s Hs)).
  apply rev_involutive.
Qed.

(** The text of an int: an optional minus sign and at least one digit. *)
Lemma str_of_int_shape z :
  exists ds, ds <> [] /\ Forall (fun c => is_digit c = true) ds
             /\ str_of_int z = (if z <? 0 then ["-"%char] else []) ++ ds
             /\ NilEmpty.uint_of_string (string_of_list_ascii ds)
                = Some (match Z.to_int z with Decimal.Pos d | Decimal.Neg d => d end)
             /\ Z.of_uint (match Z.to_int z with Decimal.Pos d | Decimal.Neg d => d end)
                = Z.abs z.
Proof.
  assert (Hpos : forall p,
             exists ds, ds <> [] /\ Forall (fun c => is_digit c = true) ds
               /\ list_ascii_of_string (NilZero.string_of_uint (Pos.to_uint p)) = ds
               /\ NilEmpty.uint_of_string (string_of_list_ascii ds)
                  = Some (Pos.to_uint p)).
  { intros p. exists (list_ascii_of_string (NilEmpty.string_of_uint (Pos.to_uint p))).
    pose proof (DecimalPos.Unsigned.to_uint_nonnil p) as Hnil.
    split; [| split; [apply string_of_uint_digits | split]].
    - destruct (Pos.to_uint p); simpl; done.
    - destruct (Pos.to_uint p); simpl; done.
    - rewrite string_of_list_ascii_of_string. apply NilEmpty.usu. }
  destruct z as [|p|p].
  - exists ["0"%char].
    split; [done | split; [by repeat constructor | split; [done | split; done]]].
  - destruct (Hpos p) as (ds & Hne & Hds & Hstr & Hparse).
    exists ds. split; [done | split; [done | split; [| split]]].
    + unfold str_of_int. simpl. by rewrite <- Hstr.
    + done.
    + simpl. pose proof (DecimalZ.of_to (Z.pos p)) as Hz. simpl in Hz. done.
  - destruct (Hpos p) as (ds & Hne & Hds & Hstr & Hparse).
    exists ds. split; [done | split; [done | split; [| split]]].
    + unfold str_of_int. simpl. by rewrite <- Hstr.
    + done.
    + simpl. pose proof (DecimalZ.of_to (Z.neg p)) as Hz. simpl in Hz. lia.
Qed.

Lemma str_of_int_token z : token (str_of_int z).
Proof.
  destruct (str_of_int_shape z) as (ds & Hne & Hds & -> & _).
  split.
  - destruct (z <? 0); simpl; [done |]. done.
  - apply Forall_app. split.
    + destruct (z <? 0); repeat constructor.
    + eapply Forall_impl; [exact Hds |]. apply is_digit_no_space.
Qed.

(** [int(str(z)) == z]. *)
Lemma int_of_str_str_of_int z : int_of_str (str_of_int z) = Some z.
Proof.
  unfold int_of_str. rewrite strip_no_space by apply str_of_int_token.
  destruct (str_of_int_shape z) as (ds & Hne & Hds & -> & Hparse & Habs).
  destruct (Z.ltb_spec z 0) as [Hneg|Hpos]; simpl.
  - unfold digits_ok. rewrite digits_ok_aux_digits by done.
    destruct ds as [|d ds]; [done |].
    rewrite filter_underscore_digits by done. rewrite Hparse, Habs.
    f_equal. lia.
  - destruct ds as [|d ds]; [done |].
    assert (Hd : is_digit d = true) by (by inversion Hds).
    assert (Ascii.eqb d "-" = false) as -> by
        (clear -Hd; destruct d as [[] [] [] [] [] [] [] []]; simpl in *; done).
    assert (Ascii.eqb d "+" = false) as -> by
        (clear -Hd; destruct d as [[] [] [] [] [] [] [] []]; simpl in *; done).
    unfold digits_ok. rewrite digits_ok_aux_digits by done.
    rewrite filter_underscore_digits by done. rewrite Hparse, Habs.
    f_equal. lia.
Qed.

End StringFacts.

(** ** The lines of a file *)

Section LineFacts.
Import Py TextFile.

Lemma universal_newlines_no_CR s :
  Forall (fun c => c <> CR) s -> universal_newlines s = s.
Proof.
  induction 1 as [|c s Hc _ IH]; simpl; [done |].
  destruct (Ascii.eqb_spec c CR) as [->|_]; [done | by rewrite IH].
Qed.

Lemma lines_aux_line cur body rest :
  plain body ->
  lines_aux cur (body ++ newline :: rest)
  = (rev cur ++ body ++ [newline]) :: lines_aux [] rest.
Proof.
  intros Hbody. revert cur.
  induction Hbody as [|c body [Hc _] _ IH]; intros cur; simpl.
  - done.
  - destruct (Ascii.eqb_spec c newline) as [->|_]; [done |].
    rewrite IH. simpl. by rewrite <- app_assoc.
Qed.

Lemma complete_line_no_CR l : complete_line l -> Forall (fun c => c <> CR) l.
Proof.
  intros (body & -> & Hbody). apply Forall_app. split.
  - eapply Forall_impl; [exact Hbody |]. by intros c [_ ?].
  - by repeat constructor.
Qed.

(** Lines with their newline are read back as they were written. *)
Lemma readlines_writelines ls :
  Forall complete_line ls -> readlines (writelines ls) = ls.
Proof.
  intros Hls. unfold readlines, writelines.
  rewrite universal_newlines_no_CR.
  - induction Hls as [|l ls (body & -> & Hbody) _ IH]; simpl; [done |].
    rewrite <- app_assoc. simpl. rewrite lines_aux_line by done.
    by rewrite IH.
  - induction Hls as [|l ls Hl _ IH]; simpl; [done |].
    apply Forall_app. split; [by apply complete_line_no_CR | done].
Qed.

Lemma no_space_plain s : no_space s -> plain s.
Proof.
  intros Hs. eapply Forall_impl; [exact Hs |].
  intros c Hc. split; intros ->; discriminate.
Qed.

Lemma plain_spaces n : plain (repeat " "%char n).
Proof. induction n; simpl; constructor; [by split | done]. Qed.

Lemma plain_join sep xs : plain sep -> Forall plain xs -> plain (join sep xs).
Proof.
  intros Hsep Hxs. induction Hxs as [|x xs Hx Hxs IH]; simpl; [constructor |].
  destruct xs as [|y xs]; [done |].
  apply Forall_app. split; [done |]. apply Forall_app. by split.
Qed.

Lemma complete_line_intro body : plain body -> complete_line (body ++ [newline]).
Proof. intros Hbody. by exists body. Qed.

Lemma format_2f_no_space x : no_space (format_2f x).
Proof.
  unfold format_2f.
  destruct (Prim2SF x) as [s|s| |s m e].
  - destruct s; vm_compute; repeat constructor.
  - destruct s; vm_compute; repeat constructor.
  - vm_compute; repeat constructor.
  - apply Forall_app. split; [destruct s; vm_compute; repeat constructor |].
    apply Forall_app. split; [apply str_of_int_token |].
    apply Forall_app. split; [vm_compute; repeat constructor |].
    unfold two_digits. apply Forall_app. split.
    + destruct (_ <? 10); vm_compute; repeat constructor.
    + apply str_of_int_token.
Qed.

End LineFacts.

(** ** The way of an [InputFile] through a file *)

Section RoundTripFacts.
Context `{Utils}.
Import Py TextFile InputFile.

Lemma plain_literal s :
  forallb (fun c => negb (Ascii.eqb c newline) && negb (Ascii.eqb c CR)) s = true ->
  plain s.
Proof.
  intros Hs. apply Forall_forall. intros c Hin%list_elem_of_In.
  rewrite forallb_forall in Hs. specialize (Hs c Hin).
  apply andb_true_iff in Hs as [H1 H2].
  split; intros ->; discriminate.
Qed.

Lemma plain_app a b : plain a -> plain b -> plain (a ++ b).
Proof. intros Ha Hb. apply Forall_app. by split. Qed.

Lemma orbital_line_complete o : complete_line (orbital_line o).
Proof.
  unfold orbital_line, nl. rewrite !app_assoc. apply complete_line_intro.
  repeat apply plain_app;
    try (apply plain_literal; vm_compute; reflexivity);
    try (apply no_space_plain, str_of_int_token).
  apply plain_join; [apply plain_literal; vm_compute; reflexivity |].
  apply Forall_fmap, Forall_forall. intros x _.
  apply no_space_plain, format_2f_no_space.
Qed.

Lemma to_file_file_lines self : to_file self = writelines (file_lines self).
Proof.
  unfold to_file, writelines, to_stringlist, file_lines.
  rewrite !concat_app. cbn [concat]. by rewrite <- !app_assoc.
Qed.

Lemma file_lines_complete self :
  serializable self -> Forall complete_line (file_lines self).
Proof.
  intros [[Hcode _] (ws & Hws & Hdescr) (Hsym & _) (Hxc & _) Heso _ _ Hlast _].
  unfold file_lines. apply Forall_app. split; [| apply Forall_app; split].
  - repeat apply Forall_cons_2; [| | done | | constructor].
    + unfold nl. rewrite !app_assoc. apply complete_line_intro.
      repeat apply plain_app;
        try (apply plain_literal; vm_compute; reflexivity);
        try (by apply no_space_plain).
      rewrite Hdescr. apply plain_join; [apply plain_literal; vm_compute; reflexivity |].
      eapply Forall_impl; [exact Hws |]. intros w [_ Hw]. by apply no_space_plain.
    + destruct (_ =? 2)%nat; unfold nl; rewrite !app_assoc;
        apply complete_line_intro;
        repeat apply plain_app;
        try (apply plain_literal; vm_compute; reflexivity);
        by apply no_space_plain.
    + destruct (_ <=? 9); unfold nl; rewrite !app_assoc;
        apply complete_line_intro;
        repeat apply plain_app;
        try (apply plain_literal; vm_compute; reflexivity);
        apply no_space_plain, str_of_int_token.
  - apply Forall_fmap, Forall_forall. intros o _. apply orbital_line_complete.
  - done.
Qed.

Lemma getitem_middle {A} (pre : list A) x rest :
  getitem (pre ++ x :: rest) (length pre) = Return x.
Proof. unfold getitem. by rewrite list_lookup_middle. Qed.

Lemma comprehension_getitem {B} (parse : str -> result B) pre olines rest :
  comprehension (fun i => line ← getitem (pre ++ olines ++ rest) i; parse line)
                (seq (length pre) (length olines))
  = comprehension parse olines.
Proof.
  revert pre. induction olines as [|l ls IH]; intros pre; simpl; [done |].
  rewrite getitem_middle. simpl.
  destruct (parse l) as [b|e]; simpl; [| done].
  specialize (IH (pre ++ [l])).
  rewrite length_app in IH. simpl in IH. rewrite Nat.add_1_r in IH.
  rewrite <- app_assoc in IH. simpl in IH. by rewrite IH.
Qed.

Lemma comprehension_orbitals orbs :
  Forall (fun o => exists o', parse_valence_orbitals (orbital_line o) = Return o'
                              /\ orbital_line o' = orbital_line o) orbs ->
  exists orbs',
    comprehension parse_valence_orbitals (map orbital_line orbs) = Return orbs'
    /\ map orbital_line orbs' = map orbital_line orbs.
Proof.
  induction 1 as [|o orbs (o' & Hparse & Hline) _ (orbs' & Hall & Hlines)]; simpl.
  - by exists [].
  - exists (o' :: orbs'). rewrite Hparse. simpl. rewrite Hall. simpl.
    split; [done |]. by rewrite Hline, Hlines.
Qed.

(** What [from_file] makes of a file whose lines split as they should. *)
Lemma from_file_lines content L0 L1 L2 L3 olines last
      cc ws t0 t1 sym xc a b core orbs' :
  drop_comments (readlines content) = L0 :: L1 :: L2 :: L3 :: olines ++ last ->
  split L0 = cc :: ws ->
  split L1 = [t0; t1] ->
  split_on "=" t0 !! 1%nat = Some sym ->
  split_on "=" t1 !! 1%nat = Some xc ->
  split L3 = [a; b] ->
  int_of_str a = Some core ->
  int_of_str b = Some (Z.of_nat (length olines)) ->
  comprehension parse_valence_orbitals olines = Return orbs' ->
  from_file content
  = init xc cc sym L2 (Z.of_nat (length olines)) core orbs' (join " " ws) (Some last).
Proof.
  intros Hlines H0 H1 Hsym Hxc H3 Ha Hb Horbs.
  unfold from_file. rewrite Hlines. unfold getitem, Py.int. simpl.
  rewrite H0, H1, H3. simpl. rewrite Hsym, Hxc. simpl. rewrite Ha, Hb. simpl.
  rewrite Nat2Z.id.
  change (L0 :: L1 :: L2 :: L3 :: olines ++ last)
    with ([L0; L1; L2; L3] ++ olines ++ last).
  pose proof (comprehension_getitem parse_valence_orbitals [L0; L1; L2; L3]
                olines last) as Hcomp.
  unfold getitem in Hcomp. simpl length in Hcomp. rewrite Hcomp, Horbs. simpl.
  unfold slice_from.
  destruct (Z.ltb_spec (4 + Z.of_nat (length olines)) 0) as [Hlt|_]; [lia |].
  replace (Z.to_nat (4 + Z.of_nat (length olines))) with (4 + length olines)%nat by lia.
  simpl. by rewrite drop_app_length.
Qed.

End RoundTripFacts.

Section RoundTrip.
Context `{Utils}.
Import Py TextFile InputFile.

Lemma spaces_literal s :
  forallb isspace s = true -> Forall (fun c => isspace c = true) s.
Proof.
  intros Hs. apply Forall_forall. intros c Hin%list_elem_of_In.
  rewrite forallb_forall in Hs. by apply Hs.
Qed.

Lemma split_token_spaces tok c sp s :
  token tok -> Forall (fun c => isspace c = true) (c :: sp) ->
  split (tok ++ (c :: sp) ++ s) = tok :: split s.
Proof.
  intros Htok Hsp. inversion Hsp; subst. simpl.
  rewrite split_token_space by done. by rewrite split_spaces.
Qed.

Lemma token_prefixed (pre : str) s :
  pre <> [] -> no_space pre -> no_space s -> token (pre ++ s).
Proof.
  intros Hne Hpre Hs. split.
  - destruct pre; [done | discriminate].
  - apply Forall_app. by split.
Qed.

Lemma no_space_literal s : forallb (fun c => negb (isspace c)) s = true -> no_space s.
Proof.
  intros Hs. apply Forall_forall. intros c Hin%list_elem_of_In.
  rewrite forallb_forall in Hs. specialize (Hs c Hin).
  by apply negb_true_iff in Hs.
Qed.

(** The header line: the code, then the words of the description. *)
Lemma split_header (sp1 sp2 : str) c2 cc ws :
  Forall (fun c => isspace c = true) sp1 ->
  Forall (fun c => isspace c = true) (c2 :: sp2) ->
  token cc -> Forall token ws ->
  split (sp1 ++ cc ++ (c2 :: sp2) ++ join " " ws ++ nl) = cc :: ws.
Proof.
  intros Hsp1 Hsp2 Hcc Hws.
  rewrite split_spaces by done. rewrite split_token_spaces by done.
  unfold nl. rewrite split_join_line by done. by rewrite app_nil_r.
Qed.

(** A line of two words. *)
Lemma split_two (sp1 sp2 : str) c2 t0 t1 :
  Forall (fun c => isspace c = true) sp1 ->
  Forall (fun c => isspace c = true) (c2 :: sp2) ->
  token t0 -> token t1 ->
  split (sp1 ++ t0 ++ (c2 :: sp2) ++ t1 ++ nl) = [t0; t1].
Proof.
  intros Hsp1 Hsp2 Ht0 Ht1.
  rewrite split_spaces by done. rewrite split_token_spaces by done.
  unfold nl. by rewrite split_token_space.
Qed.

Lemma split_on_key (key : str) s :
  Forall (fun c => c <> "="%char) key -> Forall (fun c => c <> "="%char) s ->
  split_on "=" (key ++ "=" ++ s) = [key; s].
Proof.
  intros Hkey Hs. unfold split_on.
  assert (Hgen : forall cur,
             split_on_aux "=" cur (key ++ "=" ++ s) = [rev cur ++ key; s]).
  { induction Hkey as [|c key Hc _ IH]; intros cur; simpl.
    - rewrite split_on_aux_none by done. by rewrite app_nil_r.
    - destruct (Ascii.eqb_spec c "=") as [->|_]; [done |].
      rewrite IH. simpl. by rewrite <- app_assoc. }
  apply Hgen.
Qed.

End RoundTrip.

(** C5, as the code has it.  An [InputFile] that is serializable (single
    words for the codes and the symbol, a description of words separated by
    one space, complete lines, a true orbital count, orbital lines that are
    read back to what prints the same, no line taken for a comment) comes
    back from its file as an [InputFile] that serializes to the very same
    strings. *)
Theorem from_file_to_file_same_strings `{Utils} (self : InputFile.t) :
  InputFile.serializable self ->
  exists self',
    InputFile.from_file (InputFile.to_file self) = Return self'
    /\ InputFile.to_stringlist self' = InputFile.to_stringlist self.
Proof.
  intros Hser.
  pose proof (file_lines_complete self Hser) as Hcomplete.
  destruct Hser as [[Hcode Hcode_ok] (ws & Hws & Hdescr)
                    (Hsym & Hsym_eq & Hsym_cap & Hsym_ok)
                    (Hxc & Hxc_eq & Hxc_ok) Heso Hcount Horbs Hlast Hcomments].
  assert (Hcode_ne : InputFile.calculation_code self <> []).
  { apply re_match_calculation in Hcode_ok as [rest ->]. discriminate. }
  destruct (comprehension_orbitals _ Horbs) as (orbs' & Hparse & Hprint).
  assert (Hlines :
            drop_comments (TextFile.readlines (InputFile.to_file self))
            = InputFile.file_lines self).
  { rewrite Hcomments, to_file_file_lines. by apply readlines_writelines. }
  exists (InputFile.mk (InputFile.exchange_correlation_type self)
            (InputFile.calculation_code self) (InputFile.description self)
            (InputFile.chemical_symbol self) (InputFile.esoteric_line self)
            (InputFile.number_core_orbitals self)
            (InputFile.number_valence_orbitals self) orbs'
            (InputFile.last_lines self)).
  split.
  - erewrite (from_file_lines _ _ _ _ _ (map InputFile.orbital_line
                                             (InputFile.valence_orbitals self))
                (InputFile.last_lines self)
                (InputFile.calculation_code self) ws
                ("n=" ++ InputFile.chemical_symbol self)
                ("c=" ++ InputFile.exchange_correlation_type self)
                (InputFile.chemical_symbol self)
                (InputFile.exchange_correlation_type self)
                (Py.str_of_int (InputFile.number_core_orbitals self))
                (Py.str_of_int (InputFile.number_valence_orbitals self))
                (InputFile.number_core_orbitals self) orbs').
    + rewrite length_map, <- Hcount. unfold InputFile.init.
      rewrite Hdescr.
      rewrite (proj2 (exchange_correlation_type_setter_Return _ _)
                 (conj eq_refl Hxc_ok)).
      rewrite (proj2 (calculation_code_setter_Return _ _)
                 (conj eq_refl Hcode_ok)).
      rewrite (proj2 (chemical_symbol_setter_Return _ _)
                 (conj eq_refl Hsym_ok)).
      simpl. rewrite (capitalized_fixed _ Hsym_cap).
      by destruct (InputFile.last_lines self).
    + rewrite Hlines. unfold InputFile.file_lines. reflexivity.
    + rewrite Hdescr.
      assert (Hsp3 : Forall (fun c => Py.isspace c = true) ("   " : str))
        by (apply spaces_literal; vm_compute; reflexivity).
      assert (Hsp6 : Forall (fun c => Py.isspace c = true) ("      " : str))
        by (apply spaces_literal; vm_compute; reflexivity).
      exact (split_header "   " "     " " " _ _ Hsp3 Hsp6 (conj Hcode_ne Hcode) Hws).
    + assert (Ht0 : Py.token ("n=" ++ InputFile.chemical_symbol self)).
      { apply token_prefixed; [done | | done].
        apply no_space_literal. vm_compute. reflexivity. }
      assert (Ht1 : Py.token ("c=" ++ InputFile.exchange_correlation_type self)).
      { apply token_prefixed; [done | | done].
        apply no_space_literal. vm_compute. reflexivity. }
      assert (Hsp1 : Forall (fun c => Py.isspace c = true) (" " : str))
        by (apply spaces_literal; vm_compute; reflexivity).
      assert (Hsp2 : Forall (fun c => Py.isspace c = true) ("  " : str))
        by (apply spaces_literal; vm_compute; reflexivity).
      destruct (_ =? 2)%nat; rewrite <- app_assoc.
      * exact (split_two " " "" " " _ _ Hsp1 Hsp1 Ht0 Ht1).
      * exact (split_two " " " " " " _ _ Hsp1 Hsp2 Ht0 Ht1).
    + assert (Hkey : Forall (fun c => c <> "="%char) ("n" : str))
        by (by repeat constructor).
      pose proof (split_on_key "n" _ Hkey Hsym_eq) as Hk.
      exact (f_equal (fun l => l !! 1%nat) Hk).
    + assert (Hkey : Forall (fun c => c <> "="%char) ("c" : str))
        by (by repeat constructor).
      pose proof (split_on_key "c" _ Hkey Hxc_eq) as Hk.
      exact (f_equal (fun l => l !! 1%nat) Hk).
    + assert (Hsp3 : Forall (fun c => Py.isspace c = true) ("   " : str))
        by (apply spaces_literal; vm_compute; reflexivity).
      assert (Hsp4 : Forall (fun c => Py.isspace c = true) ("    " : str))
        by (apply spaces_literal; vm_compute; reflexivity).
      destruct (_ <=? 9).
      * exact (split_two "    " "   " " " _ _ Hsp4 Hsp4
                 (str_of_int_token _) (str_of_int_token _)).
      * exact (split_two "   " "   " " " _ _ Hsp3 Hsp4
                 (str_of_int_token _) (str_of_int_token _)).
    + apply int_of_str_str_of_int.
    + rewrite length_map, <- Hcount. apply int_of_str_str_of_int.
    + exact Hparse.
  - unfold InputFile.to_stringlist. simpl. by rewrite Hprint.
Qed.

Section SampleFiles.
#[local] Existing Instance Sample.utils.

(** The input [minimum_setup] builds for hydrogen goes through its file
    unchanged. *)
Lemma from_file_to_file_same_strings_witness :
  let hydrogen :=
    InputFile.mk "ca" "ae" "H" "H"
      ("       0.0       0.0       0.0       0.0       0.0       0.0" ++ InputFile.nl)
      0 1 [Orbital.mk 1 0 [1%float; 0%float]]
      [("100 maxit" : str) ++ InputFile.nl] in
  InputFile.minimum_setup "H" "ca" 100 "ae" = Return hydrogen
  /\ exists self',
      InputFile.from_file (InputFile.to_file hydrogen) = Return self'
      /\ InputFile.to_stringlist self' = InputFile.to_stringlist hydrogen.
Proof.
  intros hydrogen. split; [vm_compute; reflexivity |].
  apply (from_file_to_file_same_strings hydrogen).
  constructor.
  - split; [apply no_space_literal |]; vm_compute; reflexivity.
  - exists [("H" : str)]. split; [| reflexivity].
    repeat constructor; discriminate.
  - split; [apply no_space_literal; vm_compute; reflexivity |].
    split; [repeat constructor; discriminate |].
    split; [vm_compute; by repeat constructor | vm_compute; reflexivity].
  - split; [apply no_space_literal; vm_compute; reflexivity |].
    split; [repeat constructor; discriminate | vm_compute; reflexivity].
  - eexists. split; [reflexivity |].
    apply plain_literal. vm_compute. reflexivity.
  - reflexivity.
  - repeat constructor. eexists. split; vm_compute; reflexivity.
  - repeat constructor. eexists. split; [reflexivity |].
    apply plain_literal. vm_compute. reflexivity.
  - vm_compute. reflexivity.
Defined.

(** C5, as stated: an [InputFile] the constructor accepts, whose
    description has two spaces between its words, comes back with one. *)
Lemma from_file_to_file_changes_description :
  let esoteric : str := "       0.0" ++ InputFile.nl in
  let written := InputFile.mk "ca" "ae" "a  b" "H" esoteric 0 0 [] [] in
  let read := InputFile.mk "ca" "ae" "a b" "H" esoteric 0 0 [] [] in
  InputFile.init "ca" "ae" "H" esoteric 0 0 [] "a  b" None = Return written
  /\ InputFile.from_file (InputFile.to_file written) = Return read
  /\ InputFile.to_stringlist written !! 0%nat
     = Some (("   ae      a  b" : str) ++ InputFile.nl)
  /\ InputFile.to_stringlist read !! 0%nat
     = Some (("   ae      a b" : str) ++ InputFile.nl)
  /\ InputFile.to_stringlist read <> InputFile.to_stringlist written.
Proof.
  intros esoteric written read.
  split; [vm_compute; reflexivity |].
  split; [vm_compute; reflexivity |].
  split; [vm_compute; reflexivity |].
  split; [vm_compute; reflexivity |].
  intros Heq. apply (f_equal (fun l => l !! 0%nat)) in Heq.
  vm_compute in Heq. discriminate.
Qed.

(** The same through [minimum_setup], with a code the lax setter of C1 lets
    in: the file gives back the code alone. *)
Example from_file_to_file_after_lax_setter :
  exists written read,
    InputFile.minimum_setup "H" "ca b" 100 "ae" = Return written
    /\ InputFile.from_file (InputFile.to_file written) = Return read
    /\ InputFile.exchange_correlation_type written = ("ca b" : str)
    /\ InputFile.exchange_correlation_type read = ("ca" : str).
Proof. do 2 eexists. repeat split; vm_compute; reflexivity. Qed.

End SampleFiles.

(* ===================================================================== *)
(** * Part III: further properties of the same code                       *)
(* ===================================================================== *)

(** ** [InputFile.__init__] *)

(** X1.  The constructor returns exactly when the exchange-correlation
    code starts with one of the nine codes, the calculation code starts with [ae]
    and the symbol is a key of the periodic table; what it stores is what it
    was given, the symbol capitalized.  Its checks run in that order: a bad
    exchange-correlation code is reported whatever the other arguments are, a
    bad calculation code only when the first check passed, an unknown symbol
    only when both passed. *)
Theorem init_checks_in_order `{Utils}
    (xc cc symbol eso : str) (nval ncore : Z) (orbs : list Orbital.t)
    (descr : str) (last : list str) :
  let xc_ok := exists code rest, code ∈ InputFile.xc_codes /\ xc = code ++ rest in
  let cc_ok := exists rest, cc = ("ae" : str) ++ rest in
  (xc_ok /\ cc_ok /\ PeriodicTable symbol = true ->
   InputFile.init xc cc symbol eso nval ncore orbs descr (Some last)
   = Return (InputFile.mk xc cc descr (Py.capitalize symbol) eso ncore nval orbs last))
  /\ (~ xc_ok ->
      InputFile.init xc cc symbol eso nval ncore orbs descr (Some last)
      = Raise (ValueError
                 "Your value of exchange and correlation functional is not valid"))
  /\ (xc_ok -> ~ cc_ok ->
      InputFile.init xc cc symbol eso nval ncore orbs descr (Some last)
      = Raise (ValueError "Your value of calculation is not valid"))
  /\ (xc_ok -> cc_ok -> PeriodicTable symbol = false ->
      InputFile.init xc cc symbol eso nval ncore orbs descr (Some last)
      = Raise (ValueError "The chemical symbol passed is not correct")).
Proof.
  intros xc_ok cc_ok. unfold InputFile.init, InputFile.exchange_correlation_type_setter,
    InputFile.calculation_code_setter, InputFile.chemical_symbol_setter.
  split; [| split; [| split]].
  - intros (Hxc%re_match_xc & Hcc%re_match_calculation & Hsym).
    rewrite Hxc, Hcc, Hsym. simpl. by destruct last.
  - intros Hxc. destruct (Re.re_match InputFile.xc_validation_regex xc) eqn:Hm;
      [| done]. by apply re_match_xc in Hm.
  - intros Hxc%re_match_xc Hcc. rewrite Hxc. simpl.
    destruct (Re.re_match InputFile.calculation_validation_regex cc) eqn:Hm;
      [| done]. by apply re_match_calculation in Hm.
  - intros Hxc%re_match_xc Hcc%re_match_calculation Hsym.
    by rewrite Hxc, Hcc, Hsym.
Qed.

(** ** [InputFile.electron_occupation], whatever the orbitals are *)

Section OccupationFrame.
Import InputFile.

Lemma occupation_loop_outcome (st : gmap ref (list float)) vs x sqn :
  match occupation_loop st vs x sqn with
  | (st', Raise e) =>
      st' = st
      /\ ((e = IndexError /\ exists o, o ∈ vs /\ st !!! dict_occupation o = [])
          \/ (e = Exception
                "Trouble with occupation. Please verify the parameters passed and the INP file."
              /\ forall o, o ∈ vs -> eligible st sqn o = false))
  | (st', Return _) =>
      exists o occ0 rest,
        o ∈ vs /\ dict_l o = sqn
        /\ st !!! dict_occupation o = occ0 :: rest
        /\ np_isclose occ0 0 1e-04 1e-08 = false
        /\ st' = <[dict_occupation o := (occ0 - x)%float :: rest]> st
  end.
Proof.
  induction vs as [|v vs IH]; simpl.
  - split; [done |]. right. split; [done |]. intros o Hin. by apply elem_of_nil in Hin.
  - destruct (st !!! dict_occupation v) as [|occ0 rest] eqn:Hocc; simpl.
    + split; [done |]. left. split; [done |]. exists v. split; [by left | done].
    + destruct (np_isclose occ0 0 1e-04 1e-08) eqn:Hclose; simpl.
      * destruct (occupation_loop st vs x sqn) as [st' [[]|e]].
        -- destruct IH as (o & a & r & Hin & ?). exists o, a, r. split; [by right | done].
        -- destruct IH as [-> [[-> (o & Hin & Ho)]|[-> Hall]]]; (split; [done |]).
           ++ left. split; [done |]. exists o. split; [by right | done].
           ++ right. split; [done |]. intros o [->|Hin]%elem_of_cons; [| by apply Hall].
              unfold eligible. by rewrite Hocc, Hclose.
      * destruct (Z.eqb_spec (dict_l v) sqn) as [Hl|Hl].
        -- exists v, occ0, rest. split; [by left | done].
        -- destruct (occupation_loop st vs x sqn) as [st' [[]|e]].
           ++ destruct IH as (o & a & r & Hin & ?). exists o, a, r.
              split; [by right | done].
           ++ destruct IH as [-> [[-> (o & Hin & Ho)]|[-> Hall]]]; (split; [done |]).
              ** left. split; [done |]. exists o. split; [by right | done].
              ** right. split; [done |].
                 intros o [->|Hin]%elem_of_cons; [| by apply Hall].
                 unfold eligible. rewrite Hocc, Hclose. simpl.
                 by apply Z.eqb_neq.
Qed.

End OccupationFrame.

(** X2.  With no assumption on the orbitals: the call either raises, and then
    the store is as it was (IndexError when an orbital has no occupation
    component, the exception of the loop's [else] when no orbital is
    eligible), or it returns, and then exactly one list object of the store
    has changed, the occupation of an orbital of [valence_orbitals] with the
    [l] asked for: its first component went down by the fraction, its other
    components stayed. *)
Theorem electron_occupation_changes_one_list
    (st : gmap InputFile.ref (list float)) (orbs : list InputFile.orbital_dict)
    (x : float) (sqn : Z) :
  match InputFile.electron_occupation st orbs x sqn with
  | (st', Raise e) =>
      st' = st
      /\ ((e = IndexError
           /\ exists o, o ∈ orbs /\ st !!! InputFile.dict_occupation o = [])
          \/ (e = Exception
                "Trouble with occupation. Please verify the parameters passed and the INP file."
              /\ forall o, o ∈ orbs -> InputFile.eligible st sqn o = false))
  | (st', Return _) =>
      exists o occ0 rest,
        o ∈ orbs /\ InputFile.dict_l o = sqn
        /\ st !!! InputFile.dict_occupation o = occ0 :: rest
        /\ InputFile.np_isclose occ0 0 1e-04 1e-08 = false
        /\ st' = <[InputFile.dict_occupation o := (occ0 - x)%float :: rest]> st
  end.
Proof.
  unfold InputFile.electron_occupation.
  pose proof (occupation_loop_outcome st (rev orbs) x sqn) as Hloop.
  destruct (InputFile.occupation_loop st (rev orbs) x sqn) as [st' [[]|e]].
  - destruct Hloop as (o & a & r & Hin & ?). exists o, a, r.
    split; [by apply elem_of_rev | done].
  - destruct Hloop as [-> [[-> (o & Hin & Ho)]|[-> Hall]]]; (split; [done |]).
    + left. split; [done |]. exists o. split; [by apply elem_of_rev | done].
    + right. split; [done |]. intros o Hin. apply Hall. by apply elem_of_rev.
Qed.

(** ** [InputFile.from_file] on files that are cut short *)

Section FromFileErrors.
Context `{Utils}.
Import Py TextFile InputFile.

Lemma comprehension_raises {A B} (f : A -> result B) xs x :
  x ∈ xs -> (exists e, f x = Raise e) -> exists e, comprehension f xs = Raise e.
Proof.
  induction xs as [|y xs IH]; intros Hin Hx.
  - by apply elem_of_nil in Hin.
  - simpl. destruct (f y) as [b|e] eqn:Hy; [| by exists e]. simpl.
    apply elem_of_cons in Hin as [->|Hin].
    + destruct Hx as [e He]. congruence.
    + destruct (IH Hin Hx) as [e ->]. by exists e.
Qed.

Lemma init_not_description_error xc cc sym eso nv nc orbs descr last :
  init xc cc sym eso nv nc orbs descr last
  <> Raise (ValueError "Description or calculation code not provided").
Proof.
  unfold init, exchange_correlation_type_setter, calculation_code_setter,
    chemical_symbol_setter.
  destruct (Re.re_match xc_validation_regex xc); [| done]. simpl.
  destruct (Re.re_match calculation_validation_regex cc); [| done]. simpl.
  by destruct (PeriodicTable sym).
Qed.

(** X3.  [from_file] raises ValueError("Description or calculation code not
    provided") exactly when, comments dropped, the file has no line or its
    first line holds no token. *)
Theorem from_file_description_error_iff content :
  from_file content
  = Raise (ValueError "Description or calculation code not provided")
  <-> match drop_comments (readlines content) with
      | [] => True
      | line :: _ => split line = []
      end.
Proof.
  unfold from_file.
  destruct (drop_comments (readlines content)) as [|L0 rest] eqn:Hlines;
    [done |].
  unfold getitem at 1 2. simpl.
  destruct (split L0) as [|cc ws] eqn:H0; [done |]. simpl.
  split; [| done]. intros Hraise. exfalso. revert Hraise.
  match goal with
  | |- context [try_except_raise ?c ?e ≫= _] => destruct c as [[sym xc]|?]
  end; [| done]. simpl.
  destruct (getitem (L0 :: rest) 2) as [eso|e2] eqn:H2; simpl.
  2:{ unfold getitem in H2. destruct ((L0 :: rest) !! 2%nat); congruence. }
  match goal with
  | |- context [try_except_raise ?c ?e ≫= _] => destruct c as [[nc nv]|?]
  end; [| done]. simpl.
  match goal with
  | |- context [try_except_raise ?c ?e ≫= _] => destruct c as [orbs|?]
  end; [| done]. simpl.
  apply init_not_description_error.
Qed.

(** X4.  A file of two lines, both well formed, makes [from_file] raise a
    bare IndexError: the read of the third line stands outside every [try]. *)
Theorem from_file_two_lines_IndexError content L0 L1 cc ws t0 t1 more :
  drop_comments (readlines content) = [L0; L1] ->
  split L0 = cc :: ws ->
  split L1 = t0 :: t1 :: more ->
  (2 <= length (split_on "=" t0))%nat ->
  (2 <= length (split_on "=" t1))%nat ->
  from_file content = Raise IndexError.
Proof.
  intros Hlines H0 H1 Ht0 Ht1. unfold from_file. rewrite Hlines.
  unfold getitem. simpl. rewrite H0, H1. simpl.
  destruct (split_on "=" t0) as [|? [|sym ?]]; [simpl in Ht0; lia.. |].
  destruct (split_on "=" t1) as [|? [|xc ?]]; [simpl in Ht1; lia.. |].
  done.
Qed.

(** X5.  When the count line announces more valence orbitals than there are
    lines left, [from_file] raises ValueError("Valence orbitals do not
    provided correctly"), whatever the lines that are there hold. *)
Theorem from_file_too_few_orbital_lines content L0 L1 L2 L3 olines
    cc ws t0 t1 more a b more' core nval :
  drop_comments (readlines content) = L0 :: L1 :: L2 :: L3 :: olines ->
  split L0 = cc :: ws ->
  split L1 = t0 :: t1 :: more ->
  (2 <= length (split_on "=" t0))%nat ->
  (2 <= length (split_on "=" t1))%nat ->
  split L3 = a :: b :: more' ->
  int_of_str a = Some core ->
  int_of_str b = Some nval ->
  Z.of_nat (length olines) < nval ->
  from_file content
  = Raise (ValueError "Valence orbitals do not provided correctly").
Proof.
  intros Hlines H0 H1 Ht0 Ht1 H3 Ha Hb Hfew. unfold from_file. rewrite Hlines.
  unfold getitem at 1 2 3 4 5 6 7 8 9 10, Py.int. simpl. rewrite H0, H1, H3. simpl.
  destruct (split_on "=" t0) as [|? [|sym ?]]; [simpl in Ht0; lia.. |].
  destruct (split_on "=" t1) as [|? [|xc ?]]; [simpl in Ht1; lia.. |].
  simpl. rewrite Ha, Hb. simpl.
  match goal with
  | |- context [comprehension ?f ?xs] =>
      destruct (comprehension_raises f xs (4 + length olines)%nat) as [e ->]
  end; [| | done].
  - apply list_elem_of_In, in_seq. lia.
  - exists IndexError. unfold getitem.
    replace ((L0 :: L1 :: L2 :: L3 :: olines) !! (4 + length olines)%nat)
      with (@None str); [done |].
    symmetry. apply lookup_ge_None_2. simpl. lia.
Qed.

(** X6.  A negative orbital count is taken as it is: no orbital line is
    read, and the last lines are cut with that negative count, so that
    [4 + nval] header lines are skipped only and the count line is among the
    last lines. *)
Theorem from_file_negative_count content L0 L1 L2 L3 rest
    cc ws t0 t1 more a b more' sym xc core nval :
  drop_comments (readlines content) = L0 :: L1 :: L2 :: L3 :: rest ->
  split L0 = cc :: ws ->
  split L1 = t0 :: t1 :: more ->
  split_on "=" t0 !! 1%nat = Some sym ->
  split_on "=" t1 !! 1%nat = Some xc ->
  split L3 = a :: b :: more' ->
  int_of_str a = Some core ->
  int_of_str b = Some nval ->
  -4 <= nval < 0 ->
  from_file content
  = init xc cc sym L2 nval core [] (join " " ws)
         (Some (drop (Z.to_nat (4 + nval)) (L0 :: L1 :: L2 :: L3 :: rest))).
Proof.
  intros Hlines H0 H1 Hsym Hxc H3 Ha Hb Hneg. unfold from_file. rewrite Hlines.
  unfold getitem, Py.int. simpl. rewrite H0, H1, H3. simpl.
  rewrite Hsym, Hxc. simpl. rewrite Ha, Hb. simpl.
  replace (Z.to_nat nval) with 0%nat by lia. simpl.
  unfold slice_from.
  by destruct (Z.ltb_spec (4 + nval) 0) as [Hlt|_]; [lia |].
Qed.

End FromFileErrors.

Section SampleErrors.
#[local] Existing Instance Sample.utils.

(** A file that stops after the symbol line. *)
Lemma from_file_two_lines_IndexError_witness :
  InputFile.from_file
    (("ae H" : str) ++ InputFile.nl ++ (" n=H c=ca" : str) ++ InputFile.nl)
  = Raise IndexError.
Proof.
  eapply from_file_two_lines_IndexError;
    [vm_compute; reflexivity .. | vm_compute; lia | vm_compute; lia].
Defined.

(** A file that announces two valence orbitals and holds one. *)
Lemma from_file_too_few_orbital_lines_witness :
  InputFile.from_file
    (("ae H" : str) ++ InputFile.nl ++ (" n=H c=ca" : str) ++ InputFile.nl
       ++ ("       0.0" : str) ++ InputFile.nl
       ++ ("    0    2" : str) ++ InputFile.nl
       ++ ("    1    0      1.00      0.00" : str) ++ InputFile.nl)
  = Raise (ValueError "Valence orbitals do not provided correctly").
Proof.
  eapply from_file_too_few_orbital_lines;
    [vm_compute; reflexivity | vm_compute; reflexivity
     | vm_compute; reflexivity | vm_compute; lia | vm_compute; lia
     | vm_compute; reflexivity | vm_compute; reflexivity
     | vm_compute; reflexivity | vm_compute; reflexivity].
Defined.

(** A file whose count line announces [-1] valence orbital: the count line
    and the line after it are the last lines of the input read. *)
Lemma from_file_negative_count_witness :
  InputFile.from_file
    (("ae H" : str) ++ InputFile.nl ++ (" n=H c=ca" : str) ++ InputFile.nl
       ++ ("       0.0" : str) ++ InputFile.nl
       ++ ("    0    -1" : str) ++ InputFile.nl
       ++ ("100 maxit" : str) ++ InputFile.nl)
  = Return (InputFile.mk "ca" "ae" "H" "H" (("       0.0" : str) ++ InputFile.nl)
              0 (-1) []
              [("    0    -1" : str) ++ InputFile.nl;
               ("100 maxit" : str) ++ InputFile.nl]).
Proof.
  etransitivity.
  - eapply from_file_negative_count;
      [vm_compute; reflexivity | vm_compute; reflexivity
       | vm_compute; reflexivity | vm_compute; reflexivity
       | vm_compute; reflexivity | vm_compute; reflexivity
       | vm_compute; reflexivity | vm_compute; reflexivity | lia].
  - vm_compute. reflexivity.
Defined.

End SampleErrors.

(** ** [Vtotal.read_radius] and [Vtotal.read_down_potential] on files that
       hold their markers *)

Section MarkerFacts.
Import Re.

Lemma matches_Star_chars r (P : ascii -> Prop) :
  (forall s, matches r s <-> exists c, s = [c] /\ P c) ->
  forall s, matches (Star r) s <-> Forall P s.
Proof.
  intros Hr s. split.
  - induction s as [|c s IH]; intros Hm; [constructor |].
    apply matches_star_cons_inv in Hm as (s1 & s2 & -> & Hm1 & Hm2).
    apply Hr in Hm1 as (c' & Heq & Hc). injection Heq as -> ->.
    constructor; [done | by apply IH].
  - induction 1 as [|c s Hc _ IH]; [constructor |].
    change (c :: s) with ([c] ++ s). constructor; [| done].
    apply Hr. by exists c.
Qed.

Lemma matches_Dot s : matches Dot s <-> exists c, s = [c] /\ c <> Py.newline.
Proof.
  split; [inversion 1; subst; eauto | intros (c & -> & Hc); by constructor].
Qed.

Lemma matches_Space s :
  matches Space s <-> exists c, s = [c] /\ Py.isspace c = true.
Proof.
  split; [inversion 1; subst; eauto | intros (c & -> & Hc); by constructor].
Qed.

Lemma matches_Plus_Space s :
  matches (Plus Space) s <-> s <> [] /\ Forall (fun c => Py.isspace c = true) s.
Proof.
  unfold Plus. split.
  - intros (s1 & s2 & -> & Hm1 & Hm2)%matches_Seq_inv.
    apply matches_Space in Hm1 as (c & -> & Hc).
    apply (matches_Star_chars Space _ matches_Space) in Hm2.
    split; [done | by constructor].
  - intros [Hne Hall]. destruct Hall as [|c s Hc Hs]; [done |].
    change (c :: s) with ([c] ++ s). constructor.
    + by constructor.
    + by apply (matches_Star_chars Space _ matches_Space).
Qed.

End MarkerFacts.

(** X7.  The lines the two readers of [vtotal.py] stop at: a line, at
    whatever place of the file, that holds the word ([Down] or [Up]), white
    space, [potential], white space and [follows], after any text free of
    newlines and before any text at all. *)
Theorem marker_line_iff (word line : str) :
  Re.re_match (Vtotal.marker word) line = true
  <-> exists before ws1 ws2 rest,
        line = before ++ word ++ ws1 ++ ("potential" : str) ++ ws2
                 ++ ("follows" : str) ++ rest
        /\ Forall (fun c => c <> Py.newline) before
        /\ ws1 <> [] /\ Forall (fun c => Py.isspace c = true) ws1
        /\ ws2 <> [] /\ Forall (fun c => Py.isspace c = true) ws2.
Proof.
  rewrite re_match_spec. unfold Vtotal.marker. split.
  - intros (p & rest & -> & Hm).
    apply matches_Seq_inv in Hm as (before & p1 & -> & Hb & Hm).
    apply matches_Seq_inv in Hm as (w & p2 & -> & Hw & Hm).
    apply matches_Seq_inv in Hm as (ws1 & p3 & -> & Hws1 & Hm).
    apply matches_Seq_inv in Hm as (pot & p4 & -> & Hpot & Hm).
    apply matches_Seq_inv in Hm as (ws2 & fol & -> & Hws2 & Hfol).
    apply matches_Lit in Hw as ->. apply matches_Lit in Hpot as ->.
    apply matches_Lit in Hfol as ->.
    apply (matches_Star_chars Re.Dot _ matches_Dot) in Hb.
    apply matches_Plus_Space in Hws1 as [? ?].
    apply matches_Plus_Space in Hws2 as [? ?].
    exists before, ws1, ws2, rest. split; [| done].
    by rewrite <- !app_assoc.
  - intros (before & ws1 & ws2 & rest & -> & Hb & Hne1 & Hws1 & Hne2 & Hws2).
    exists (before ++ word ++ ws1 ++ ("potential" : str) ++ ws2 ++ ("follows" : str)),
      rest.
    split; [by rewrite <- !app_assoc |].
    constructor; [by apply (matches_Star_chars Re.Dot _ matches_Dot) |].
    constructor; [by apply matches_Lit |].
    constructor; [by apply matches_Plus_Space |].
    constructor; [by apply matches_Lit |].
    constructor; [by apply matches_Plus_Space | by apply matches_Lit].
Qed.

Section VtotalReaders.
Context `{Utils}.
Import Vtotal.

Lemma read_table_found r rows body stop rest :
  Forall (fun line => Re.re_match r line = false) body ->
  Re.re_match r stop = true ->
  read_table r rows (body ++ stop :: rest)
  = (array ← np_array (concat (rows ++ map Py.split body)); Return (Some array)).
Proof.
  intros Hbody Hstop. revert rows.
  induction Hbody as [|line body Hline _ IH]; intros rows; simpl.
  - by rewrite Hstop, app_nil_r.
  - rewrite Hline, IH. by rewrite <- app_assoc.
Qed.

Lemma after_marker_found r before start rest :
  Forall (fun line => Re.re_match r line = false) before ->
  Re.re_match r start = true ->
  after_marker r (before ++ start :: rest) = Some rest.
Proof.
  intros Hbefore Hstart.
  induction Hbefore as [|line before Hline _ IH]; simpl.
  - by rewrite Hstart.
  - by rewrite Hline.
Qed.

(** X8.  [read_radius] on a file that holds the Down marker after its first
    line: the array is made of the tokens of the lines between the first
    line and the first marker line, in their order; the first line is
    skipped whatever it holds, the lines after the marker are not read, and
    a token that is no float makes the conversion raise. *)
Theorem read_radius_between content header body stop rest :
  TextFile.readlines content = header :: body ++ stop :: rest ->
  Forall (fun line => Re.re_match down_regex line = false) body ->
  Re.re_match down_regex stop = true ->
  read_radius content
  = (array ← np_array (concat (map Py.split body)); Return (Some array)).
Proof.
  intros Hlines Hbody Hstop. unfold read_radius. rewrite Hlines. simpl.
  rewrite drop_0. by rewrite read_table_found.
Qed.

(** X9.  [read_down_potential] on a file that holds both markers: the
    array is made of the tokens of the lines between the line after the
    first Down marker (the spin line, skipped whatever it holds) and the
    first Up marker after it. *)
Theorem read_down_potential_between content before start spin body stop rest :
  TextFile.readlines content
  = before ++ start :: spin :: body ++ stop :: rest ->
  Forall (fun line => Re.re_match down_regex line = false) before ->
  Re.re_match down_regex start = true ->
  Forall (fun line => Re.re_match up_regex line = false) body ->
  Re.re_match up_regex stop = true ->
  read_down_potential content
  = (array ← np_array (concat (map Py.split body)); Return (Some array)).
Proof.
  intros Hlines Hbefore Hstart Hbody Hstop. unfold read_down_potential.
  rewrite Hlines, after_marker_found by done. simpl.
  rewrite drop_0. by rewrite read_table_found.
Qed.

(** X10.  [read_down_potential] on a file that holds the Down marker and no
    Up marker after the spin line: no exception, the call returns [None]. *)
Theorem read_down_potential_without_end content before start rest :
  TextFile.readlines content = before ++ start :: rest ->
  Forall (fun line => Re.re_match down_regex line = false) before ->
  Re.re_match down_regex start = true ->
  Forall (fun line => Re.re_match up_regex line = false) (drop 1 rest) ->
  read_down_potential content = Return None.
Proof.
  intros Hlines Hbefore Hstart Hrest. unfold read_down_potential.
  rewrite Hlines, after_marker_found by done.
  apply read_table_no_marker. intros line Hin.
  by apply (proj1 (Forall_forall _ _) Hrest).
Qed.

End VtotalReaders.

Section SampleVtotal.
#[local] Existing Instance Sample.utils.

Local Ltac no_marker :=
  repeat first [ apply List.Forall_nil
               | apply List.Forall_cons; [vm_compute; reflexivity |] ].

(** A file of three radii, read up to its Down marker. *)
Lemma read_radius_between_witness :
  Vtotal.read_radius
    (concat [(" Radial grid follows" : str) ++ InputFile.nl;
             (" 0.1 0.2" : str) ++ InputFile.nl;
             (" 0.3" : str) ++ InputFile.nl;
             (" Down potential follows (l on next line)" : str) ++ InputFile.nl;
             (" 0" : str) ++ InputFile.nl])
  = Return (Some [0.1; 0.2; 0.3]%float).
Proof.
  etransitivity.
  - apply (read_radius_between _
             ((" Radial grid follows" : str) ++ InputFile.nl)
             [(" 0.1 0.2" : str) ++ InputFile.nl; (" 0.3" : str) ++ InputFile.nl]
             ((" Down potential follows (l on next line)" : str) ++ InputFile.nl)
             [(" 0" : str) ++ InputFile.nl]);
      [vm_compute; reflexivity | no_marker | vm_compute; reflexivity].
  - vm_compute. reflexivity.
Defined.

(** A file with both markers: the spin line is skipped, the two lines up
    to the Up marker are read. *)
Lemma read_down_potential_between_witness :
  Vtotal.read_down_potential
    (concat [(" Radial grid follows" : str) ++ InputFile.nl;
             (" 0.1 0.2" : str) ++ InputFile.nl;
             (" Down potential follows (l on next line)" : str) ++ InputFile.nl;
             (" 0" : str) ++ InputFile.nl;
             (" -1.5 -2.5" : str) ++ InputFile.nl;
             (" -0.25" : str) ++ InputFile.nl;
             (" Up potential follows (l on next line)" : str) ++ InputFile.nl;
             (" 0" : str) ++ InputFile.nl])
  = Return (Some [-1.5; -2.5; -0.25]%float).
Proof.
  etransitivity.
  - apply (read_down_potential_between _
             [(" Radial grid follows" : str) ++ InputFile.nl;
              (" 0.1 0.2" : str) ++ InputFile.nl]
             ((" Down potential follows (l on next line)" : str) ++ InputFile.nl)
             ((" 0" : str) ++ InputFile.nl)
             [(" -1.5 -2.5" : str) ++ InputFile.nl;
              (" -0.25" : str) ++ InputFile.nl]
             ((" Up potential follows (l on next line)" : str) ++ InputFile.nl)
             [(" 0" : str) ++ InputFile.nl]);
      [vm_compute; reflexivity | no_marker | vm_compute; reflexivity
       | no_marker | vm_compute; reflexivity].
  - vm_compute. reflexivity.
Defined.

(** A file that ends before any Up marker. *)
Lemma read_down_potential_without_end_witness :
  Vtotal.read_down_potential
    (concat [(" Radial grid follows" : str) ++ InputFile.nl;
             (" Down potential follows (l on next line)" : str) ++ InputFile.nl;
             (" 0" : str) ++ InputFile.nl;
             (" -1.5 -2.5" : str) ++ InputFile.nl])
  = Return None.
Proof.
  apply (read_down_potential_without_end _
           [(" Radial grid follows" : str) ++ InputFile.nl]
           ((" Down potential follows (l on next line)" : str) ++ InputFile.nl)
           [(" 0" : str) ++ InputFile.nl; (" -1.5 -2.5" : str) ++ InputFile.nl]);
    [vm_compute; reflexivity | no_marker | vm_compute; reflexivity | no_marker].
Defined.

End SampleVtotal.

(** ** The fixed columns of [InputFile.to_stringlist] *)

Lemma str_of_int_length_below_100 z :
  0 <= z <= 99 ->
  length (Py.str_of_int z) = if z <=? 9 then 1%nat else 2%nat.
Proof.
  intros Hz.
  assert (exists n : nat, z = Z.of_nat n /\ (n < 100)%nat) as (n & -> & Hn)
    by (exists (Z.to_nat z); lia).
  clear Hz.
  do 100 (destruct n as [|n]; [vm_compute; reflexivity |]). lia.
Qed.

(** X11.  The two branches of [to_stringlist] on the length of the symbol
    and on the core count keep the header in fixed columns: for a symbol of
    one or two letters the text up to [c=] fills six columns, and for a core
    count from 0 to 99 the count ends in the fifth column of its line. *)
Theorem to_stringlist_fixed_columns (self : InputFile.t) :
  ((1 <= length (InputFile.chemical_symbol self) <= 2)%nat ->
   exists pad : str,
     InputFile.to_stringlist self !! 1%nat
     = Some ((" n=" : str) ++ InputFile.chemical_symbol self)
     /\ InputFile.to_stringlist self !! 2%nat
        = Some (pad ++ ("c=" : str) ++ InputFile.exchange_correlation_type self
                  ++ InputFile.nl)
     /\ Forall (fun c => c = " "%char) pad
     /\ length (((" n=" : str) ++ InputFile.chemical_symbol self) ++ pad) = 6%nat)
  /\ (0 <= InputFile.number_core_orbitals self <= 99 ->
      exists pad : str,
        InputFile.to_stringlist self !! 4%nat
        = Some (pad ++ Py.str_of_int (InputFile.number_core_orbitals self)
                  ++ ("    " : str)
                  ++ Py.str_of_int (InputFile.number_valence_orbitals self)
                  ++ InputFile.nl)
        /\ Forall (fun c => c = " "%char) pad
        /\ length (pad ++ Py.str_of_int (InputFile.number_core_orbitals self))
           = 5%nat).
Proof.
  split.
  - intros Hlen. unfold InputFile.to_stringlist. simpl.
    destruct (Nat.eqb_spec (length (InputFile.chemical_symbol self)) 2) as [H2|H2].
    + exists (" " : str). repeat split; [by repeat constructor |].
      rewrite length_app. simpl. lia.
    + exists ("  " : str). repeat split; [by repeat constructor |].
      rewrite length_app. simpl. lia.
  - intros Hcore. unfold InputFile.to_stringlist. simpl.
    pose proof (str_of_int_length_below_100 _ Hcore) as Hlen.
    destruct (Z.leb_spec (InputFile.number_core_orbitals self) 9) as [H9|H9].
    + exists ("    " : str). repeat split; [by repeat constructor |].
      rewrite length_app, Hlen. reflexivity.
    + exists ("   " : str). repeat split; [by repeat constructor |].
      rewrite length_app, Hlen. reflexivity.
Qed.

(** ** The selection, its sum and [execute] *)

Section SelectionComposition.
Import Pandas Selection.

Lemma targets_numbers_only idx :
  numbers_only idx -> Forall (fun p => exists v, p.2 = LNum v) (targets idx).
Proof.
  unfold targets. induction 1 as [|[symbol orbitals] idx Hnum _ IH]; simpl.
  - constructor.
  - apply Forall_app. split; [| exact IH].
    simpl in Hnum. clear IH.
    induction Hnum as [|orbital orbitals Ho _ IHo]; simpl; [constructor |].
    constructor; [exact Ho | exact IHo].
Qed.

Lemma selection_numbers_only df idx :
  _get_corrections_indexes df = Return idx -> numbers_only idx.
Proof.
  unfold _get_corrections_indexes. intros Hrun.
  eapply corrections_loop_numbers_only; [| exact Hrun].
  apply fold_dict_set_numbers_only. constructor.
Qed.

Lemma sum_after_selection df idx :
  _get_corrections_indexes df = Return idx ->
  _get_sum_correction_percentual df idx
  = match targets idx with [] => Return 0%float | _ => Raise KeyError end.
Proof.
  intros Hnum%selection_numbers_only%targets_numbers_only.
  unfold _get_sum_correction_percentual.
  destruct (targets idx) as [|[symbol orbital] pairs]; [done |].
  apply Forall_cons in Hnum as [[v Hv] _]. simpl in Hv. subst orbital.
  reflexivity.
Qed.

End SelectionComposition.

(** X12.  The two selection steps do not compose: whenever
    [_get_corrections_indexes] returns a selection that is not empty,
    [_get_sum_correction_percentual] raises KeyError on it, for the lists
    hold cell values and the sum reads them as column names. *)
Theorem sum_of_selection_raises_KeyError (df : Pandas.DataFrame)
    (corrections_index : list (str * list Pandas.label)) :
  Selection._get_corrections_indexes df = Return corrections_index ->
  Selection.targets corrections_index <> [] ->
  Selection._get_sum_correction_percentual df corrections_index = Raise KeyError.
Proof.
  intros Hrun Hne. rewrite (sum_after_selection _ _ Hrun).
  by destruct (Selection.targets corrections_index).
Qed.

(** A table with the same labels on both axes, where the selection
    returns: two cells of 60 are selected, and the sum fails on them. *)
Lemma sum_of_selection_raises_KeyError_witness :
  let df :=
    Pandas.mk [("a" : str); ("b" : str)] [("a" : str); ("b" : str)]
      (fun column row => if bool_decide (column = row) then 60 else 2)%float in
  let selection :=
    [(("a" : str), [Pandas.LNum 60]); (("b" : str), [Pandas.LNum 60])] in
  Selection._get_corrections_indexes df = Return selection
  /\ Selection._get_sum_correction_percentual df selection = Raise KeyError.
Proof.
  intros df selection. split; [vm_compute; reflexivity |].
  apply (sum_of_selection_raises_KeyError df selection);
    [vm_compute; reflexivity | discriminate].
Defined.

Section ExecuteFacts.
Context `{Utils}.
Context {world file potential_class atomic_potential potential : Type}.
Context `{!Collaborators world file potential_class atomic_potential potential}.
Import Conduction.

(** X13.  [execute] never reaches [_find_best_correction]: in every world
    and for every projection table it ends in the world that
    [_make_conduction_potential_folder] leaves, and it either raises or
    returns no cut and the gap 0. *)
Theorem execute_never_corrects (self : t) (w : world) :
  exists r,
    execute self w = ((_make_conduction_potential_folder self w).1, r)
    /\ (r = Return ([], 0%float) \/ exists e, r = Raise e).
Proof.
  unfold execute, mbind, M_bind.
  destruct (_make_conduction_potential_folder self w) as [w1 [[]|e]]; simpl;
    [| exists (Raise e); split; [done | right; by exists e]].
  unfold lift.
  destruct (Selection._get_corrections_indexes (cbm_projection self))
    as [idx|e] eqn:Hsel;
    [| exists (Raise e); split; [done | right; by exists e]].
  rewrite (sum_after_selection _ _ Hsel).
  destruct (Selection.targets idx) as [|p pairs].
  - exists (Return ([], 0%float)). split; [done | by left].
  - exists (Raise KeyError). split; [done | right; by exists KeyError].
Qed.

End ExecuteFacts.

(** ** [_make_conduction_potential_folder] and
       [_generate_occupation_potential] when a file or a folder is missing *)

Section StagingFacts.
Context `{Utils}.
Context {world file potential_class atomic_potential potential : Type}.
Context `{!Collaborators world file potential_class atomic_potential potential}.
Import Conduction.

(** X14.  When the potential file of the first atom cannot be opened, the
    exception that leaves [_make_conduction_potential_folder] is
    UnboundLocalError, not the one [open] raised: the [finally] clause closes
    a variable that no iteration has bound yet. *)
Theorem make_folder_first_open_failure (self : t) atom rest (w w0 w1 w2 : world) e :
  atoms self = atom :: rest ->
  if_exists conduction_potfiles_folder
    (shutil_rmtree conduction_potfiles_folder) (mret ()) w = (w0, Return ()) ->
  os_mkdir conduction_potfiles_folder w0 = (w1, Return ()) ->
  open_ (path_join potential_folder
           (map Py.upper (potential_filename self) ++ ("." : str)
              ++ map Py.lower atom)) "r" w1
  = (w2, Raise e) ->
  _make_conduction_potential_folder self w = (w2, Raise UnboundLocalError).
Proof.
  intros Hatoms Hclean Hmkdir Hopen. unfold _make_conduction_potential_folder.
  rewrite (M_bind_Return _ _ _ _ _ Hclean), (M_bind_Return _ _ _ _ _ Hmkdir).
  rewrite Hatoms. simpl. simpl in Hopen. apply M_bind_Raise.
  unfold on_error. by rewrite Hopen.
Qed.

(** X15.  [_generate_occupation_potential] starts no process when the
    pseudopotential folder is missing (it logs and raises
    FileNotFoundError) nor, the folder being there, when the orbital is a
    number or a name other than s, p, d and f (KeyError): in both cases the
    world is left as it was, the log entry apart. *)
Theorem generate_occupation_potential_guards
    (base_path : str) (orbital : Pandas.label) (percentual : Z) (w : world) :
  (os_path_exists (path_join base_path "pseudopotential") w = false ->
   _generate_occupation_potential base_path orbital percentual w
   = (logger_error "Folder for pseudopotential does not exist" w,
      Raise (FileNotFoundError "Folder for pseudopotential does not exist")))
  /\ (os_path_exists (path_join base_path "pseudopotential") w = true ->
      orbital ∉ [Pandas.LStr "s"; Pandas.LStr "p"; Pandas.LStr "d"; Pandas.LStr "f"] ->
      _generate_occupation_potential base_path orbital percentual w
      = (w, Raise KeyError)).
Proof.
  unfold _generate_occupation_potential, mbind, M_bind, if_exists.
  split.
  - intros ->. reflexivity.
  - intros -> Hnot. simpl. unfold lift.
    replace (OrbitalType orbital) with (@Raise Z KeyError); [done |].
    destruct orbital as [s|v]; [| done]. simpl.
    repeat case_bool_decide; subst; try done;
      exfalso; apply Hnot; set_solver.
Qed.

End StagingFacts.

Section SampleStaging.
#[local] Existing Instance Sample.utils.
#[local] Existing Instance Posix.collaborators.

(** The gallium nitride run in an empty working directory: the folder is
    made, and the potential file of gallium is missing. *)
Lemma make_folder_first_open_failure_witness :
  Conduction._make_conduction_potential_folder Posix.self Posix.empty
  = (Posix.put Conduction.conduction_potfiles_folder Posix.Directory Posix.empty,
     Raise UnboundLocalError).
Proof.
  eapply (make_folder_first_open_failure Posix.self "Ga" [("N" : str)]
            Posix.empty Posix.empty);
    [reflexivity | reflexivity | reflexivity | vm_compute; reflexivity].
Defined.

End SampleStaging.

(** ** What every input read by [InputFile.from_file] satisfies *)

Section ParsedFacts.
Context `{Utils}.
Import Py TextFile InputFile.

Lemma split_aux_tokens cur s :
  no_space cur -> Forall token (split_aux cur s).
Proof.
  revert cur. induction s as [|c s IH]; intros cur Hcur; simpl.
  - destruct cur as [|d cur]; [constructor |].
    constructor; [| constructor]. split.
    + intros Hnil. apply (f_equal (@length ascii)) in Hnil.
      rewrite length_rev in Hnil. discriminate.
    + by apply no_space_rev.
  - destruct (isspace c) eqn:Hc.
    + destruct cur as [|d cur]; [apply IH; constructor |].
      constructor; [| apply IH; constructor]. split.
      * intros Hnil. apply (f_equal (@length ascii)) in Hnil.
        rewrite length_rev in Hnil. discriminate.
      * by apply no_space_rev.
    + apply IH. by constructor.
Qed.

Lemma split_tokens s : Forall token (split s).
Proof. apply split_aux_tokens. constructor. Qed.

Lemma split_join ws : Forall token ws -> split (join " " ws) = ws.
Proof.
  induction 1 as [|x ws Hx Hws IH]; [done |].
  destruct ws as [|y ws]; [by apply split_token_end |].
  change (join " " (x :: y :: ws)) with (x ++ " "%char :: join " " (y :: ws)).
  rewrite split_token_space by done. by rewrite IH.
Qed.

Lemma comprehension_length {A B} (f : A -> result B) xs ys :
  comprehension f xs = Return ys -> length ys = length xs.
Proof.
  revert ys. induction xs as [|x xs IH]; intros ys; simpl.
  - by intros [= <-].
  - intros (y & _ & (ys' & Hys & [= <-])%bind_Return_inv)%bind_Return_inv.
    simpl. by rewrite (IH _ Hys).
Qed.

Lemma try_except_raise_Return_inv {A} (c : result A) e a :
  try_except_raise c e = Return a -> c = Return a.
Proof. by destruct c. Qed.

Lemma init_Return_fields xc cc symbol eso nval ncore orbs descr last self :
  init xc cc symbol eso nval ncore orbs descr last = Return self ->
  calculation_code self = cc /\ description self = descr
  /\ number_valence_orbitals self = nval /\ valence_orbitals self = orbs.
Proof.
  unfold init, exchange_correlation_type_setter, calculation_code_setter,
    chemical_symbol_setter.
  destruct (Re.re_match xc_validation_regex xc); [| done]. simpl.
  destruct (Re.re_match calculation_validation_regex cc); [| done]. simpl.
  destruct (PeriodicTable symbol); [| done]. simpl.
  by intros [= <-].
Qed.

End ParsedFacts.

(** X16.  Whatever the file, an input that [from_file] returns has as many
    valence orbitals as its count says (none for a negative count), a
    calculation code that is one token, and a description made of tokens
    with one space between them: splitting it and joining it again gives it
    back. *)
Theorem from_file_invariants `{Utils} (content : str) (self : InputFile.t) :
  InputFile.from_file content = Return self ->
  length (InputFile.valence_orbitals self)
  = Z.to_nat (InputFile.number_valence_orbitals self)
  /\ Py.token (InputFile.calculation_code self)
  /\ Py.join " " (Py.split (InputFile.description self))
     = InputFile.description self.
Proof.
  unfold InputFile.from_file.
  intros ([cc descr] & H0%try_except_raise_Return_inv & Hrun)%bind_Return_inv.
  apply bind_Return_inv in Hrun
      as ([sym xc] & _ & (eso & _ & Hrun)%bind_Return_inv).
  apply bind_Return_inv in Hrun
      as ([ncore nval] & _ & (orbs & Horbs%try_except_raise_Return_inv
                                & Hinit)%bind_Return_inv).
  apply init_Return_fields in Hinit as (-> & -> & -> & ->).
  apply comprehension_length in Horbs. rewrite length_seq in Horbs.
  apply bind_Return_inv in H0 as (line & _ & (code & Hcode & [= <- <-])%bind_Return_inv).
  pose proof (split_tokens line) as Htokens.
  split; [exact Horbs |]. split.
  - unfold getitem in Hcode.
    destruct (Py.split line) as [|tok toks]; [done |].
    simpl in Hcode. injection Hcode as <-. by apply Forall_cons in Htokens as [? _].
  - rewrite split_join; [done |]. by apply Forall_drop.
Qed.

Section SampleParsed.
#[local] Existing Instance Sample.utils.

(** The hydrogen input, read from its file. *)
Lemma from_file_invariants_witness :
  let content : str :=
    ("   ae      H  atom" : str) ++ InputFile.nl
      ++ (" n=H  c=ca" : str) ++ InputFile.nl
      ++ ("       0.0       0.0" : str) ++ InputFile.nl
      ++ ("    0    1" : str) ++ InputFile.nl
      ++ ("    1    0      1.00      0.00" : str) ++ InputFile.nl
      ++ ("100 maxit" : str) ++ InputFile.nl in
  let self :=
    InputFile.mk "ca" "ae" "H atom" "H"
      (("       0.0       0.0" : str) ++ InputFile.nl)
      0 1 [Orbital.mk 1 0 [1%float; 0%float]]
      [("100 maxit" : str) ++ InputFile.nl] in
  InputFile.from_file content = Return self
  /\ length (InputFile.valence_orbitals self)
     = Z.to_nat (InputFile.number_valence_orbitals self)
  /\ Py.token (InputFile.calculation_code self)
  /\ Py.join " " (Py.split (InputFile.description self))
     = InputFile.description self.
Proof.
  intros content self.
  assert (InputFile.from_file content = Return self) as Hread
    by (vm_compute; reflexivity).
  split; [exact Hread |].
  exact (from_file_invariants content self Hread).
Defined.

End SampleParsed.

(** ** What [_get_corrections_indexes] returns when it returns *)

Section SelectionOnSharedLabels.
Import Pandas Selection.

Lemma dict_get_middle (pre : list (str * list label)) k l post :
  k ∉ pre.*1 -> dict_get (pre ++ (k, l) :: post) k = Return l.
Proof.
  induction pre as [|[k' l'] pre IH]; intros Hk; simpl.
  - by rewrite bool_decide_eq_true_2.
  - rewrite fmap_cons, not_elem_of_cons in Hk. destruct Hk as [Hne Hk].
    rewrite bool_decide_eq_false_2 by done. by apply IH.
Qed.

Lemma dict_set_middle (pre : list (str * list label)) k l l' post :
  k ∉ pre.*1 ->
  dict_set (pre ++ (k, l) :: post) k l' = pre ++ (k, l') :: post.
Proof.
  induction pre as [|[k0 l0] pre IH]; intros Hk; simpl.
  - by rewrite bool_decide_eq_true_2.
  - rewrite fmap_cons, not_elem_of_cons in Hk. destruct Hk as [Hne Hk].
    rewrite bool_decide_eq_false_2 by done. by rewrite IH.
Qed.

Lemma dict_set_fresh (d : list (str * list label)) k l :
  k ∉ d.*1 -> dict_set d k l = d ++ [(k, l)].
Proof.
  induction d as [|[k0 l0] d IH]; intros Hk; simpl; [done |].
  rewrite fmap_cons, not_elem_of_cons in Hk. destruct Hk as [Hne Hk].
  rewrite bool_decide_eq_false_2 by done. by rewrite IH.
Qed.

Lemma fold_dict_set_fresh rows (d : list (str * list label)) :
  NoDup rows -> (forall r, r ∈ rows -> r ∉ d.*1) ->
  fold_left (fun d row => dict_set d row []) rows d
  = d ++ map (fun row => (row, [])) rows.
Proof.
  intros Hnd. revert d. induction Hnd as [|r rows Hr Hnd IH]; intros d Hd; simpl.
  - by rewrite app_nil_r.
  - rewrite dict_set_fresh by (apply Hd; by left).
    rewrite IH.
    + by rewrite <- app_assoc.
    + intros r' Hin. rewrite fmap_app, not_elem_of_app. split.
      * apply Hd. by right.
      * simpl. intros Heq%list_elem_of_singleton. by subst.
Qed.

(** The orbitals selected for one row: the cells [df[column][row]] of the
    columns whose transposed cell [df[row][column]] reaches the threshold. *)
Local Abbreviation selected df row columns :=
  (map (fun column => LNum (cell df column row))
       (List.filter (fun column => PrimFloat.leb minimum_percentual
                                                 (cell df row column))
                    columns)).

Lemma corrections_loop_row df row cols rest pre l post :
  row ∈ columns df -> row ∈ index df ->
  (forall c, c ∈ cols -> c ∈ columns df /\ c ∈ index df) ->
  row ∉ pre.*1 ->
  corrections_loop df (map (pair row) cols ++ rest) (pre ++ (row, l) :: post)
  = corrections_loop df rest (pre ++ (row, l ++ selected df row cols) :: post).
Proof.
  intros Hrc Hri Hcols Hpre. revert l.
  induction cols as [|c cols IH]; intros l.
  - simpl. by rewrite app_nil_r.
  - destruct (Hcols c) as [Hcc Hci]; [by left |].
    assert (forall c', c' ∈ cols -> c' ∈ columns df /\ c' ∈ index df) as Hcols'
      by (intros c' Hin; apply Hcols; by right).
    simpl. unfold at_, getitem, getitem_series. simpl.
    rewrite (bool_decide_eq_true_2 (row ∈ columns df)) by done. simpl.
    rewrite (bool_decide_eq_true_2 (c ∈ index df)) by done. simpl.
    destruct (PrimFloat.leb minimum_percentual (cell df row c)); simpl.
    + rewrite (bool_decide_eq_true_2 (c ∈ columns df)) by done. simpl.
      rewrite (bool_decide_eq_true_2 (row ∈ index df)) by done. simpl.
      rewrite dict_get_middle by done. simpl.
      rewrite dict_set_middle by done.
      rewrite (IH Hcols'). by rewrite <- app_assoc.
    + apply (IH Hcols').
Qed.

Lemma corrections_loop_rows df rows pre :
  NoDup rows ->
  (forall r, r ∈ rows -> r ∈ columns df /\ r ∈ index df /\ r ∉ pre.*1) ->
  (forall c, c ∈ columns df -> c ∈ index df) ->
  corrections_loop df (list_prod rows (columns df))
                   (pre ++ map (fun row => (row, [])) rows)
  = Return (pre ++ map (fun row => (row, selected df row (columns df))) rows).
Proof.
  intros Hnd. revert pre.
  induction Hnd as [|r rows Hr Hnd IH]; intros pre Hrows Hcols; simpl.
  - done.
  - destruct (Hrows r) as (Hrc & Hri & Hpre); [by left |].
    assert (forall c, c ∈ columns df -> c ∈ columns df /\ c ∈ index df) as Hall
      by (intros c Hc; split; [done | by apply Hcols]).
    rewrite (corrections_loop_row df r (columns df) _ pre [] _ Hrc Hri Hall Hpre).
    simpl.
    change (pre ++ (r, selected df r (columns df)) :: map (fun row => (row, [])) rows)
      with (pre ++ [(r, selected df r (columns df))] ++ map (fun row => (row, [])) rows).
    rewrite app_assoc, IH.
    + by rewrite <- app_assoc.
    + intros r' Hin. destruct (Hrows r') as (? & ? & Hpre'); [by right |].
      split; [done |]. split; [done |].
      rewrite fmap_app, not_elem_of_app. split; [done |].
      simpl. intros Heq%list_elem_of_singleton. by subst.
    + done.
Qed.

End SelectionOnSharedLabels.

(** X17.  On a table whose row labels are distinct, whose column labels
    are distinct, and whose row labels are the same as its column labels,
    [_get_corrections_indexes] returns, with one entry per row in the order
    of the rows; the entry of a row holds, in the order of the columns, the
    cell [df[column][row]] of every column whose transposed cell
    [df[row][column]] reaches the threshold of 5.  (With a repeated label
    [df[label]] is no column and [df[a][b]] no cell: such tables are outside
    this statement.) *)
Theorem get_corrections_indexes_on_shared_labels (df : Pandas.DataFrame) :
  NoDup (Pandas.index df) ->
  NoDup (Pandas.columns df) ->
  (forall x, x ∈ Pandas.index df <-> x ∈ Pandas.columns df) ->
  Selection._get_corrections_indexes df
  = Return
      (map (fun row =>
              (row,
               map (fun column => Pandas.LNum (Pandas.cell df column row))
                   (List.filter
                      (fun column =>
                         PrimFloat.leb Selection.minimum_percentual
                                       (Pandas.cell df row column))
                      (Pandas.columns df))))
           (Pandas.index df)).
Proof.
  intros Hnd _ Hsame. unfold Selection._get_corrections_indexes.
  rewrite fold_dict_set_fresh; [| done | intros r _; apply not_elem_of_nil].
  apply (corrections_loop_rows df (Pandas.index df) [] Hnd).
  - intros r Hr. split; [by apply Hsame |]. split; [done | apply not_elem_of_nil].
  - intros c Hc. by apply Hsame.
Qed.

(** A table with the labels [a] and [b] on both axes, 60 on its diagonal
    and 2 elsewhere: each row selects its diagonal cell. *)
Lemma get_corrections_indexes_on_shared_labels_witness :
  Selection._get_corrections_indexes
    (Pandas.mk [("a" : str); ("b" : str)] [("a" : str); ("b" : str)]
       (fun column row => if bool_decide (column = row) then 60 else 2)%float)
  = Return [(("a" : str), [Pandas.LNum 60]); (("b" : str), [Pandas.LNum 60])].
Proof.
  etransitivity.
  - apply get_corrections_indexes_on_shared_labels.
    + apply (bool_decide_unpack (NoDup [("a" : str); ("b" : str)])).
      vm_compute. exact I.
    + apply (bool_decide_unpack (NoDup [("a" : str); ("b" : str)])).
      vm_compute. exact I.
    + done.
  - vm_compute. reflexivity.
Defined.

(** ** [find_band_gap] when the potential file to correct is missing *)

Section BandGapFacts.
Context `{Utils}.
Context {world file potential_class atomic_potential potential : Type}.
Context `{!Collaborators world file potential_class atomic_potential potential}.
Import Conduction.

(** X18.  When the folder of potential files holds no file for the atom,
    [find_band_gap] has by then recreated the cut folder and copied the three
    input files into it; [_write_potfile] logs and raises FileNotFoundError,
    and neither the joined potential file is written nor the run started. *)
Theorem find_band_gap_missing_potfile
    (cut : float) (base_path symbol default_potential_filename : str)
    (atom_potential : atomic_potential) (potfiles_folder : str)
    (amplitude : float) (atoms : list str) (w w1 w2 w3 : world) :
  if_exists (cut_folder base_path cut)
    (shutil_rmtree (cut_folder base_path cut)) (mret ()) w = (w1, Return ()) ->
  os_mkdir (cut_folder base_path cut) w1 = (w2, Return ()) ->
  for_each [("INCAR" : str); ("KPOINTS" : str); ("POSCAR" : str)]
    (fun file => shutil_copyfile file (path_join (cut_folder base_path cut) file))
    w2 = (w3, Return ()) ->
  os_path_exists
    (path_join potfiles_folder
       (map Py.upper default_potential_filename ++ ("." : str)
          ++ map Py.lower symbol)) w3 = false ->
  find_band_gap cut base_path symbol default_potential_filename atom_potential
                potfiles_folder amplitude atoms w
  = (logger_error "Potfile does not found" w3, Raise (FileNotFoundError "")).
Proof.
  intros Hclean Hmkdir Hcopy Hmissing. unfold find_band_gap.
  rewrite (M_bind_Return _ _ _ _ _ Hclean), (M_bind_Return _ _ _ _ _ Hmkdir).
  rewrite (M_bind_Return _ _ _ _ _ Hcopy).
  apply M_bind_Raise. unfold _write_potfile.
  apply M_bind_Raise. unfold if_exists. simpl. simpl in Hmissing.
  by rewrite Hmissing.
Qed.

End BandGapFacts.

Section SampleBandGap.
#[local] Existing Instance Sample.utils.
#[local] Existing Instance Posix.collaborators.

(** The gallium nitride run in a working directory that holds the three
    input files and the folder of the search, and no potential file. *)
Lemma find_band_gap_missing_potfile_witness :
  let w :=
    Posix.mk [(("./find_cut" : str), Posix.Directory);
              (("INCAR" : str), Posix.RegularFile []);
              (("KPOINTS" : str), Posix.RegularFile []);
              (("POSCAR" : str), Posix.RegularFile [])] [] [] [] [] in
  exists w3,
    Conduction.find_band_gap 1 "." "Ga" "potcar" () Conduction.conduction_potfiles_folder
                             1 [("Ga" : str); ("N" : str)] w
    = (logger_error "Potfile does not found" w3,
       Raise (FileNotFoundError "")).
Proof.
  intros w. eexists.
  eapply (find_band_gap_missing_potfile 1 "." "Ga" "potcar" ()
            Conduction.conduction_potfiles_folder 1 [("Ga" : str); ("N" : str)] w);
    [vm_compute; reflexivity | vm_compute; reflexivity
     | vm_compute; reflexivity | vm_compute; reflexivity].
Defined.

End SampleBandGap.

(** ** [InputFile.from_file]: the exceptions that leave it, and the layout
       it does not look at *)

Section FromFileClosure.
Context `{Utils}.
Import Py TextFile InputFile.

Lemma try_except_raise_cases {A} (c : result A) e :
  (exists a, try_except_raise c e = Return a) \/ try_except_raise c e = Raise e.
Proof. destruct c; [left; eauto | by right]. Qed.

Lemma init_raises xc cc sym eso nv nc orbs descr last e :
  init xc cc sym eso nv nc orbs descr last = Raise e ->
  e ∈ [ValueError "Your value of exchange and correlation functional is not valid";
       ValueError "Your value of calculation is not valid";
       ValueError "The chemical symbol passed is not correct"].
Proof.
  unfold init, exchange_correlation_type_setter, calculation_code_setter,
    chemical_symbol_setter.
  destruct (Re.re_match xc_validation_regex xc); simpl;
    [| intros [= <-]; set_solver].
  destruct (Re.re_match calculation_validation_regex cc); simpl;
    [| intros [= <-]; set_solver].
  destruct (PeriodicTable sym); simpl; [done | intros [= <-]; set_solver].
Qed.

Lemma comprehension_ext_in {A B} (f g : A -> result B) xs :
  (forall x, x ∈ xs -> f x = g x) -> comprehension f xs = comprehension g xs.
Proof.
  induction xs as [|x xs IH]; intros Hfg; simpl; [done |].
  rewrite (Hfg x) by (by left). rewrite IH; [done |].
  intros y Hy. apply Hfg. by right.
Qed.

End FromFileClosure.

(** Once the text of the file is read: the only exceptions that leave
    [from_file] are the four ValueErrors of its [try] blocks, the IndexError
    of the read of the third line, and the three ValueErrors of the
    constructor. *)
Lemma from_file_raises_only `{Utils} (content : str) :
  match InputFile.from_file content with
  | Return _ => True
  | Raise e =>
      e ∈ [ValueError "Description or calculation code not provided";
           ValueError "Chemical symbol or exchange correlation not provided";
           IndexError;
           ValueError "Number of core orbitals or number of valence orbitals not provided";
           ValueError "Valence orbitals do not provided correctly";
           ValueError "Your value of exchange and correlation functional is not valid";
           ValueError "Your value of calculation is not valid";
           ValueError "The chemical symbol passed is not correct"]
  end.
Proof.
  unfold InputFile.from_file.
  match goal with
  | |- context [try_except_raise ?c ?e ≫= _] =>
      destruct (try_except_raise_cases c e) as [[[cc descr] ->]| ->]
  end; [| simpl; set_solver]. simpl.
  match goal with
  | |- context [try_except_raise ?c ?e ≫= _] =>
      destruct (try_except_raise_cases c e) as [[[sym xc] ->]| ->]
  end; [| simpl; set_solver]. simpl.
  destruct (getitem (drop_comments (TextFile.readlines content)) 2)
    as [eso|e2] eqn:H2; simpl.
  2:{ unfold getitem in H2.
      destruct (drop_comments (TextFile.readlines content) !! 2%nat);
        [done | injection H2 as <-; set_solver]. }
  match goal with
  | |- context [try_except_raise ?c ?e ≫= _] =>
      destruct (try_except_raise_cases c e) as [[[ncore nval] ->]| ->]
  end; [| simpl; set_solver]. simpl.
  match goal with
  | |- context [try_except_raise ?c ?e ≫= _] =>
      destruct (try_except_raise_cases c e) as [[orbs ->]| ->]
  end; [| simpl; set_solver]. simpl.
  match goal with
  | |- match ?c with _ => _ end => destruct c as [self|e] eqn:Hinit
  end; [done |].
  apply init_raises in Hinit. by do 5 apply list_elem_of_further.
Qed.

(** X19.  [from_file] opens its file and reads its lines before any [try],
    so whatever [open], [readlines] or the closing of the file raise
    (FileNotFoundError, a decoding error) leaves it as it is.  Those apart,
    the only exceptions that leave [from_file] are the four ValueErrors of
    its [try] blocks, the IndexError of the read of the third line, and the
    three ValueErrors of the constructor: what [parse_valence_orbitals],
    [int] or an index raise inside a [try] block never gets out as it is. *)
Theorem from_file_path_raises_only `{Utils}
    {world file potential_class atomic_potential potential : Type}
    `{!Collaborators world file potential_class atomic_potential potential}
    (filename : str) (w : world) :
  match Files.from_file filename w with
  | (_, Return _) => True
  | (w', Raise e) =>
      e ∈ [ValueError "Description or calculation code not provided";
           ValueError "Chemical symbol or exchange correlation not provided";
           IndexError;
           ValueError "Number of core orbitals or number of valence orbitals not provided";
           ValueError "Valence orbitals do not provided correctly";
           ValueError "Your value of exchange and correlation functional is not valid";
           ValueError "Your value of calculation is not valid";
           ValueError "The chemical symbol passed is not correct"]
      \/ open_ filename "r" w = (w', Raise e)
      \/ (exists input_file w0 w1,
            open_ filename "r" w = (w0, Return input_file)
            /\ file_read input_file w0 = (w1, Raise e))
      \/ (exists input_file w1, file_close input_file w1 = (w', Raise e))
  end.
Proof.
  unfold Files.from_file, Conduction.with_open, mbind, M_bind.
  destruct (open_ filename "r" w) as [w0 [input_file|e]] eqn:Hopen;
    [| right; by left].
  unfold finally.
  destruct (file_read input_file w0) as [w1 [content|e]] eqn:Hread.
  - unfold lift.
    pose proof (from_file_raises_only content) as Hown.
    destruct (file_close input_file w1) as [w2 [[]|e']] eqn:Hclose.
    + destruct (InputFile.from_file content) as [self|e]; [done | by left].
    + right. right. right. by exists input_file, w1.
  - destruct (file_close input_file w1) as [w2 [[]|e']] eqn:Hclose.
    + right. right. left. by exists input_file, w0, w1.
    + right. right. right. by exists input_file, w1.
Qed.

Section FromFileLayout.
Context `{Utils}.
Import Py TextFile InputFile.

(** X20.  [from_file] looks at the tokens of the three header lines it
    splits and not at their layout: two files whose first, second and fourth
    lines split into the same tokens, and whose other lines are the same,
    are read alike, provided the valence-orbital count is not negative (with
    a negative count the header lines themselves would enter the last
    lines). *)
Theorem from_file_reads_tokens content content' L0 L0' L1 L1' L2 L3 L3' rest :
  drop_comments (readlines content) = L0 :: L1 :: L2 :: L3 :: rest ->
  drop_comments (readlines content') = L0' :: L1' :: L2 :: L3' :: rest ->
  split L0 = split L0' -> split L1 = split L1' -> split L3 = split L3' ->
  (forall b nval,
      split L3 !! 1%nat = Some b -> int_of_str b = Some nval -> 0 <= nval) ->
  from_file content = from_file content'.
Proof.
  intros Hl Hl' H0 H1 H3 Hcount. unfold from_file. rewrite Hl, Hl'.
  unfold getitem. simpl. rewrite <- H0, <- H1, <- H3.
  match goal with
  | |- try_except_raise ?c ?e ≫= _ = _ =>
      destruct (try_except_raise c e) as [[cc descr]|]; [simpl | done]
  end.
  match goal with
  | |- try_except_raise ?c ?e ≫= _ = _ =>
      destruct (try_except_raise c e) as [[sym xc]|]; [simpl | done]
  end.
  destruct (split L3 !! 0%nat) as [a|]; [simpl | done].
  destruct (int a) as [ncore|]; [simpl | done].
  destruct (split L3 !! 1%nat) as [b|] eqn:Hb; [simpl | done].
  unfold int.
  destruct (int_of_str b) as [nval|] eqn:Hn; [simpl | done].
  pose proof (Hcount b nval eq_refl Hn) as Hnval.
  rewrite (comprehension_ext_in
             (fun i => match (L0 :: L1 :: L2 :: L3 :: rest) !! i with
                       | Some x => Return x
                       | None => Raise IndexError
                       end ≫= parse_valence_orbitals)
             (fun i => match (L0' :: L1' :: L2 :: L3' :: rest) !! i with
                       | Some x => Return x
                       | None => Raise IndexError
                       end ≫= parse_valence_orbitals)).
  2:{ intros i Hi%list_elem_of_In%in_seq.
      do 4 (destruct i as [|i]; [lia |]). reflexivity. }
  unfold slice_from.
  destruct (Z.ltb_spec (4 + nval) 0) as [Hlt|_]; [lia |].
  replace (Z.to_nat (4 + nval)) with (4 + Z.to_nat nval)%nat by lia.
  reflexivity.
Qed.

End FromFileLayout.

Section SampleLayout.
#[local] Existing Instance Sample.utils.

(** The hydrogen input, in two layouts of its header. *)
Lemma from_file_reads_tokens_witness :
  InputFile.from_file
    (("   ae      H  atom" : str) ++ InputFile.nl
       ++ (" n=H  c=ca" : str) ++ InputFile.nl
       ++ ("       0.0       0.0" : str) ++ InputFile.nl
       ++ ("    0    1" : str) ++ InputFile.nl
       ++ ("    1    0      1.00      0.00" : str) ++ InputFile.nl)
  = InputFile.from_file
      (("ae H atom" : str) ++ InputFile.nl
         ++ ("n=H   c=ca  " : str) ++ InputFile.nl
         ++ ("       0.0       0.0" : str) ++ InputFile.nl
         ++ ("0 1" : str) ++ InputFile.nl
         ++ ("    1    0      1.00      0.00" : str) ++ InputFile.nl).
Proof.
  eapply from_file_reads_tokens;
    [vm_compute; reflexivity | vm_compute; reflexivity
     | vm_compute; reflexivity | | vm_compute; reflexivity |].
  - vm_compute. reflexivity.
  - intros b nval Hb Hn. vm_compute in Hb. injection Hb as <-.
    vm_compute in Hn. injection Hn as <-. lia.
Defined.

End SampleLayout.

(** ** [Vtotal.from_file] on a file without the Down marker *)

Section VtotalFromFile.
Context `{Utils}.
Context {world file potential_class atomic_potential potential : Type}.
Context `{!Collaborators world file potential_class atomic_potential potential}.
Import Conduction.

(** X21.  [Vtotal.from_file] reads its file twice.  On a file none of whose
    lines is a Down marker, the first reading ([read_radius]) ends without a
    value and without an exception, and the second ([read_down_potential])
    raises ValueError("Potential informations do not found in vtotal") once
    the file has been closed again: no [Vtotal] is built from such a file. *)
Theorem Vtotal_from_file_without_marker
    (filename content : str) (f f' : file) (w w1 w2 w3 w4 w5 w6 : world) :
  open_ filename "r" w = (w1, Return f) ->
  file_read f w1 = (w2, Return content) ->
  file_close f w2 = (w3, Return ()) ->
  open_ filename "r" w3 = (w4, Return f') ->
  file_read f' w4 = (w5, Return content) ->
  file_close f' w5 = (w6, Return ()) ->
  Forall (fun line => Re.re_match Vtotal.down_regex line = false)
         (TextFile.readlines content) ->
  Vtotal_from_file filename w
  = (w6, Raise (ValueError "Potential informations do not found in vtotal")).
Proof.
  intros Hopen Hread Hclose Hopen' Hread' Hclose' Hlines.
  assert (Vtotal.read_radius content = Return None) as Hradius.
  { apply read_table_no_marker. intros line Hin.
    apply (proj1 (Forall_forall _ _) (Forall_drop _ 1 _ Hlines)). exact Hin. }
  assert (Vtotal.read_down_potential content
          = Raise (ValueError "Potential informations do not found in vtotal"))
    as Hdown.
  { unfold Vtotal.read_down_potential. rewrite after_marker_None; [done |].
    intros line Hin. by apply (proj1 (Forall_forall _ _) Hlines). }
  unfold Vtotal_from_file, with_open, finally, lift, mbind, M_bind.
  rewrite Hopen, Hread, Hradius, Hclose. simpl.
  by rewrite Hopen', Hread', Hdown, Hclose'.
Qed.

End VtotalFromFile.

Section SampleVtotalFile.
#[local] Existing Instance Sample.utils.
#[local] Existing Instance Posix.collaborators.

(** A file of two radii without any marker. *)
Lemma Vtotal_from_file_without_marker_witness :
  let w :=
    Posix.mk [(("VTOTAL.ae" : str),
               Posix.RegularFile ((" Radial grid follows" : str) ++ InputFile.nl
                                    ++ (" 0.1 0.2" : str) ++ InputFile.nl))]
             [] [] [] [] in
  Conduction.Vtotal_from_file "VTOTAL.ae" w
  = (w, Raise (ValueError "Potential informations do not found in vtotal")).
Proof.
  intros w.
  eapply (Vtotal_from_file_without_marker "VTOTAL.ae"
            ((" Radial grid follows" : str) ++ InputFile.nl
               ++ (" 0.1 0.2" : str) ++ InputFile.nl));
    [reflexivity | reflexivity | reflexivity | reflexivity | reflexivity
     | reflexivity |].
  apply (proj2 (Forall_forall _ _)). intros line Hin.
  vm_compute in Hin.
  repeat (apply elem_of_cons in Hin as [->|Hin]; [vm_compute; reflexivity |]).
  by apply elem_of_nil in Hin.
Defined.

End SampleVtotalFile.
